(** * GroupManagerBot (bot.py): the counter store, the permission gate and the
      command handlers, embedded from the source and checked against the
      specification's claims.

    Layout of the development:
    - [Sql]: the values and the two expression forms the SQL statements use;
    - [GroupStats], [UserActivity]: the two tables, rows as the CREATE TABLE
      statements declare them, INSERT OR REPLACE and the scalar subqueries;
    - [Database], [init_database], the two statements of [track_activity];
    - the platform (remote calls, their answers and errors), the [bot] monad
      (state: call log and database; exceptions), the ten handlers and the
      dispatcher of [setup_handlers];
    - the vocabulary of the statements and the concrete data of the examples;
    - the lemmas and the theorems, one per property of the specification. *)

From Stdlib Require Import ZArith List String Ascii Bool Lia DecimalString.
Import ListNotations.
Local Open Scope Z_scope.
Local Open Scope list_scope.

(** String concatenation, written apart from list concatenation. *)
Infix "+++" := String.append (right associativity, at level 60).

(* ===================================================================== *)
(** ** SQL values *)
(* ===================================================================== *)

Module Sql.

(** The values the INTEGER columns of the two tables hold. SQLite integers
    are 64-bit signed. When an integer sum leaves that range SQLite computes
    it in binary64 instead; for [x + 1] this happens at [x = 2^63 - 1] only
    and gives the REAL 2^63, which the column keeps as a REAL and which
    [+ 1] maps to itself (2^63 + 1 rounds to 2^63). [SqlReal63] is that
    value; no other REAL is ever written by the program. *)
Inductive sqlval : Type :=
| SqlNull
| SqlInt (z : Z)
| SqlReal63.

Definition min_int64 : Z := - 2 ^ 63.
Definition max_int64 : Z := 2 ^ 63 - 1.

Definition in_int64 (z : Z) : bool := (min_int64 <=? z) && (z <=? max_int64).

(** [COALESCE(x, d)]: the first argument that is not NULL. *)
Definition coalesce (x d : sqlval) : sqlval :=
  match x with
  | SqlNull => d
  | _ => x
  end.

(** [x + 1]. NULL is absorbing; the integer sum is exact while it fits. *)
Definition plus_one (x : sqlval) : sqlval :=
  match x with
  | SqlNull => SqlNull
  | SqlInt z => if z <? max_int64 then SqlInt (z + 1) else SqlReal63
  | SqlReal63 => SqlReal63
  end.

(** The numeric value of a cell, for comparing counters: NULL sorts below
    every number in SQLite, so it is given no value; [SqlReal63] is 2^63. *)
Definition numeric (x : sqlval) : option Z :=
  match x with
  | SqlNull => None
  | SqlInt z => Some z
  | SqlReal63 => Some (2 ^ 63)
  end.

(** SQLite's ordering restricted to these values: [le x y] is [x <= y]. *)
Definition le (x y : sqlval) : bool :=
  match numeric x, numeric y with
  | None, _ => true
  | Some _, None => false
  | Some a, Some b => a <=? b
  end.

(** A cell is well typed when its integer, if any, is a 64-bit one. *)
Definition well_typed (x : sqlval) : bool :=
  match x with
  | SqlInt z => in_int64 z
  | _ => true
  end.

Definition eqb (x y : sqlval) : bool :=
  match x, y with
  | SqlNull, SqlNull => true
  | SqlInt a, SqlInt b => a =? b
  | SqlReal63, SqlReal63 => true
  | _, _ => false
  end.

End Sql.

Import Sql.

(* ===================================================================== *)
(** ** Table group_stats *)
(* ===================================================================== *)

Module GroupStats.

(** CREATE TABLE IF NOT EXISTS group_stats (group_id INTEGER, date TEXT,
    member_count INTEGER, messages_count INTEGER DEFAULT 0,
    PRIMARY KEY (group_id, date)). *)
Record row : Type := mk_row {
  group_id : Z;
  date : string;
  member_count : sqlval;
  messages_count : sqlval
}.

(** Rows in rowid order. *)
Definition table : Type := list row.

Definition key (r : row) : Z * string := (group_id r, date r).

(** [WHERE group_id = ? AND date = ?] *)
Definition matches (g : Z) (d : string) (r : row) : bool :=
  (group_id r =? g) && String.eqb (date r) d.

(** [(SELECT messages_count FROM group_stats WHERE group_id = ? AND date = ?)]
    as a scalar subquery: the value in the first matching row, NULL when no
    row matches. *)
Definition select_messages_count (g : Z) (d : string) (t : table) : sqlval :=
  match find (matches g d) t with
  | Some r => messages_count r
  | None => SqlNull
  end.

(** [(SELECT COALESCE(member_count, 0) FROM group_stats WHERE group_id = ?
    AND date = ?)]: the COALESCE is inside the subquery, so it applies to a
    matching row only; with no row the subquery is NULL. *)
Definition select_coalesce_member_count (g : Z) (d : string) (t : table)
  : sqlval :=
  match find (matches g d) t with
  | Some r => coalesce (member_count r) (SqlInt 0)
  | None => SqlNull
  end.

(** [INSERT OR REPLACE]: every row that conflicts with the new one on the
    primary key is deleted, then the new row is inserted (it gets a fresh,
    largest rowid). *)
Definition insert_or_replace (new : row) (t : table) : table :=
  filter (fun r => negb (matches (group_id new) (date new) r)) t ++ [new].

(** The second statement of [track_activity], with its six parameters
    [(chat.id, today, chat.id, today, chat.id, today)]. The VALUES
    expressions are evaluated on the table as it is before the insert. *)
Definition upsert (chat_id : Z) (today : string) (t : table) : table :=
  insert_or_replace
    {| group_id := chat_id;
       date := today;
       member_count := select_coalesce_member_count chat_id today t;
       messages_count :=
         plus_one (coalesce (select_messages_count chat_id today t) (SqlInt 0))
    |} t.

(** [SELECT messages_count ... ] followed by [fetchone()] in [stats_command]:
    the first matching row, if any. *)
Definition fetchone_messages_count (g : Z) (d : string) (t : table)
  : option sqlval :=
  option_map messages_count (find (matches g d) t).

End GroupStats.

(* ===================================================================== *)
(** ** Table user_activity *)
(* ===================================================================== *)

Module UserActivity.

(** CREATE TABLE IF NOT EXISTS user_activity (user_id INTEGER,
    group_id INTEGER, username TEXT, first_name TEXT, last_message DATE,
    message_count INTEGER DEFAULT 0, PRIMARY KEY (user_id, group_id)).
    [username] is NULL for a user without one ([user.username] is None). *)
Record row : Type := mk_row {
  user_id : Z;
  group_id : Z;
  username : option string;
  first_name : string;
  last_message : string;
  message_count : sqlval
}.

Definition table : Type := list row.

Definition key (r : row) : Z * Z := (user_id r, group_id r).

(** [WHERE user_id = ? AND group_id = ?] *)
Definition matches (u g : Z) (r : row) : bool :=
  (user_id r =? u) && (group_id r =? g).

(** [(SELECT message_count FROM user_activity WHERE user_id = ? AND
    group_id = ?)] as a scalar subquery. *)
Definition select_message_count (u g : Z) (t : table) : sqlval :=
  match find (matches u g) t with
  | Some r => message_count r
  | None => SqlNull
  end.

Definition insert_or_replace (new : row) (t : table) : table :=
  filter (fun r => negb (matches (user_id new) (group_id new) r)) t ++ [new].

(** The first statement of [track_activity], with its seven parameters
    [(user.id, chat.id, user.username, user.first_name, today, user.id,
    chat.id)]. *)
Definition upsert (uid chat_id : Z) (uname : option string) (fname : string)
    (today : string) (t : table) : table :=
  insert_or_replace
    {| user_id := uid;
       group_id := chat_id;
       username := uname;
       first_name := fname;
       last_message := today;
       message_count :=
         plus_one (coalesce (select_message_count uid chat_id t) (SqlInt 0))
    |} t.

(** [SELECT COUNT( * ) FROM user_activity WHERE group_id = ? AND
    last_message = ?] in [stats_command]. *)
Definition count_active (g : Z) (d : string) (t : table) : nat :=
  List.length
    (filter (fun r => (group_id r =? g) && String.eqb (last_message r) d) t).

End UserActivity.

(* ===================================================================== *)
(** ** The database file *)
(* ===================================================================== *)

(** The file [group_stats.db]: each of the two tables either does not exist
    yet ([None]) or exists with its rows. [sqlite3.connect] on a missing
    file gives the database with no table. *)
Record Database : Type := mk_db {
  group_stats : option GroupStats.table;
  user_activity : option UserActivity.table
}.

Definition empty_file : Database :=
  {| group_stats := None; user_activity := None |}.

(** [CREATE TABLE IF NOT EXISTS]: an existing table is left as it is. *)
Definition create_table_if_not_exists {R : Type} (t : option (list R))
  : option (list R) :=
  match t with
  | Some rows => Some rows
  | None => Some []
  end.

(** [init_database]: both CREATE TABLE IF NOT EXISTS statements, then commit. *)
Definition init_database (db : Database) : Database :=
  {| group_stats := create_table_if_not_exists (group_stats db);
     user_activity := create_table_if_not_exists (user_activity db) |}.

(* ===================================================================== *)
(** ** Updates *)
(* ===================================================================== *)

Module User.
(** [telegram.User], the attributes the handlers read. The platform's
    identifiers fit a 64-bit integer, so SQLite stores them as they are. *)
Record t : Type := mk {
  id : Z;
  username : option string;
  first_name : string
}.
End User.

Module Chat.
(** [telegram.Chat]: [type] is 'private', 'group', 'supergroup' or
    'channel'; [title] is None for private chats. *)
Record t : Type := mk {
  id : Z;
  type : string;
  title : option string
}.
End Chat.

(** The message a command replies to ([message.reply_to_message]); its
    [from_user] may be None. *)
Record RepliedMessage : Type := {
  from_user : option User.t
}.

Record Message : Type := {
  reply_to_message : option RepliedMessage
}.

(** [telegram.Update] as a handler receives it. Every update that reaches a
    handler is a new or edited message or channel post, so it has a chat.
    [message] is [update.message]: None for an edited message (which
    [CommandHandler] takes too) and for a channel post. [effective_user] is
    None when the update has no sender, as for a channel post (which
    [filters.ALL] takes). *)
Record Update : Type := {
  effective_user : option User.t;
  effective_chat : Chat.t;
  message : option Message
}.

(** [context.args]: the words after the command. *)
Record Context : Type := {
  args : list string
}.

(** One reading of [datetime.now()], with the two renderings the code asks
    [strftime] for, and the time in seconds for [+ timedelta(hours=1)]. *)
Record datetime : Type := {
  timestamp : Z;
  strftime_Ymd : string;     (* '%Y-%m-%d' *)
  strftime_YmdHMS : string   (* '%Y-%m-%d %H:%M:%S' *)
}.

(** The clock of one handler invocation: its n-th call of [datetime.now()]. *)
Definition Clock : Type := nat -> datetime.

(* ===================================================================== *)
(** ** The platform *)
(* ===================================================================== *)

(** [telegram.ChatPermissions]: a keyword that is not passed stays None. *)
Record ChatPermissions : Type := {
  can_send_messages : option bool;
  can_send_media_messages : option bool;
  can_send_polls : option bool;
  can_send_other_messages : option bool;
  can_add_web_page_previews : option bool;
  can_change_info : option bool;
  can_invite_users : option bool;
  can_pin_messages : option bool
}.

(** The remote calls of the program. [ReplyText] is
    [update.message.reply_text(text, parse_mode=...)], which sends to the
    chat of the update. *)
Inductive call : Type :=
| GetChatMember (chat_id user_id : Z)
| GetChatMemberCount (chat_id : Z)
| GetChatAdministrators (chat_id : Z)
| SetChatPermissions (chat_id : Z) (permissions : ChatPermissions)
| RestrictChatMember (chat_id user_id : Z) (permissions : ChatPermissions)
                     (until_date : option Z)
| BanChatMember (chat_id user_id : Z)
| UnbanChatMember (chat_id user_id : Z)
| ReplyText (chat_id : Z) (text : string) (parse_mode : option string).

(** What a call gave: a [TelegramError] with its message, or its value. *)
Inductive answer : Type :=
| Raised (msg : string)
| Status (status : string)
| Count (n : Z)
| Administrators (admins : list Z)
| Done.

Definition event : Type := (call * answer)%type.

(** The platform as the program sees it. Every answer may depend on all the
    calls made so far (the log, oldest first): [fault] says whether a call
    raises [TelegramError] and with which message; the three lookups have a
    value when they do not raise. [bot_id] is [context.bot.id]. *)
Record Platform : Type := {
  bot_id : Z;
  fault : list event -> call -> option string;
  member_status : list event -> Z -> Z -> string;
  member_count : list event -> Z -> Z;
  administrators : list event -> Z -> list Z
}.

(** The platform's ban list read off the log: [ban_chat_member] that
    returned puts the user on the chat's ban list, [unban_chat_member] that
    returned takes the user off it (the user may join again); a call that
    raised changes nothing. *)
Definition ban_step (chat user : Z) (banned : bool) (e : event) : bool :=
  match e with
  | (BanChatMember c u, Done) =>
      if (c =? chat) && (u =? user) then true else banned
  | (UnbanChatMember c u, Done) =>
      if (c =? chat) && (u =? user) then false else banned
  | _ => banned
  end.

Definition is_banned_from (init : bool) (l : list event) (chat user : Z) : bool :=
  fold_left (ban_step chat user) l init.

Definition is_banned (l : list event) (chat user : Z) : bool :=
  is_banned_from false l chat user.

(* ===================================================================== *)
(** ** The bot monad: call log, database, exceptions *)
(* ===================================================================== *)

Inductive exn : Type :=
| TelegramError (msg : string)
| OperationalError (msg : string)    (* sqlite3: 'no such table: ...' *)
| AttributeError (msg : string).     (* an attribute of None *)

Inductive outcome (A : Type) : Type :=
| Returned (a : A)
| Raises (e : exn).
Arguments Returned {A} a.
Arguments Raises {A} e.

Record World : Type := {
  log : list event;
  db : Database
}.

Definition bot (A : Type) : Type := Platform -> World -> outcome A * World.

Definition ret {A} (a : A) : bot A := fun _ w => (Returned a, w).

Definition bind {A B} (c : bot A) (k : A -> bot B) : bot B :=
  fun pf w =>
    match c pf w with
    | (Returned a, w') => k a pf w'
    | (Raises e, w') => (Raises e, w')
    end.

Declare Scope bot_scope.
Delimit Scope bot_scope with bot.
Notation "x <- c ;; k" := (bind c (fun x => k))
  (at level 100, c at next level, right associativity) : bot_scope.
Notation "c ;; k" := (bind c (fun _ => k))
  (at level 100, right associativity) : bot_scope.
Local Open Scope bot_scope.

Definition raise {A} (e : exn) : bot A := fun _ w => (Raises e, w).

(** [None.name]: what reading an attribute of None raises. *)
Definition none_has_no (name : string) : exn :=
  AttributeError ("'NoneType' object has no attribute '" +++ name +++ "'").

(** [try: body except TelegramError as e: handler(str(e))]. Any other
    exception passes through. *)
Definition try_except {A} (body : bot A) (handler : string -> bot A) : bot A :=
  fun pf w =>
    match body pf w with
    | (Raises (TelegramError msg), w') => handler msg pf w'
    | r => r
    end.

(** One remote call: ask the platform, log the call with its answer, then
    raise or return. *)
Definition perform {A} (c : call) (value : Platform -> list event -> A)
    (shown : A -> answer) : bot A :=
  fun pf w =>
    match fault pf (log w) c with
    | Some msg =>
        (Raises (TelegramError msg),
         {| log := log w ++ [(c, Raised msg)]; db := db w |})
    | None =>
        let v := value pf (log w) in
        (Returned v, {| log := log w ++ [(c, shown v)]; db := db w |})
    end.

Definition get_chat_member (chat user : Z) : bot string :=
  perform (GetChatMember chat user)
          (fun pf l => member_status pf l chat user) Status.

Definition get_chat_member_count (chat : Z) : bot Z :=
  perform (GetChatMemberCount chat) (fun pf l => member_count pf l chat) Count.

Definition get_chat_administrators (chat : Z) : bot (list Z) :=
  perform (GetChatAdministrators chat)
          (fun pf l => administrators pf l chat) Administrators.

Definition command (c : call) : bot unit :=
  perform c (fun _ _ => tt) (fun _ => Done).

Definition set_chat_permissions (chat : Z) (p : ChatPermissions) : bot unit :=
  command (SetChatPermissions chat p).

Definition restrict_chat_member (chat user : Z) (p : ChatPermissions)
    (until : option Z) : bot unit :=
  command (RestrictChatMember chat user p until).

Definition ban_chat_member (chat user : Z) : bot unit :=
  command (BanChatMember chat user).

Definition unban_chat_member (chat user : Z) : bot unit :=
  command (UnbanChatMember chat user).

(** [update.message.reply_text(text, parse_mode=...)]: without
    [update.message] the attribute lookup raises and nothing is sent. *)
Definition reply_text (u : Update) (text : string) (parse_mode : option string)
  : bot unit :=
  match message u with
  | Some _ => command (ReplyText (Chat.id (effective_chat u)) text parse_mode)
  | None => raise (none_has_no "reply_text")
  end.

(** [context.bot.id]. *)
Definition context_bot_id : bot Z := fun pf w => (Returned (bot_id pf), w).

(** A statement on the database that only reads. *)
Definition query {A} (q : Database -> exn + A) : bot A :=
  fun _ w =>
    match q (db w) with
    | inl e => (Raises e, w)
    | inr a => (Returned a, w)
    end.

(** Statements that write, then [conn.commit()]: when a statement raises,
    nothing was committed and the file is as before. *)
Definition transaction (f : Database -> exn + Database) : bot unit :=
  fun _ w =>
    match f (db w) with
    | inl e => (Raises e, w)
    | inr d => (Returned tt, {| log := log w; db := d |})
    end.

Definition no_such_table {A} (name : string) : exn + A :=
  inl (OperationalError ("no such table: " +++ name)).

(* ===================================================================== *)
(** ** Python's str() and the f-strings *)
(* ===================================================================== *)

Definition str_int (z : Z) : string := NilZero.string_of_int (Z.to_int z).

Definition str_optional (o : option string) : string :=
  match o with
  | Some s => s
  | None => "None"%string
  end.

(** [str] of a value that [fetchone] read from an INTEGER column. *)
Definition str_value (v : sqlval) : string :=
  match v with
  | SqlNull => "None"%string
  | SqlInt z => str_int z
  | SqlReal63 => "9.223372036854776e+18"%string
  end.

Definition nl : string := String (ascii_of_nat 10) EmptyString.

(** [s.startswith('@')] *)
Definition startswith_at (s : string) : bool := String.prefix "@" s.

(* ===================================================================== *)
(** ** The permission gate *)
(* ===================================================================== *)

(** [member.status in ['administrator', 'creator']] *)
Definition status_in_admin_or_creator (status : string) : bool :=
  String.eqb status "administrator" || String.eqb status "creator".

(** [is_admin]: the caller's status; a [TelegramError] gives False.
    [update.effective_user.id] is read before the try block. *)
Definition is_admin (u : Update) (ctx : Context) : bot bool :=
  match effective_user u with
  | None => raise (none_has_no "id")
  | Some user =>
      let user_id := User.id user in
      let chat_id := Chat.id (effective_chat u) in
      try_except
        (member <- get_chat_member chat_id user_id ;;
         ret (status_in_admin_or_creator member))
        (fun _ => ret false)
  end.

(** [is_bot_admin]: the bot's own status; [member.status == 'administrator']. *)
Definition is_bot_admin (u : Update) (ctx : Context) : bot bool :=
  let chat_id := Chat.id (effective_chat u) in
  bot_id <- context_bot_id ;;
  try_except
    (member <- get_chat_member chat_id bot_id ;;
     ret (String.eqb member "administrator"))
    (fun _ => ret false).

(* ===================================================================== *)
(** ** The handlers *)
(* ===================================================================== *)

Definition start_text : string :=
  "🤖 Group Manager Bot is now active!" +++ nl +++ nl +++
  "I can help you manage this group and provide statistics." +++ nl +++
  "Use /help to see available commands.".

Definition start_command (u : Update) (ctx : Context) : bot unit :=
  reply_text u start_text None.

Definition help_text : string :=
  nl +++
  "🔧 **Group Manager Bot Commands**" +++ nl +++
  nl +++
  "📊 **Statistics:**" +++ nl +++
  "/stats - Show group statistics" +++ nl +++
  nl +++
  "🔒 **Group Management (Admin Only):**" +++ nl +++
  "/lock - Lock the group (only admins can send messages)" +++ nl +++
  "/unlock - Unlock the group (everyone can send messages)" +++ nl +++
  nl +++
  "👥 **User Management (Admin Only):**" +++ nl +++
  "/mute @username - Mute a user" +++ nl +++
  "/unmute @username - Unmute a user" +++ nl +++
  "/ban @username - Ban a user from the group" +++ nl +++
  "/kick @username - Kick a user from the group" +++ nl +++
  nl +++
  "ℹ️ **Other:**" +++ nl +++
  "/help - Show this help message" +++ nl +++
  nl +++
  "**Note:** Admin commands require both you and the bot to have administrator privileges." +++ nl +++
  "        ".

Definition help_command (u : Update) (ctx : Context) : bot unit :=
  reply_text u help_text (Some "Markdown"%string).

(** The two SELECTs of [stats_command]. *)
Definition select_today_messages (chat_id : Z) (today : string) (d : Database)
  : exn + option sqlval :=
  match group_stats d with
  | None => no_such_table "group_stats"
  | Some t => inr (GroupStats.fetchone_messages_count chat_id today t)
  end.

Definition select_active_users (chat_id : Z) (today : string) (d : Database)
  : exn + nat :=
  match user_activity d with
  | None => no_such_table "user_activity"
  | Some t => inr (UserActivity.count_active chat_id today t)
  end.

Definition stats_text (title : option string) (member_count : Z)
    (admin_count active_users : nat) (today_messages : sqlval)
    (stamp : string) : string :=
  nl +++
  "📊 **Group Statistics for " +++ str_optional title +++ "**" +++ nl +++
  nl +++
  "👥 **Members:** " +++ str_int member_count +++ nl +++
  "👑 **Admins:** " +++ str_int (Z.of_nat admin_count) +++ nl +++
  "📱 **Active Users Today:** " +++ str_int (Z.of_nat active_users) +++ nl +++
  "💬 **Messages Today:** " +++ str_value today_messages +++ nl +++
  nl +++
  "📅 **Date:** " +++ stamp +++ nl +++
  "            ".

Definition stats_command (clock : Clock) (u : Update) (ctx : Context)
  : bot unit :=
  let chat := effective_chat u in
  let chat_id := Chat.id chat in
  if String.eqb (Chat.type chat) "private" then
    reply_text u "This command only works in groups!" None
  else
    try_except
      (member_count <- get_chat_member_count chat_id ;;
       admins <- get_chat_administrators chat_id ;;
       let admin_count := List.length admins in
       let today := strftime_Ymd (clock 0%nat) in
       result <- query (select_today_messages chat_id today) ;;
       let today_messages :=
         match result with
         | Some v => v
         | None => SqlInt 0
         end in
       active_users <- query (select_active_users chat_id today) ;;
       reply_text u
         (stats_text (Chat.title chat) member_count admin_count active_users
                     today_messages (strftime_YmdHMS (clock 1%nat)))
         (Some "Markdown"%string))
      (fun e => reply_text u ("❌ Error getting statistics: " +++ e) None).

Definition lock_permissions : ChatPermissions :=
  {| can_send_messages := Some false;
     can_send_media_messages := Some false;
     can_send_polls := Some false;
     can_send_other_messages := Some false;
     can_add_web_page_previews := Some false;
     can_change_info := Some false;
     can_invite_users := Some false;
     can_pin_messages := Some false |}.

Definition lock_group (u : Update) (ctx : Context) : bot unit :=
  admin <- is_admin u ctx ;;
  if negb admin then
    reply_text u "❌ Only admins can use this command!" None
  else
    bot_admin <- is_bot_admin u ctx ;;
    if negb bot_admin then
      reply_text u "❌ I need admin privileges to lock the group!" None
    else
      try_except
        (set_chat_permissions (Chat.id (effective_chat u)) lock_permissions ;;
         reply_text u "🔒 Group has been locked! Only admins can send messages."
                    None)
        (fun e => reply_text u ("❌ Failed to lock group: " +++ e) None).

Definition unlock_permissions : ChatPermissions :=
  {| can_send_messages := Some true;
     can_send_media_messages := Some true;
     can_send_polls := Some true;
     can_send_other_messages := Some true;
     can_add_web_page_previews := Some true;
     can_change_info := Some false;
     can_invite_users := Some true;
     can_pin_messages := Some false |}.

Definition unlock_group (u : Update) (ctx : Context) : bot unit :=
  admin <- is_admin u ctx ;;
  if negb admin then
    reply_text u "❌ Only admins can use this command!" None
  else
    bot_admin <- is_bot_admin u ctx ;;
    if negb bot_admin then
      reply_text u "❌ I need admin privileges to unlock the group!" None
    else
      try_except
        (set_chat_permissions (Chat.id (effective_chat u)) unlock_permissions ;;
         reply_text u "🔓 Group has been unlocked! Everyone can send messages."
                    None)
        (fun e => reply_text u ("❌ Failed to unlock group: " +++ e) None).

Definition mute_permissions : ChatPermissions :=
  {| can_send_messages := Some false;
     can_send_media_messages := None;
     can_send_polls := None;
     can_send_other_messages := None;
     can_add_web_page_previews := None;
     can_change_info := None;
     can_invite_users := None;
     can_pin_messages := None |}.

(** [args and args[0].startswith('@')] *)
Definition first_arg_is_mention (ctx : Context) : bool :=
  match args ctx with
  | [] => false
  | a :: _ => startswith_at a
  end.

Definition mute_user (clock : Clock) (u : Update) (ctx : Context) : bot unit :=
  admin <- is_admin u ctx ;;
  if negb admin then
    reply_text u "❌ Only admins can use this command!" None
  else
    bot_admin <- is_bot_admin u ctx ;;
    if negb bot_admin then
      reply_text u "❌ I need admin privileges to mute users!" None
    else
      match message u with
      | None => raise (none_has_no "reply_to_message")
      | Some msg =>
          match reply_to_message msg with
          | Some replied =>
              match from_user replied with
              | Some user_to_mute =>
                  try_except
                    (let until_date := timestamp (clock 0%nat) + 3600 in
                     restrict_chat_member (Chat.id (effective_chat u))
                       (User.id user_to_mute) mute_permissions (Some until_date) ;;
                     reply_text u
                       ("🔇 User " +++ User.first_name user_to_mute +++
                        " has been muted for 1 hour.") None)
                    (fun e => reply_text u ("❌ Failed to mute user: " +++ e) None)
              | None => ret tt
              end
          | None =>
              if first_arg_is_mention ctx then
                reply_text u "Please reply to a message or provide user ID" None
              else
                reply_text u
                  "Please reply to a message from the user you want to mute or use @username"
                  None
          end
      end.

Definition unmute_permissions : ChatPermissions :=
  {| can_send_messages := Some true;
     can_send_media_messages := Some true;
     can_send_polls := Some true;
     can_send_other_messages := Some true;
     can_add_web_page_previews := Some true;
     can_change_info := None;
     can_invite_users := None;
     can_pin_messages := None |}.

Definition unmute_user (u : Update) (ctx : Context) : bot unit :=
  admin <- is_admin u ctx ;;
  if negb admin then
    reply_text u "❌ Only admins can use this command!" None
  else
    bot_admin <- is_bot_admin u ctx ;;
    if negb bot_admin then
      reply_text u "❌ I need admin privileges to unmute users!" None
    else
      match message u with
      | None => raise (none_has_no "reply_to_message")
      | Some msg =>
          match reply_to_message msg with
          | Some replied =>
              match from_user replied with
              | Some user_to_unmute =>
                  try_except
                    (restrict_chat_member (Chat.id (effective_chat u))
                       (User.id user_to_unmute) unmute_permissions None ;;
                     reply_text u
                       ("🔊 User " +++ User.first_name user_to_unmute +++
                        " has been unmuted.") None)
                    (fun e => reply_text u ("❌ Failed to unmute user: " +++ e) None)
              | None => ret tt
              end
          | None =>
              reply_text u
                "Please reply to a message from the user you want to unmute" None
          end
      end.

Definition ban_user (u : Update) (ctx : Context) : bot unit :=
  admin <- is_admin u ctx ;;
  if negb admin then
    reply_text u "❌ Only admins can use this command!" None
  else
    bot_admin <- is_bot_admin u ctx ;;
    if negb bot_admin then
      reply_text u "❌ I need admin privileges to ban users!" None
    else
      match message u with
      | None => raise (none_has_no "reply_to_message")
      | Some msg =>
          match reply_to_message msg with
          | Some replied =>
              match from_user replied with
              | Some user_to_ban =>
                  try_except
                    (ban_chat_member (Chat.id (effective_chat u))
                       (User.id user_to_ban) ;;
                     reply_text u
                       ("🚫 User " +++ User.first_name user_to_ban +++
                        " has been banned from the group.") None)
                    (fun e => reply_text u ("❌ Failed to ban user: " +++ e) None)
              | None => ret tt
              end
          | None =>
              reply_text u
                "Please reply to a message from the user you want to ban" None
          end
      end.

Definition kick_user (u : Update) (ctx : Context) : bot unit :=
  admin <- is_admin u ctx ;;
  if negb admin then
    reply_text u "❌ Only admins can use this command!" None
  else
    bot_admin <- is_bot_admin u ctx ;;
    if negb bot_admin then
      reply_text u "❌ I need admin privileges to kick users!" None
    else
      match message u with
      | None => raise (none_has_no "reply_to_message")
      | Some msg =>
          match reply_to_message msg with
          | Some replied =>
              match from_user replied with
              | Some user_to_kick =>
                  try_except
                    (ban_chat_member (Chat.id (effective_chat u))
                       (User.id user_to_kick) ;;
                     unban_chat_member (Chat.id (effective_chat u))
                       (User.id user_to_kick) ;;
                     reply_text u
                       ("👢 User " +++ User.first_name user_to_kick +++
                        " has been kicked from the group.") None)
                    (fun e => reply_text u ("❌ Failed to kick user: " +++ e) None)
              | None => ret tt
              end
          | None =>
              reply_text u
                "Please reply to a message from the user you want to kick" None
          end
      end.

(** The two statements of [track_activity]. *)
Definition execute_user_activity_upsert (user : User.t) (chat : Chat.t)
    (today : string) (d : Database) : exn + Database :=
  match user_activity d with
  | None => no_such_table "user_activity"
  | Some t =>
      inr {| group_stats := group_stats d;
             user_activity :=
               Some (UserActivity.upsert (User.id user) (Chat.id chat)
                       (User.username user) (User.first_name user) today t) |}
  end.

Definition execute_group_stats_upsert (chat : Chat.t) (today : string)
    (d : Database) : exn + Database :=
  match group_stats d with
  | None => no_such_table "group_stats"
  | Some t =>
      inr {| group_stats := Some (GroupStats.upsert (Chat.id chat) today t);
             user_activity := user_activity d |}
  end.

Definition track_activity_statements (user : User.t) (chat : Chat.t)
    (today : string) (d : Database) : exn + Database :=
  match execute_user_activity_upsert user chat today d with
  | inl e => inl e
  | inr d1 => execute_group_stats_upsert chat today d1
  end.

(** The parameters of the first statement start with [user.id]: without a
    sender the tuple raises before anything is executed. *)
Definition track_activity (clock : Clock) (u : Update) (ctx : Context)
  : bot unit :=
  if String.eqb (Chat.type (effective_chat u)) "private" then
    ret tt
  else
    let chat := effective_chat u in
    let today := strftime_Ymd (clock 0%nat) in
    match effective_user u with
    | None => raise (none_has_no "id")
    | Some user => transaction (track_activity_statements user chat today)
    end.

(* ===================================================================== *)
(** ** The dispatcher *)
(* ===================================================================== *)

(** [setup_handlers]: all ten handlers are in one group, so an update goes
    to the first one that matches it: a command to its [CommandHandler],
    anything else (a plain message, a channel post, or a command that has
    no handler) to [MessageHandler(filters.ALL, track_activity)]. [cmd] is
    the command name the library read off the update, if it is a new or
    edited message that starts with a command for this bot. *)
Definition dispatch (cmd : option string)
  : Clock -> Update -> Context -> bot unit :=
  match cmd with
  | None => track_activity
  | Some name =>
      if String.eqb name "start" then fun _ => start_command
      else if String.eqb name "stats" then stats_command
      else if String.eqb name "lock" then fun _ => lock_group
      else if String.eqb name "unlock" then fun _ => unlock_group
      else if String.eqb name "mute" then mute_user
      else if String.eqb name "unmute" then fun _ => unmute_user
      else if String.eqb name "ban" then fun _ => ban_user
      else if String.eqb name "kick" then fun _ => kick_user
      else if String.eqb name "help" then fun _ => help_command
      else track_activity
  end.

(** [GroupManagerBot.__init__] on the file as it is found, then the updates
    the polling loop delivers, one at a time. An exception that leaves a
    handler is logged by the library and the loop goes on. *)
Record Delivery : Type := {
  d_command : option string;
  d_clock : Clock;
  d_update : Update;
  d_context : Context
}.

Definition deliver (pf : Platform) (w : World) (x : Delivery) : World :=
  snd (dispatch (d_command x) (d_clock x) (d_update x) (d_context x) pf w).

Definition startup (file : Database) : World :=
  {| log := []; db := init_database file |}.

Definition run (pf : Platform) (file : Database) (updates : list Delivery)
  : World :=
  fold_left (deliver pf) updates (startup file).

(* ===================================================================== *)
(** * Vocabulary of the statements *)
(* ===================================================================== *)

(** ** Tables with a primary key

    Both tables are lists of rows with a key and a test for it:
    [replace] is INSERT OR REPLACE, [unique] the primary-key constraint. *)
Definition replace {R K : Type} (key : R -> K) (hit : K -> R -> bool)
    (new : R) (t : list R) : list R :=
  filter (fun r => negb (hit (key new) r)) t ++ [new].

Definition unique {R K : Type} (key : R -> K) (t : list R) : Prop :=
  NoDup (map key t).

(** The key tests of the two tables. *)
Definition gs_hit (k : Z * string) (r : GroupStats.row) : bool :=
  GroupStats.matches (fst k) (snd k) r.

Definition ua_hit (k : Z * Z) (r : UserActivity.row) : bool :=
  UserActivity.matches (fst k) (snd k) r.

(** ** The store *)

(** A computation that leaves the database as it is. *)
Definition keeps_db {A} (c : bot A) : Prop :=
  forall pf w, db (snd (c pf w)) = db w.

(** [track_activity] run on each update in turn, every call returning. *)
Fixpoint track_each (xs : list Delivery) : bot unit :=
  match xs with
  | [] => ret tt
  | x :: rest =>
      track_activity (d_clock x) (d_update x) (d_context x) ;;
      track_each rest
  end.

(** A message of [user] in the non-private chat [group], handled on [day]. *)
Definition sent_in_group (user group : Z) (day : string) (x : Delivery) : Prop :=
  option_map User.id (effective_user (d_update x)) = Some user /\
  Chat.id (effective_chat (d_update x)) = group /\
  String.eqb (Chat.type (effective_chat (d_update x))) "private" = false /\
  strftime_Ymd (d_clock x 0%nat) = day.

(** No two rows of a table have the same primary key. *)
Definition pk_unique (d : Database) : Prop :=
  (forall t, group_stats d = Some t -> unique GroupStats.key t) /\
  (forall t, user_activity d = Some t -> unique UserActivity.key t).

(** The counters are SQLite values: NULL, a 64-bit integer, or the REAL. *)
Definition counters_typed (d : Database) : Prop :=
  (forall t r, group_stats d = Some t -> In r t ->
               well_typed (GroupStats.messages_count r) = true) /\
  (forall t r, user_activity d = Some t -> In r t ->
               well_typed (UserActivity.message_count r) = true).

(** From [d] to [d']: each row of [d] still has a row with its key, and the
    counter in it is not smaller. *)
Definition never_decreases (d d' : Database) : Prop :=
  (forall t r, group_stats d = Some t -> In r t ->
     exists t' r', group_stats d' = Some t' /\ In r' t'
                   /\ GroupStats.key r' = GroupStats.key r
                   /\ Sql.le (GroupStats.messages_count r)
                             (GroupStats.messages_count r') = true) /\
  (forall t r, user_activity d = Some t -> In r t ->
     exists t' r', user_activity d' = Some t' /\ In r' t'
                   /\ UserActivity.key r' = UserActivity.key r
                   /\ Sql.le (UserActivity.message_count r)
                             (UserActivity.message_count r') = true).

(** Every [member_count] of the table is NULL or the constant 0. *)
Definition member_count_unset (d : Database) : Prop :=
  forall t r, group_stats d = Some t -> In r t ->
    GroupStats.member_count r = SqlNull \/ GroupStats.member_count r = SqlInt 0.

(** Every [member_count] of [d'] is NULL, the constant 0, or what a row of
    [d] with the same key had. *)
Definition member_count_from (d d' : Database) : Prop :=
  forall t' r', group_stats d' = Some t' -> In r' t' ->
    GroupStats.member_count r' = SqlNull
    \/ GroupStats.member_count r' = SqlInt 0
    \/ exists t r, group_stats d = Some t /\ In r t
                   /\ GroupStats.key r = GroupStats.key r'
                   /\ GroupStats.member_count r = GroupStats.member_count r'.

(** ** The gate *)

(** The six commands behind the gate. *)
Inductive gated : Type := Lock | Unlock | Mute | Unmute | Ban | Kick.

Definition gated_name (g : gated) : string :=
  match g with
  | Lock => "lock"
  | Unlock => "unlock"
  | Mute => "mute"
  | Unmute => "unmute"
  | Ban => "ban"
  | Kick => "kick"
  end.

(** The handler the dispatcher runs for the command. *)
Definition gated_handler (g : gated) : Clock -> Update -> Context -> bot unit :=
  dispatch (Some (gated_name g)).

(** The calls that change the chat. *)
Definition privileged (c : call) : bool :=
  match c with
  | SetChatPermissions _ _ => true
  | RestrictChatMember _ _ _ _ => true
  | BanChatMember _ _ => true
  | UnbanChatMember _ _ => true
  | _ => false
  end.

(** The two rejection texts. *)
Definition caller_rejection : string := "❌ Only admins can use this command!".

Definition bot_rejection (g : gated) : string :=
  match g with
  | Lock => "❌ I need admin privileges to lock the group!"
  | Unlock => "❌ I need admin privileges to unlock the group!"
  | Mute => "❌ I need admin privileges to mute users!"
  | Unmute => "❌ I need admin privileges to unmute users!"
  | Ban => "❌ I need admin privileges to ban users!"
  | Kick => "❌ I need admin privileges to kick users!"
  end.

(** The two lookups of the gate: the caller's status, the bot's own. *)
Definition caller_lookup (u : Update) (caller : User.t) : call :=
  GetChatMember (Chat.id (effective_chat u)) (User.id caller).

Definition bot_lookup (pf : Platform) (u : Update) : call :=
  GetChatMember (Chat.id (effective_chat u)) (bot_id pf).

(** The world after more calls. *)
Definition logged (w : World) (evs : list event) : World :=
  {| log := log w ++ evs; db := db w |}.

(** The shape all six handlers share: the caller's check and its rejection,
    the bot's check and its rejection, then the rest of the handler. *)
Definition gate (u : Update) (ctx : Context) (bot_msg : string)
    (action : bot unit) : bot unit :=
  admin <- is_admin u ctx ;;
  if negb admin then
    reply_text u caller_rejection None
  else
    bot_admin <- is_bot_admin u ctx ;;
    if negb bot_admin then
      reply_text u bot_msg None
    else
      action.

(** [try: calls; reply(ok) except TelegramError as e: reply(fail + str(e))];
    [calls] is given what follows it in the try block. *)
Definition attempt (u : Update) (calls : bot unit -> bot unit)
    (ok fail : string) : bot unit :=
  try_except (calls (reply_text u ok None))
             (fun e => reply_text u (fail +++ e) None).

(** The part of each handler behind the gate. *)
Definition on_replied_user (u : Update) (usage : bot unit)
    (act : User.t -> bot unit) : bot unit :=
  match message u with
  | None => raise (none_has_no "reply_to_message")
  | Some msg =>
      match reply_to_message msg with
      | Some replied =>
          match from_user replied with
          | Some target => act target
          | None => ret tt
          end
      | None => usage
      end
  end.

Definition kicked_text (target : User.t) : string :=
  "👢 User " +++ User.first_name target +++ " has been kicked from the group.".

Definition banned_text (target : User.t) : string :=
  "🚫 User " +++ User.first_name target +++ " has been banned from the group.".

Definition action_of (g : gated) (clock : Clock) (u : Update) (ctx : Context)
  : bot unit :=
  let chat := Chat.id (effective_chat u) in
  match g with
  | Lock =>
      attempt u (fun k => set_chat_permissions chat lock_permissions ;; k)
        "🔒 Group has been locked! Only admins can send messages."
        "❌ Failed to lock group: "
  | Unlock =>
      attempt u (fun k => set_chat_permissions chat unlock_permissions ;; k)
        "🔓 Group has been unlocked! Everyone can send messages."
        "❌ Failed to unlock group: "
  | Mute =>
      on_replied_user u
        (if first_arg_is_mention ctx then
           reply_text u "Please reply to a message or provide user ID" None
         else
           reply_text u
             "Please reply to a message from the user you want to mute or use @username"
             None)
        (fun target =>
           attempt u
             (fun k =>
                restrict_chat_member chat (User.id target) mute_permissions
                  (Some (timestamp (clock 0%nat) + 3600)) ;; k)
             ("🔇 User " +++ User.first_name target +++
              " has been muted for 1 hour.")
             "❌ Failed to mute user: ")
  | Unmute =>
      on_replied_user u
        (reply_text u
           "Please reply to a message from the user you want to unmute" None)
        (fun target =>
           attempt u
             (fun k =>
                restrict_chat_member chat (User.id target) unmute_permissions
                  None ;; k)
             ("🔊 User " +++ User.first_name target +++ " has been unmuted.")
             "❌ Failed to unmute user: ")
  | Ban =>
      on_replied_user u
        (reply_text u
           "Please reply to a message from the user you want to ban" None)
        (fun target =>
           attempt u (fun k => ban_chat_member chat (User.id target) ;; k)
             (banned_text target) "❌ Failed to ban user: ")
  | Kick =>
      on_replied_user u
        (reply_text u
           "Please reply to a message from the user you want to kick" None)
        (fun target =>
           attempt u
             (fun k =>
                ban_chat_member chat (User.id target) ;;
                unban_chat_member chat (User.id target) ;; k)
             (kicked_text target) "❌ Failed to kick user: ")
  end.

(** The platform's answer to a lookup of a member's status, and to a call
    without a value, when the log is [l]. *)
Definition lookup_answer (pf : Platform) (l : list event) (chat user : Z)
  : answer :=
  match fault pf l (GetChatMember chat user) with
  | Some msg => Raised msg
  | None => Status (member_status pf l chat user)
  end.

Definition command_answer (pf : Platform) (l : list event) (c : call) : answer :=
  match fault pf l c with
  | Some msg => Raised msg
  | None => Done
  end.

(** What the caller of such a call gets. *)
Definition outcome_of (a : answer) : outcome unit :=
  match a with
  | Raised msg => Raises (TelegramError msg)
  | _ => Returned tt
  end.

(** What the two checks make of an answer. *)
Definition admits_caller (a : answer) : bool :=
  match a with
  | Status s => status_in_admin_or_creator s
  | _ => false
  end.

Definition admits_bot (a : answer) : bool :=
  match a with
  | Status s => String.eqb s "administrator"
  | _ => false
  end.

(** Both checks of the gate pass from [w]: the caller's lookup returns
    [s1], 'administrator' or 'creator', and then the bot's own lookup
    returns 'administrator'. [lookups] are the two events. *)
Definition lookups (pf : Platform) (u : Update) (caller : User.t)
    (s1 : string) : list event :=
  [(caller_lookup u caller, Status s1);
   (bot_lookup pf u, Status "administrator")].

Definition gate_passes (pf : Platform) (w : World) (u : Update)
    (caller : User.t) (s1 : string) : Prop :=
  let chat := Chat.id (effective_chat u) in
  lookup_answer pf (log w) chat (User.id caller) = Status s1
  /\ status_in_admin_or_creator s1 = true
  /\ lookup_answer pf (log w ++ [(caller_lookup u caller, Status s1)]) chat
       (bot_id pf)
     = Status "administrator".

(** The handlers that read no clock are gates for any clock. *)
Definition epoch : datetime :=
  {| timestamp := 0; strftime_Ymd := "1970-01-01";
     strftime_YmdHMS := "1970-01-01 00:00:00" |}.

(** A computation that only adds to the log. *)
Definition grows {A} (c : bot A) : Prop :=
  forall pf w, exists evs, log (snd (c pf w)) = log w ++ evs.

(** ** Errors of remote calls *)

(** [needle in hay] *)
Fixpoint contains (needle hay : string) : bool :=
  String.prefix needle hay
  || match hay with
     | EmptyString => false
     | String _ rest => contains needle rest
     end.

(** The claim as the specification words it, for one handler: whenever a
    remote call of the handler raises, a reply whose text contains the
    error's message follows, and the call is not made again. *)
Definition surfaces_every_error (h : bot unit) : Prop :=
  forall pf w evs,
    log (snd (h pf w)) = log w ++ evs ->
    forall pre c msg post,
      evs = pre ++ (c, Raised msg) :: post ->
      (exists chat text pm a,
          In (ReplyText chat text pm, a) post /\ contains msg text = true)
      /\ ~ In c (map fst post).

(** The reply that comes after the events [pre] is the success reply of a
    try block: the event before it is a call of a try block that returned
    (a call that changes the chat, or the second query of
    [stats_command]). *)
Definition in_try_block (pre : list event) : bool :=
  match rev pre with
  | (c, a) :: _ =>
      match c, a with
      | GetChatAdministrators _, Administrators _ => true
      | _, Done => privileged c
      | _, _ => false
      end
  | [] => false
  end.

(** What holds of the events of one invocation in chat [chat]. An error of
    a call that is neither a status lookup nor a reply is followed by one
    reply, the last event, whose text contains the error's message, and
    the call was not made before. An error of a status lookup is followed
    by one of the fixed rejection texts. An error of the success reply of a
    try block is reported by the next reply in the same way; an error of
    any other reply is the last event. *)
Definition errors_replied (chat : Z) (evs : list event) : Prop :=
  forall pre c msg post,
    evs = pre ++ (c, Raised msg) :: post ->
    match c with
    | GetChatMember _ _ =>
        exists text a,
          post = [(ReplyText chat text None, a)]
          /\ (text = caller_rejection \/ exists g, text = bot_rejection g)
    | ReplyText _ _ _ =>
        if in_try_block pre then
          exists text a,
            post = [(ReplyText chat text None, a)] /\ contains msg text = true
        else post = []
    | _ =>
        exists text a,
          post = [(ReplyText chat text None, a)]
          /\ contains msg text = true
          /\ ~ In c (map fst pre)
    end.

Definition replies_errors (chat : Z) (h : bot unit) : Prop :=
  forall pf w, exists evs,
    log (snd (h pf w)) = log w ++ evs /\ errors_replied chat evs.

(** ** Counting the deliveries *)

(** What [track_activity] reads of a delivery: whether the chat is not
    private, the sender, the chat, the day of the clock. *)
Definition tracked (x : Delivery) : bool :=
  negb (String.eqb (Chat.type (effective_chat (d_update x))) "private").

Definition sender (x : Delivery) : option User.t := effective_user (d_update x).

Definition has_sender (x : Delivery) : bool :=
  match sender x with
  | Some _ => true
  | None => false
  end.

Definition sent_by (user : Z) (x : Delivery) : bool :=
  match sender x with
  | Some s => User.id s =? user
  | None => false
  end.

Definition chat_of (x : Delivery) : Z := Chat.id (effective_chat (d_update x)).

Definition day_of (x : Delivery) : string := strftime_Ymd (d_clock x 0%nat).

(** A message of [user] in the non-private chat [group]. *)
Definition by_user_in (user group : Z) (x : Delivery) : bool :=
  tracked x && sent_by user x && (chat_of x =? group).

(** A message that has a sender, in the non-private chat [group], handled
    on [day]. *)
Definition in_group_on (group : Z) (day : string) (x : Delivery) : bool :=
  tracked x && has_sender x && (chat_of x =? group)
  && String.eqb (day_of x) day.

Definition how_many (p : Delivery -> bool) (xs : list Delivery) : Z :=
  Z.of_nat (List.length (filter p xs)).

(** The two tables after [track_activity] on one delivery, and on several. *)
Definition rows_after_one (x : Delivery)
    (tabs : GroupStats.table * UserActivity.table)
  : GroupStats.table * UserActivity.table :=
  match sender x with
  | Some user =>
      if tracked x then
        (GroupStats.upsert (chat_of x) (day_of x) (fst tabs),
         UserActivity.upsert (User.id user) (chat_of x) (User.username user)
           (User.first_name user) (day_of x) (snd tabs))
      else tabs
  | None => tabs
  end.

Definition rows_after (xs : list Delivery)
    (tabs : GroupStats.table * UserActivity.table)
  : GroupStats.table * UserActivity.table :=
  fold_left (fun t x => rows_after_one x t) xs tabs.

(** The users counted by [stats_command] as active in [group] on [day]. *)
Definition active_ids (group : Z) (day : string) (t : UserActivity.table)
  : list Z :=
  map UserActivity.user_id
    (filter (fun r => (UserActivity.group_id r =? group)
                      && String.eqb (UserActivity.last_message r) day) t).

(** Both tables exist. *)
Definition tables_exist (d : Database) : Prop :=
  (exists gs, group_stats d = Some gs) /\ (exists ua, user_activity d = Some ua).

(** The senders of the messages handled in the non-private chat [group]. *)
Definition senders_in (group : Z) (xs : list Delivery) : list Z :=
  flat_map (fun x => match sender x with
                     | Some user => [User.id user]
                     | None => []
                     end)
           (filter (fun x => tracked x && (chat_of x =? group)) xs).

(** The polling loop on updates that all go to [track_activity]: an
    exception that leaves the handler is logged by the library and the
    next update is taken. *)
Definition track_all (pf : Platform) (w : World) (xs : list Delivery) : World :=
  fold_left
    (fun w x => snd (track_activity (d_clock x) (d_update x) (d_context x) pf w))
    xs w.

(** [track_activity] handles [xs] from [w] and leaves [w']; when every
    update in a non-private chat has a sender, every call returns. *)
Definition tracks_to (xs : list Delivery) (pf : Platform) (w w' : World)
  : Prop :=
  track_all pf w xs = w'
  /\ ((forall x, In x xs -> tracked x = true -> has_sender x = true) ->
      track_each xs pf w = (Returned tt, w')).

(** ** What an invocation calls *)

(** A computation whose new events all satisfy [P]. *)
Definition traced (P : event -> Prop) {A} (c : bot A) : Prop :=
  forall pf w, exists evs,
    log (snd (c pf w)) = log w ++ evs /\ Forall P evs.

(** The chat a call is addressed to. *)
Definition call_chat (c : call) : Z :=
  match c with
  | GetChatMember chat _ => chat
  | GetChatMemberCount chat => chat
  | GetChatAdministrators chat => chat
  | SetChatPermissions chat _ => chat
  | RestrictChatMember chat _ _ _ => chat
  | BanChatMember chat _ => chat
  | UnbanChatMember chat _ => chat
  | ReplyText chat _ _ => chat
  end.

(** The commands that [setup_handlers] registers, each with the handler
    of its [CommandHandler]. *)
Definition registered
  : list (string * (Clock -> Update -> Context -> bot unit)) :=
  [("start"%string, fun _ => start_command);
   ("stats"%string, stats_command);
   ("lock"%string, fun _ => lock_group);
   ("unlock"%string, fun _ => unlock_group);
   ("mute"%string, mute_user);
   ("unmute"%string, fun _ => unmute_user);
   ("ban"%string, fun _ => ban_user);
   ("kick"%string, fun _ => kick_user);
   ("help"%string, fun _ => help_command)].

Definition command_names : list string := map fst registered.

(** A computation that, started with both tables, keeps them and does not
    end in a database error. *)
Definition db_safe {A} (c : bot A) : Prop :=
  forall pf w,
    tables_exist (db w) ->
    tables_exist (db (snd (c pf w)))
    /\ forall m, fst (c pf w) <> Raises (OperationalError m).

(** ** What a gated command sets out to do *)

(** [update.message.reply_to_message.from_user], when there is one. *)
Definition replied_user (u : Update) : option User.t :=
  match message u with
  | Some msg =>
      match reply_to_message msg with
      | Some replied => from_user replied
      | None => None
      end
  | None => None
  end.

(** The text of the except branch, before [str(e)]. *)
Definition failure_prefix (g : gated) : string :=
  match g with
  | Lock => "❌ Failed to lock group: "
  | Unlock => "❌ Failed to unlock group: "
  | Mute => "❌ Failed to mute user: "
  | Unmute => "❌ Failed to unmute user: "
  | Ban => "❌ Failed to ban user: "
  | Kick => "❌ Failed to kick user: "
  end.

(** The calls of the try block and the success text after them; [None]
    when the command has no user to act on. *)
Definition plan (g : gated) (clock : Clock) (u : Update)
  : option (list call * string) :=
  let chat := Chat.id (effective_chat u) in
  match g with
  | Lock =>
      Some ([SetChatPermissions chat lock_permissions],
            "🔒 Group has been locked! Only admins can send messages."%string)
  | Unlock =>
      Some ([SetChatPermissions chat unlock_permissions],
            "🔓 Group has been unlocked! Everyone can send messages."%string)
  | Mute =>
      option_map
        (fun target =>
           ([RestrictChatMember chat (User.id target) mute_permissions
               (Some (timestamp (clock 0%nat) + 3600))],
            "🔇 User " +++ User.first_name target +++
            " has been muted for 1 hour."))
        (replied_user u)
  | Unmute =>
      option_map
        (fun target =>
           ([RestrictChatMember chat (User.id target) unmute_permissions None],
            "🔊 User " +++ User.first_name target +++ " has been unmuted."))
        (replied_user u)
  | Ban =>
      option_map
        (fun target =>
           ([BanChatMember chat (User.id target)], banned_text target))
        (replied_user u)
  | Kick =>
      option_map
        (fun target =>
           ([BanChatMember chat (User.id target);
             UnbanChatMember chat (User.id target)], kicked_text target))
        (replied_user u)
  end.

(** The calls one after the other, then [k]. *)
Definition then_all (calls : list call) (k : bot unit) : bot unit :=
  fold_right (fun c rest => command c ;; rest) k calls.

(** The events of calls that all returned. *)
Definition all_done (calls : list call) : list event :=
  map (fun c => (c, Done)) calls.

(** What [stats_command] shows as today's messages:
    [result[0] if result else 0]. *)
Definition messages_today (chat : Z) (day : string) (t : GroupStats.table)
  : sqlval :=
  match GroupStats.fetchone_messages_count chat day t with
  | Some v => v
  | None => SqlInt 0
  end.

(** A reply that the platform accepted is the last event. *)
Definition accepted_reply_is_last (evs : list event) : Prop :=
  forall pre chat text pm post,
    evs = pre ++ (ReplyText chat text pm, Done) :: post -> post = [].

(** At most six calls: the two lookups, two calls of a try block and two
    replies. *)
Definition at_most_six (evs : list event) : Prop :=
  (List.length evs <= 6)%nat.

Definition stops_at_accepted_reply (h : bot unit) : Prop :=
  forall pf w, exists evs,
    log (snd (h pf w)) = log w ++ evs
    /\ accepted_reply_is_last evs /\ at_most_six evs.

(** ** Totals of a group *)

(** The number a counter stands for; NULL counts as 0. *)
Definition counted (v : sqlval) : Z :=
  match numeric v with
  | Some z => z
  | None => 0
  end.

(** [SELECT SUM(cnt) ... WHERE P], and what one row adds to it. *)
Definition sum_where {R : Type} (P : R -> bool) (cnt : R -> sqlval)
    (t : list R) : Z :=
  fold_right Z.add 0 (map (fun r => counted (cnt r)) (filter P t)).

Definition part {R : Type} (P : R -> bool) (cnt : R -> sqlval) (r : R) : Z :=
  if P r then counted (cnt r) else 0.

(** The counters of the rows selected by [P] are integers from 0 on. *)
Definition counts_from_zero {R : Type} (P : R -> bool) (cnt : R -> sqlval)
    (t : list R) : Prop :=
  forall r, In r t -> P r = true -> exists z, cnt r = SqlInt z /\ 0 <= z.

Definition ua_of (group : Z) (r : UserActivity.row) : bool :=
  UserActivity.group_id r =? group.

Definition gs_of (group : Z) (r : GroupStats.row) : bool :=
  GroupStats.group_id r =? group.

(** All messages of the group's users, and all messages of its days. *)
Definition total_of_users (group : Z) (t : UserActivity.table) : Z :=
  sum_where (ua_of group) UserActivity.message_count t.

Definition total_of_days (group : Z) (t : GroupStats.table) : Z :=
  sum_where (gs_of group) GroupStats.messages_count t.

(** A message that has a sender, in the non-private chat [group]. *)
Definition in_group (group : Z) (x : Delivery) : bool :=
  tracked x && has_sender x && (chat_of x =? group).

(** The two tables agree on [group]: unique keys, the group's counters are
    integers from 0 on, and both totals are [total]. *)
Definition group_consistent (group : Z)
    (tabs : GroupStats.table * UserActivity.table) (total : Z) : Prop :=
  unique GroupStats.key (fst tabs)
  /\ unique UserActivity.key (snd tabs)
  /\ counts_from_zero (gs_of group) GroupStats.messages_count (fst tabs)
  /\ counts_from_zero (ua_of group) UserActivity.message_count (snd tabs)
  /\ total_of_days group (fst tabs) = total
  /\ total_of_users group (snd tabs) = total.

(** ** Concrete data *)

Module Example.

Definition ann : User.t := User.mk 7 (Some "ann"%string) "Ann".
Definition bob : User.t := User.mk 8 None "Bob".
Definition bot : Z := 99.

Definition group_chat : Chat.t :=
  Chat.mk (-1001) "supergroup" (Some "Rocq users"%string).

(** Ann sends a command in reply to a message of Bob. *)
Definition in_reply_to_bob : Update :=
  {| effective_user := Some ann;
     effective_chat := group_chat;
     message :=
       Some {| reply_to_message := Some {| from_user := Some bob |} |} |}.

Definition no_args : Context := {| args := [] |}.

Definition evening : datetime :=
  {| timestamp := 1700000000;
     strftime_Ymd := "2023-11-14";
     strftime_YmdHMS := "2023-11-14 22:13:20" |}.

Definition clock : Clock := fun _ => evening.

(** Platforms: who has which status, and which calls raise. *)
Definition platform (status : Z -> string) (raises : call -> option string)
  : Platform :=
  {| bot_id := bot;
     fault := fun _ c => raises c;
     member_status := fun _ _ user => status user;
     member_count := fun _ _ => 3;
     administrators := fun _ _ => [7; 99] |}.

Definition never (c : call) : option string := None.

Definition all_members : Platform :=
  platform (fun _ => "member"%string) never.

Definition ann_creator_bot_admin : Platform :=
  platform (fun user => if user =? bot then "administrator"%string
                        else "creator"%string) never.

Definition ann_admin_bot_creator : Platform :=
  platform (fun user => if user =? bot then "creator"%string
                        else "administrator"%string) never.

Definition lookups_fail : Platform :=
  platform (fun _ => "administrator"%string)
    (fun c => match c with
              | GetChatMember _ _ => Some "Chat not found"%string
              | _ => None
              end).

Definition bot_lookup_fails : Platform :=
  platform (fun _ => "administrator"%string)
    (fun c => match c with
              | GetChatMember _ user =>
                  if user =? bot then Some "Chat not found"%string else None
              | _ => None
              end).

Definition replies_fail : Platform :=
  platform (fun _ => "administrator"%string)
    (fun c => match c with
              | ReplyText _ _ _ =>
                  Some "Forbidden: bot was kicked from the supergroup chat"%string
              | _ => None
              end).

(** The bot just started on a new file. *)
Definition fresh : World := startup empty_file.

(** A plain message of Ann in the group. *)
Definition a_message : Delivery :=
  {| d_command := None;
     d_clock := clock;
     d_update := in_reply_to_bob;
     d_context := no_args |}.

(** The world after two messages. *)
Definition after_two : World :=
  fold_left (deliver all_members) [a_message; a_message] fresh.

(** More senders, chats and updates. *)
Definition other_group : Chat.t :=
  Chat.mk (-2002) "group" (Some "Other group"%string).

Definition private_chat : Chat.t := Chat.mk 7 "private" None.

Definition plain (user : User.t) (chat : Chat.t) : Update :=
  {| effective_user := Some user;
     effective_chat := chat;
     message := Some {| reply_to_message := None |} |}.

Definition message_of (user : User.t) (chat : Chat.t) : Delivery :=
  {| d_command := None;
     d_clock := clock;
     d_update := plain user chat;
     d_context := no_args |}.

(** Ann twice and Bob once in the group, Ann once in private and once in
    another group, all on the same evening. *)
Definition five_messages : list Delivery :=
  [message_of ann group_chat; message_of bob group_chat;
   message_of ann group_chat; message_of ann private_chat;
   message_of ann other_group].

(** [/stats] and [/frobnicate] sent by Ann in the group. *)
Definition stats_by_ann : Delivery :=
  {| d_command := Some "stats"%string;
     d_clock := clock;
     d_update := plain ann group_chat;
     d_context := no_args |}.

Definition unknown_by_ann : Delivery :=
  {| d_command := Some "frobnicate"%string;
     d_clock := clock;
     d_update := plain ann group_chat;
     d_context := no_args |}.

(** [/mute @bob], not in reply to anything. *)
Definition mention_bob : Context := {| args := ["@bob"%string] |}.

(** A command in reply to a message that has no sender. *)
Definition in_reply_to_nobody : Update :=
  {| effective_user := Some ann;
     effective_chat := group_chat;
     message := Some {| reply_to_message := Some {| from_user := None |} |} |}.

(** A message of Ann in the group after she edited it: the update carries
    it as [edited_message], [update.message] is None. *)
Definition edited_by_ann : Update :=
  {| effective_user := Some ann;
     effective_chat := group_chat;
     message := None |}.

(** A post in a channel: no sender, no [update.message]. *)
Definition channel : Chat.t :=
  Chat.mk (-3003) "channel" (Some "Announcements"%string).

(** Bob was banned from the group before. *)
Definition bob_banned : World :=
  logged fresh [(BanChatMember (-1001) 8, Done)].

(** Ann is the creator, the bot an administrator; the platform refuses to
    change the permissions of the chat. *)
Definition permissions_fail : Platform :=
  platform (fun user => if user =? bot then "administrator"%string
                        else "creator"%string)
    (fun c => match c with
              | SetChatPermissions _ _ =>
                  Some "Bad Request: not enough rights"%string
              | _ => None
              end).

(** [/lock] sent by Ann in the group. *)
Definition lock_by_ann : Delivery :=
  {| d_command := Some "lock"%string;
     d_clock := clock;
     d_update := plain ann group_chat;
     d_context := no_args |}.

Definition channel_post : Delivery :=
  {| d_command := None;
     d_clock := clock;
     d_update := {| effective_user := None;
                    effective_chat := channel;
                    message := None |};
     d_context := no_args |}.

(** The five messages with a channel post among them. *)
Definition six_updates : list Delivery :=
  [message_of ann group_chat; message_of bob group_chat; channel_post;
   message_of ann group_chat; message_of ann private_chat;
   message_of ann other_group].

(** Ann is the creator, the bot an administrator; unbanning raises. *)
Definition unban_fails : Platform :=
  platform (fun user => if user =? bot then "administrator"%string
                        else "creator"%string)
    (fun c => match c with
              | UnbanChatMember _ _ =>
                  Some "Bad Request: not enough rights"%string
              | _ => None
              end).

End Example.

(* ===================================================================== *)
(** * Properties of the store *)
(* ===================================================================== *)

(** ** Tables with a primary key

    Both tables are lists of rows with a key and a test for it; the facts
    about INSERT OR REPLACE are proved once. *)
Section Keyed.

Variables (R K : Type) (key : R -> K) (hit : K -> R -> bool).
Hypothesis hit_spec : forall k r, hit k r = true <-> key r = k.

Lemma hit_key (r : R) : hit (key r) r = true.
Proof. apply hit_spec; reflexivity. Qed.

Lemma hit_other (k : K) (r : R) : key r <> k -> hit k r = false.
Proof.
  intro Hne. destruct (hit k r) eqn:E; [|reflexivity].
  apply hit_spec in E. contradiction.
Qed.

Lemma keys_of_filter (f : R -> bool) (t : list R) (k : K) :
  In k (map key (filter f t)) -> In k (map key t).
Proof.
  rewrite !in_map_iff. intros (r & Hk & Hin).
  apply filter_In in Hin. exists r. tauto.
Qed.

Lemma unique_filter (f : R -> bool) (t : list R) :
  unique key t -> unique key (filter f t).
Proof.
  unfold unique. induction t as [|r t IH]; simpl; intro H.
  - constructor.
  - inversion H as [|? ? Hnotin Hrest]; subst.
    destruct (f r); simpl; auto.
    constructor; auto.
    intro Hin. apply Hnotin. eapply keys_of_filter; eassumption.
Qed.

Lemma nodup_snoc (A : Type) (l : list A) (a : A) :
  NoDup l -> ~ In a l -> NoDup (l ++ [a]).
Proof.
  induction l as [|x l IH]; simpl; intros Hl Ha.
  - constructor; [intros []|constructor].
  - inversion Hl; subst. constructor.
    + rewrite in_app_iff. simpl. intros [Hin|[Heq|[]]]; [contradiction|].
      apply Ha. left. congruence.
    + apply IH; auto.
Qed.

Lemma unique_replace (new : R) (t : list R) :
  unique key t -> unique key (replace key hit new t).
Proof.
  intro Hu. unfold unique, replace. rewrite map_app. simpl.
  apply nodup_snoc.
  - apply unique_filter, Hu.
  - rewrite in_map_iff. intros (r & Hk & Hin).
    apply filter_In in Hin. destruct Hin as [_ Hf].
    rewrite <- Hk, hit_key in Hf. discriminate.
Qed.

Lemma find_none_app (f : R -> bool) (l1 l2 : list R) :
  find f l1 = None -> find f (l1 ++ l2) = find f l2.
Proof.
  induction l1 as [|x l1 IH]; simpl; [reflexivity|].
  destruct (f x); [discriminate | exact IH].
Qed.

Lemma find_some_app (f : R -> bool) (l1 l2 : list R) (r : R) :
  find f l1 = Some r -> find f (l1 ++ l2) = Some r.
Proof.
  induction l1 as [|x l1 IH]; simpl; [discriminate|].
  destruct (f x); [trivial | exact IH].
Qed.

Lemma find_filter_out (k : K) (t : list R) :
  find (hit k) (filter (fun r => negb (hit k r)) t) = None.
Proof.
  induction t as [|x t IH]; simpl; [reflexivity|].
  destruct (hit k x) eqn:E; simpl; [exact IH|].
  rewrite E. exact IH.
Qed.

Lemma find_filter_keep (k k' : K) (t : list R) :
  k <> k' ->
  find (hit k) (filter (fun r => negb (hit k' r)) t) = find (hit k) t.
Proof.
  intro Hne. induction t as [|x t IH]; simpl; [reflexivity|].
  destruct (hit k' x) eqn:E'; simpl.
  - apply hit_spec in E'. rewrite (hit_other k x) by congruence. exact IH.
  - destruct (hit k x); [reflexivity | exact IH].
Qed.

(** After the insert, the key of the new row finds the new row. *)
Lemma find_replace_same (new : R) (t : list R) :
  find (hit (key new)) (replace key hit new t) = Some new.
Proof.
  unfold replace. rewrite find_none_app by apply find_filter_out.
  simpl. rewrite hit_key. reflexivity.
Qed.

(** Any other key finds what it found before. *)
Lemma find_replace_other (k : K) (new : R) (t : list R) :
  k <> key new -> find (hit k) (replace key hit new t) = find (hit k) t.
Proof.
  intro Hne. unfold replace.
  destruct (find (hit k) t) as [r|] eqn:E.
  - apply find_some_app. rewrite find_filter_keep; assumption.
  - rewrite find_none_app by (rewrite find_filter_keep; assumption).
    simpl. rewrite hit_other by congruence. reflexivity.
Qed.

Lemma in_replace (new r : R) (t : list R) :
  In r (replace key hit new t) <-> (In r t /\ key r <> key new) \/ r = new.
Proof.
  unfold replace. rewrite in_app_iff, filter_In. simpl. split.
  - intros [[Hin Hf]|[Heq|[]]]; [left|right; congruence].
    split; [assumption|]. intro Hk.
    apply hit_spec in Hk. rewrite Hk in Hf. discriminate.
  - intros [[Hin Hk]|Heq]; [left|right; left; congruence].
    split; [assumption|]. rewrite hit_other; auto.
Qed.

(** With unique keys, the key of a row of the table finds that row. *)
Lemma find_unique (t : list R) (r : R) :
  unique key t -> In r t -> find (hit (key r)) t = Some r.
Proof.
  unfold unique. induction t as [|x t IH]; simpl; intros Hu Hin; [contradiction|].
  inversion Hu as [|? ? Hnotin Hrest]; subst.
  destruct Hin as [->|Hin].
  - rewrite hit_key. reflexivity.
  - destruct (hit (key r) x) eqn:E.
    + apply hit_spec in E. exfalso. apply Hnotin.
      rewrite E. apply in_map. assumption.
    + apply IH; assumption.
Qed.

End Keyed.

Arguments unique_replace {R K key hit} hit_spec new t _.
Arguments find_replace_same {R K key hit} hit_spec new t.
Arguments find_replace_other {R K key hit} hit_spec k new t _.
Arguments in_replace {R K key hit} hit_spec new r t.
Arguments find_unique {R K key hit} hit_spec t r _ _.

Lemma group_stats_hit_spec (k : Z * string) (r : GroupStats.row) :
  gs_hit k r = true <-> GroupStats.key r = k.
Proof.
  destruct k as [g d]. unfold gs_hit, GroupStats.matches, GroupStats.key. simpl.
  rewrite andb_true_iff, Z.eqb_eq, String.eqb_eq.
  split; [intros [-> ->]; reflexivity | intros H; inversion H; auto].
Qed.

Lemma user_activity_hit_spec (k : Z * Z) (r : UserActivity.row) :
  ua_hit k r = true <-> UserActivity.key r = k.
Proof.
  destruct k as [u g]. unfold ua_hit, UserActivity.matches, UserActivity.key. simpl.
  rewrite andb_true_iff, !Z.eqb_eq.
  split; [intros [-> ->]; reflexivity | intros H; inversion H; auto].
Qed.

Lemma group_stats_replace (new : GroupStats.row) (t : GroupStats.table) :
  GroupStats.insert_or_replace new t
  = replace GroupStats.key gs_hit new t.
Proof. reflexivity. Qed.

Lemma user_activity_replace (new : UserActivity.row) (t : UserActivity.table) :
  UserActivity.insert_or_replace new t
  = replace UserActivity.key ua_hit new t.
Proof. reflexivity. Qed.

(** ** Cells *)

Lemma plus_one_int (z : Z) :
  z < max_int64 -> plus_one (SqlInt z) = SqlInt (z + 1).
Proof.
  intro H. simpl. apply Z.ltb_lt in H. rewrite H. reflexivity.
Qed.

Lemma int64_bounds :
  min_int64 = -9223372036854775808 /\ max_int64 = 9223372036854775807.
Proof. split; reflexivity. Qed.

Lemma in_int64_iff (z : Z) :
  in_int64 z = true <-> min_int64 <= z <= max_int64.
Proof.
  unfold in_int64. rewrite andb_true_iff, !Z.leb_le. tauto.
Qed.

(** [COALESCE(x, 0) + 1] is never below [x] when [x] is a 64-bit value. *)
Lemma le_plus_one (x : sqlval) :
  well_typed x = true -> Sql.le x (plus_one (coalesce x (SqlInt 0))) = true.
Proof.
  destruct x as [|z|]; intro H; try reflexivity.
  cbn [well_typed] in H. apply in_int64_iff in H.
  cbn [coalesce plus_one].
  destruct (z <? max_int64) eqn:E; unfold Sql.le; cbn [numeric];
    apply Z.leb_le.
  - lia.
  - destruct int64_bounds as [_ Hmax]. rewrite Hmax in H.
    change (2 ^ 63) with 9223372036854775808. lia.
Qed.

Lemma well_typed_plus_one (x : sqlval) :
  well_typed x = true -> well_typed (plus_one (coalesce x (SqlInt 0))) = true.
Proof.
  destruct x as [|z|]; intro H; try reflexivity.
  cbn [well_typed] in H. apply in_int64_iff in H.
  cbn [coalesce plus_one].
  destruct (z <? max_int64) eqn:E; [|reflexivity].
  apply Z.ltb_lt in E. cbn [well_typed]. apply in_int64_iff. lia.
Qed.

(** ** The two upserts *)

Lemma gs_upsert_select (g : Z) (d : string) (t : GroupStats.table) :
  GroupStats.select_messages_count g d (GroupStats.upsert g d t)
  = plus_one (coalesce (GroupStats.select_messages_count g d t) (SqlInt 0)).
Proof.
  unfold GroupStats.upsert. rewrite group_stats_replace.
  unfold GroupStats.select_messages_count at 1.
  match goal with
  | |- context [replace _ _ ?new t] =>
      rewrite (find_replace_same group_stats_hit_spec new t
               : find (GroupStats.matches g d) _ = Some new)
  end.
  reflexivity.
Qed.

Lemma ua_upsert_select (u g : Z) (n : option string) (f d : string)
    (t : UserActivity.table) :
  UserActivity.select_message_count u g (UserActivity.upsert u g n f d t)
  = plus_one (coalesce (UserActivity.select_message_count u g t) (SqlInt 0)).
Proof.
  unfold UserActivity.upsert. rewrite user_activity_replace.
  unfold UserActivity.select_message_count at 1.
  match goal with
  | |- context [replace _ _ ?new t] =>
      rewrite (find_replace_same user_activity_hit_spec new t
               : find (UserActivity.matches u g) _ = Some new)
  end.
  reflexivity.
Qed.

Lemma gs_upsert_unique (g : Z) (d : string) (t : GroupStats.table) :
  unique GroupStats.key t -> unique GroupStats.key (GroupStats.upsert g d t).
Proof.
  intro H. unfold GroupStats.upsert. rewrite group_stats_replace.
  apply (unique_replace group_stats_hit_spec _ _ H).
Qed.

Lemma ua_upsert_unique (u g : Z) (n : option string) (f d : string)
    (t : UserActivity.table) :
  unique UserActivity.key t ->
  unique UserActivity.key (UserActivity.upsert u g n f d t).
Proof.
  intro H. unfold UserActivity.upsert. rewrite user_activity_replace.
  apply (unique_replace user_activity_hit_spec _ _ H).
Qed.

(** Every row of the table before the upsert has a row with its key after
    it, with a counter that is not smaller. *)
Lemma gs_upsert_monotone (g : Z) (d : string) (t : GroupStats.table)
    (r : GroupStats.row) :
  unique GroupStats.key t ->
  well_typed (GroupStats.messages_count r) = true ->
  In r t ->
  exists r', In r' (GroupStats.upsert g d t)
             /\ GroupStats.key r' = GroupStats.key r
             /\ Sql.le (GroupStats.messages_count r)
                       (GroupStats.messages_count r') = true.
Proof.
  intros Hu Hty Hin.
  unfold GroupStats.upsert. rewrite group_stats_replace.
  set (new := {| GroupStats.group_id := g |}).
  destruct (Z.eq_dec (GroupStats.group_id r) g) as [Hg|Hg];
    [destruct (string_dec (GroupStats.date r) d) as [Hd|Hd]|].
  - exists new. split; [apply (in_replace group_stats_hit_spec _ _ _); right; reflexivity|].
    split; [unfold GroupStats.key; simpl; congruence|].
    subst new. simpl. unfold GroupStats.select_messages_count.
    assert (Hf : find (GroupStats.matches g d) t = Some r).
    { subst g d. apply (find_unique group_stats_hit_spec t r Hu Hin). }
    rewrite Hf. apply le_plus_one, Hty.
  - exists r. split.
    + apply (in_replace group_stats_hit_spec _ _ _). left. split; [assumption|].
      unfold GroupStats.key; simpl. congruence.
    + split; [reflexivity|]. destruct (GroupStats.messages_count r); try reflexivity.
      unfold Sql.le; simpl. apply Z.leb_refl.
  - exists r. split.
    + apply (in_replace group_stats_hit_spec _ _ _). left. split; [assumption|].
      unfold GroupStats.key; simpl. congruence.
    + split; [reflexivity|]. destruct (GroupStats.messages_count r); try reflexivity.
      unfold Sql.le; simpl. apply Z.leb_refl.
Qed.

Lemma ua_upsert_monotone (u g : Z) (n : option string) (f d : string)
    (t : UserActivity.table) (r : UserActivity.row) :
  unique UserActivity.key t ->
  well_typed (UserActivity.message_count r) = true ->
  In r t ->
  exists r', In r' (UserActivity.upsert u g n f d t)
             /\ UserActivity.key r' = UserActivity.key r
             /\ Sql.le (UserActivity.message_count r)
                       (UserActivity.message_count r') = true.
Proof.
  intros Hu Hty Hin.
  unfold UserActivity.upsert. rewrite user_activity_replace.
  set (new := {| UserActivity.user_id := u |}).
  destruct (Z.eq_dec (UserActivity.user_id r) u) as [Hg|Hg];
    [destruct (Z.eq_dec (UserActivity.group_id r) g) as [Hd|Hd]|].
  - exists new. split; [apply (in_replace user_activity_hit_spec _ _ _); right; reflexivity|].
    split; [unfold UserActivity.key; simpl; congruence|].
    subst new. simpl. unfold UserActivity.select_message_count.
    assert (Hf : find (UserActivity.matches u g) t = Some r).
    { subst u g. apply (find_unique user_activity_hit_spec t r Hu Hin). }
    rewrite Hf. apply le_plus_one, Hty.
  - exists r. split.
    + apply (in_replace user_activity_hit_spec _ _ _). left. split; [assumption|].
      unfold UserActivity.key; simpl. congruence.
    + split; [reflexivity|]. destruct (UserActivity.message_count r); try reflexivity.
      unfold Sql.le; simpl. apply Z.leb_refl.
  - exists r. split.
    + apply (in_replace user_activity_hit_spec _ _ _). left. split; [assumption|].
      unfold UserActivity.key; simpl. congruence.
    + split; [reflexivity|]. destruct (UserActivity.message_count r); try reflexivity.
      unfold Sql.le; simpl. apply Z.leb_refl.
Qed.

(** The rows after an upsert: the new one, or a row that was there. *)
Lemma gs_upsert_rows (g : Z) (d : string) (t : GroupStats.table)
    (r : GroupStats.row) :
  In r (GroupStats.upsert g d t) ->
  In r t \/
  r = {| GroupStats.group_id := g; GroupStats.date := d;
         GroupStats.member_count := GroupStats.select_coalesce_member_count g d t;
         GroupStats.messages_count :=
           plus_one (coalesce (GroupStats.select_messages_count g d t) (SqlInt 0)) |}.
Proof.
  unfold GroupStats.upsert. rewrite group_stats_replace.
  intro H. apply (in_replace group_stats_hit_spec _ _ _) in H. tauto.
Qed.

Lemma ua_upsert_rows (u g : Z) (n : option string) (f d : string)
    (t : UserActivity.table) (r : UserActivity.row) :
  In r (UserActivity.upsert u g n f d t) ->
  In r t \/
  r = {| UserActivity.user_id := u; UserActivity.group_id := g;
         UserActivity.username := n; UserActivity.first_name := f;
         UserActivity.last_message := d;
         UserActivity.message_count :=
           plus_one (coalesce (UserActivity.select_message_count u g t) (SqlInt 0)) |}.
Proof.
  unfold UserActivity.upsert. rewrite user_activity_replace.
  intro H. apply (in_replace user_activity_hit_spec _ _ _) in H. tauto.
Qed.

(** ** Which handlers touch the database *)

Lemma keeps_ret {A} (a : A) : keeps_db (ret a).
Proof. intros pf w. reflexivity. Qed.

Lemma keeps_bind {A B} (c : bot A) (k : A -> bot B) :
  keeps_db c -> (forall a, keeps_db (k a)) -> keeps_db (bind c k).
Proof.
  intros Hc Hk pf w. unfold bind. specialize (Hc pf w).
  destruct (c pf w) as [[a|e] w']; simpl in *.
  - rewrite Hk. exact Hc.
  - exact Hc.
Qed.

Lemma keeps_try {A} (c : bot A) (h : string -> bot A) :
  keeps_db c -> (forall m, keeps_db (h m)) -> keeps_db (try_except c h).
Proof.
  intros Hc Hh pf w. unfold try_except. specialize (Hc pf w).
  destruct (c pf w) as [[a|[m|m|m]] w']; simpl in *; try exact Hc.
  rewrite Hh. exact Hc.
Qed.

Lemma keeps_raise {A} (e : exn) : keeps_db (@raise A e).
Proof. intros pf w. reflexivity. Qed.

Lemma keeps_perform {A} (c : call) (v : Platform -> list event -> A)
    (s : A -> answer) : keeps_db (perform c v s).
Proof.
  intros pf w. unfold perform. destruct (fault pf (log w) c); reflexivity.
Qed.

Lemma keeps_query {A} (q : Database -> exn + A) : keeps_db (query q).
Proof.
  intros pf w. unfold query. destruct (q (db w)); reflexivity.
Qed.

Lemma keeps_context_bot_id : keeps_db context_bot_id.
Proof. intros pf w. reflexivity. Qed.

Create HintDb keeps discriminated.
#[local] Hint Resolve keeps_ret keeps_raise keeps_perform keeps_query
  keeps_context_bot_id : keeps.

Ltac keeps_step :=
  match goal with
  | |- keeps_db (bind _ _) => apply keeps_bind; [|intro]
  | |- keeps_db (try_except _ _) => apply keeps_try; [|intro]
  | |- keeps_db (if ?b then _ else _) => destruct b
  | |- keeps_db (match ?x with _ => _ end) => destruct x
  | |- keeps_db _ => solve [auto with keeps]
  end.

Ltac keeps :=
  repeat keeps_step.

Lemma keeps_reply (u : Update) (text : string) (pm : option string) :
  keeps_db (reply_text u text pm).
Proof. unfold reply_text, command. keeps. Qed.

Lemma keeps_is_admin (u : Update) (ctx : Context) : keeps_db (is_admin u ctx).
Proof. unfold is_admin, get_chat_member. keeps. Qed.

Lemma keeps_is_bot_admin (u : Update) (ctx : Context) :
  keeps_db (is_bot_admin u ctx).
Proof. unfold is_bot_admin, get_chat_member. keeps. Qed.

#[local] Hint Resolve keeps_reply keeps_is_admin keeps_is_bot_admin : keeps.

Lemma keeps_start u ctx : keeps_db (start_command u ctx).
Proof. unfold start_command. keeps. Qed.

Lemma keeps_help u ctx : keeps_db (help_command u ctx).
Proof. unfold help_command. keeps. Qed.

Lemma keeps_stats clock u ctx : keeps_db (stats_command clock u ctx).
Proof.
  unfold stats_command, get_chat_member_count, get_chat_administrators. keeps.
Qed.

Lemma keeps_lock u ctx : keeps_db (lock_group u ctx).
Proof. unfold lock_group, set_chat_permissions, command. keeps. Qed.

Lemma keeps_unlock u ctx : keeps_db (unlock_group u ctx).
Proof. unfold unlock_group, set_chat_permissions, command. keeps. Qed.

Lemma keeps_mute clock u ctx : keeps_db (mute_user clock u ctx).
Proof. unfold mute_user, restrict_chat_member, command. keeps. Qed.

Lemma keeps_unmute u ctx : keeps_db (unmute_user u ctx).
Proof. unfold unmute_user, restrict_chat_member, command. keeps. Qed.

Lemma keeps_ban u ctx : keeps_db (ban_user u ctx).
Proof. unfold ban_user, ban_chat_member, command. keeps. Qed.

Lemma keeps_kick u ctx : keeps_db (kick_user u ctx).
Proof.
  unfold kick_user, ban_chat_member, unban_chat_member, command. keeps.
Qed.

(** What [track_activity] does to the database: nothing (a private chat, or
    a statement that raised), or both statements. *)
Lemma track_activity_db clock u ctx pf w :
  db (snd (track_activity clock u ctx pf w)) = db w \/
  (exists user,
      effective_user u = Some user /\
      String.eqb (Chat.type (effective_chat u)) "private" = false /\
      track_activity_statements user (effective_chat u)
        (strftime_Ymd (clock 0%nat)) (db w)
      = inr (db (snd (track_activity clock u ctx pf w)))).
Proof.
  unfold track_activity.
  destruct (String.eqb (Chat.type (effective_chat u)) "private") eqn:E.
  - left. reflexivity.
  - destruct (effective_user u) as [user|]; [|left; reflexivity].
    unfold transaction.
    destruct (track_activity_statements _ _ _ (db w)) as [e|d] eqn:Et.
    + left. reflexivity.
    + right. exists user. split; [reflexivity|]. split; [reflexivity|].
      exact Et.
Qed.

(** Only [track_activity] writes: whatever is delivered, the database is
    as before or both statements of [track_activity] have run on it. *)
Lemma deliver_db pf w x :
  db (deliver pf w x) = db w \/
  exists user chat today,
    track_activity_statements user chat today (db w) = inr (db (deliver pf w x)).
Proof.
  unfold deliver, dispatch.
  assert (Ht : forall clock u ctx,
             db (snd (track_activity clock u ctx pf w)) = db w \/
             exists user chat today,
               track_activity_statements user chat today (db w)
               = inr (db (snd (track_activity clock u ctx pf w)))).
  { intros clock u ctx.
    destruct (track_activity_db clock u ctx pf w) as [H|(user & _ & _ & H)];
      [left; exact H|].
    right. eauto. }
  destruct (d_command x) as [name|]; [|apply Ht].
  repeat match goal with
         | |- context [String.eqb name ?s] => destruct (String.eqb name s)
         end;
    try apply Ht; left.
  - apply keeps_start.
  - apply keeps_stats.
  - apply keeps_lock.
  - apply keeps_unlock.
  - apply keeps_mute.
  - apply keeps_unmute.
  - apply keeps_ban.
  - apply keeps_kick.
  - apply keeps_help.
Qed.

(** The two statements on a database that has both tables. *)
Lemma track_activity_statements_ok user chat today d gs ua :
  group_stats d = Some gs -> user_activity d = Some ua ->
  track_activity_statements user chat today d
  = inr {| group_stats := Some (GroupStats.upsert (Chat.id chat) today gs);
           user_activity :=
             Some (UserActivity.upsert (User.id user) (Chat.id chat)
                     (User.username user) (User.first_name user) today ua) |}.
Proof.
  intros Hg Hu. unfold track_activity_statements, execute_user_activity_upsert.
  rewrite Hu. unfold execute_group_stats_upsert. simpl. rewrite Hg. reflexivity.
Qed.

(** If the statements went through, both tables were there. *)
Lemma track_activity_statements_inv user chat today d d' :
  track_activity_statements user chat today d = inr d' ->
  exists gs ua,
    group_stats d = Some gs /\ user_activity d = Some ua /\
    d' = {| group_stats := Some (GroupStats.upsert (Chat.id chat) today gs);
            user_activity :=
              Some (UserActivity.upsert (User.id user) (Chat.id chat)
                      (User.username user) (User.first_name user) today ua) |}.
Proof.
  unfold track_activity_statements, execute_user_activity_upsert.
  destruct (user_activity d) as [ua|] eqn:Hu; [|discriminate].
  unfold execute_group_stats_upsert. simpl.
  destruct (group_stats d) as [gs|] eqn:Hg; [|discriminate].
  intro H. inversion H. eauto.
Qed.

(* ===================================================================== *)
(** * The counters *)
(* ===================================================================== *)

(** Counting from any start: with the per-user counter at [a] and the
    group's counter of the day at [b] (a missing row counts as 0), N
    messages bring them to [a + N] and [b + N]. *)
Lemma track_each_adds (user group : Z) (day : string) (xs : list Delivery) :
  forall pf w gs ua a b,
    group_stats (db w) = Some gs ->
    user_activity (db w) = Some ua ->
    Forall (sent_in_group user group day) xs ->
    coalesce (UserActivity.select_message_count user group ua) (SqlInt 0)
    = SqlInt a ->
    coalesce (GroupStats.select_messages_count group day gs) (SqlInt 0)
    = SqlInt b ->
    a + Z.of_nat (List.length xs) <= max_int64 ->
    b + Z.of_nat (List.length xs) <= max_int64 ->
    exists gs' ua',
      track_each xs pf w
      = (Returned tt,
         {| log := log w;
            db := {| group_stats := Some gs'; user_activity := Some ua' |} |})
      /\ coalesce (UserActivity.select_message_count user group ua') (SqlInt 0)
         = SqlInt (a + Z.of_nat (List.length xs))
      /\ coalesce (GroupStats.select_messages_count group day gs') (SqlInt 0)
         = SqlInt (b + Z.of_nat (List.length xs)).
Proof.
  induction xs as [|x xs IH]; intros pf w gs ua a b Hg Hu Hall Ha Hb Hla Hlb.
  - exists gs, ua. simpl. rewrite !Z.add_0_r. repeat split; try assumption.
    unfold ret. destruct w as [l [g0 u0]]. simpl in *. subst. reflexivity.
  - inversion Hall as [|? ? Hx Hrest]; subst.
    destruct Hx as (Hid & Hchat & Hpriv & Hday).
    destruct (effective_user (d_update x)) as [sender|] eqn:Hsender;
      [|discriminate Hid].
    injection Hid as Hid.
    cbn [track_each]. unfold bind at 1. unfold track_activity at 1.
    rewrite Hpriv, Hsender. unfold transaction.
    rewrite (track_activity_statements_ok _ _ _ _ gs ua Hg Hu).
    rewrite Hid, Hchat, Hday.
    cbn [List.length] in Hla, Hlb. rewrite Nat2Z.inj_succ in Hla, Hlb.
    match goal with
    | |- context [track_each xs pf ?w1] =>
        destruct (IH pf w1 (GroupStats.upsert group day gs)
                    (UserActivity.upsert user group
                       (User.username sender) (User.first_name sender) day ua)
                    (a + 1) (b + 1))
          as (gs' & ua' & Hrun & Hua & Hgs)
    end; try reflexivity; try assumption; try lia.
    + rewrite ua_upsert_select, Ha, plus_one_int by lia. reflexivity.
    + rewrite gs_upsert_select, Hb, plus_one_int by lia. reflexivity.
    + exists gs', ua'. cbn [List.length]. rewrite Nat2Z.inj_succ.
      replace (a + Z.succ (Z.of_nat (List.length xs)))
        with (a + 1 + Z.of_nat (List.length xs)) by lia.
      replace (b + Z.succ (Z.of_nat (List.length xs)))
        with (b + 1 + Z.of_nat (List.length xs)) by lia.
      repeat split; assumption.
Qed.

Lemma select_ua_row (u g : Z) (t : UserActivity.table) (z : Z) :
  z <> 0 ->
  coalesce (UserActivity.select_message_count u g t) (SqlInt 0) = SqlInt z ->
  exists r, find (UserActivity.matches u g) t = Some r
            /\ UserActivity.message_count r = SqlInt z.
Proof.
  unfold UserActivity.select_message_count. intro Hz.
  destruct (find (UserActivity.matches u g) t) as [r|].
  - intro H. exists r. split; [reflexivity|].
    destruct (UserActivity.message_count r); simpl in H; congruence.
  - simpl. congruence.
Qed.

Lemma select_gs_row (g : Z) (d : string) (t : GroupStats.table) (z : Z) :
  z <> 0 ->
  coalesce (GroupStats.select_messages_count g d t) (SqlInt 0) = SqlInt z ->
  exists r, find (GroupStats.matches g d) t = Some r
            /\ GroupStats.messages_count r = SqlInt z.
Proof.
  unfold GroupStats.select_messages_count. intro Hz.
  destruct (find (GroupStats.matches g d) t) as [r|].
  - intro H. exists r. split; [reflexivity|].
    destruct (GroupStats.messages_count r); simpl in H; congruence.
  - simpl. congruence.
Qed.

(** C1. In a group chat, N messages of one user on one day, handled by
    [track_activity] from a store that has no row for that user in the
    group and none for the group on that day, leave the user's row with
    [message_count = N] and the group's row of the day with
    [messages_count = N]; every one of the N calls returns. *)
Theorem track_activity_counts_messages
    (pf : Platform) (w : World) (gs : GroupStats.table)
    (ua : UserActivity.table) (user group : Z) (day : string)
    (xs : list Delivery)
    (Hgs : group_stats (db w) = Some gs)
    (Hua : user_activity (db w) = Some ua)
    (Hno_user_row : find (UserActivity.matches user group) ua = None)
    (Hno_group_row : find (GroupStats.matches group day) gs = None)
    (Hsome : xs <> [])
    (Hsent : Forall (sent_in_group user group day) xs)
    (Hrange : Z.of_nat (List.length xs) <= max_int64) :
  exists gs' ua' ru rg,
    track_each xs pf w
    = (Returned tt,
       {| log := log w;
          db := {| group_stats := Some gs'; user_activity := Some ua' |} |})
    /\ find (UserActivity.matches user group) ua' = Some ru
    /\ UserActivity.message_count ru = SqlInt (Z.of_nat (List.length xs))
    /\ find (GroupStats.matches group day) gs' = Some rg
    /\ GroupStats.messages_count rg = SqlInt (Z.of_nat (List.length xs)).
Proof.
  destruct (track_each_adds user group day xs pf w gs ua 0 0)
    as (gs' & ua' & Hrun & Hu & Hg); try assumption.
  - unfold UserActivity.select_message_count. rewrite Hno_user_row. reflexivity.
  - unfold GroupStats.select_messages_count. rewrite Hno_group_row. reflexivity.
  - assert (Hpos : Z.of_nat (List.length xs) <> 0).
    { destruct xs; [contradiction | simpl; lia]. }
    rewrite Z.add_0_l in Hu, Hg.
    destruct (select_ua_row _ _ _ _ Hpos Hu) as (ru & Hfu & Hcu).
    destruct (select_gs_row _ _ _ _ Hpos Hg) as (rg & Hfg & Hcg).
    exists gs', ua', ru, rg. repeat split; assumption.
Qed.

(* ===================================================================== *)
(** * The schema-creation step *)
(* ===================================================================== *)

Lemma init_database_idempotent (d : Database) :
  init_database (init_database d) = init_database d.
Proof.
  destruct d as [[gs|] [ua|]]; reflexivity.
Qed.

(** C5. On a store in which both tables exist, [init_database] changes
    nothing: the file is the same afterwards, each table with the rows it
    had. *)
Theorem init_database_existing_store
    (d : Database) (gs : GroupStats.table) (ua : UserActivity.table)
    (Hgs : group_stats d = Some gs)
    (Hua : user_activity d = Some ua) :
  init_database d = d
  /\ group_stats (init_database d) = Some gs
  /\ user_activity (init_database d) = Some ua.
Proof.
  destruct d as [g u]. simpl in *. subst. repeat split; reflexivity.
Qed.

(* ===================================================================== *)
(** * Invariants of the store *)
(* ===================================================================== *)

Lemma le_refl (x : sqlval) : Sql.le x x = true.
Proof.
  destruct x; try reflexivity. unfold Sql.le; simpl. apply Z.leb_refl.
Qed.

Lemma never_decreases_refl (d : Database) : never_decreases d d.
Proof.
  split; intros t r Ht Hin; exists t, r; auto using le_refl.
Qed.

Lemma pk_unique_init (d : Database) : pk_unique d -> pk_unique (init_database d).
Proof.
  intros [Hg Hu]. unfold init_database, create_table_if_not_exists.
  split; simpl; intros t Ht.
  - destruct (group_stats d) as [gs|]; inversion Ht; subst;
      [apply Hg; reflexivity | constructor].
  - destruct (user_activity d) as [ua|]; inversion Ht; subst;
      [apply Hu; reflexivity | constructor].
Qed.

Lemma pk_unique_statements user chat today d d' :
  track_activity_statements user chat today d = inr d' ->
  pk_unique d -> pk_unique d'.
Proof.
  intros H [Hg Hu].
  apply track_activity_statements_inv in H.
  destruct H as (gs & ua & Hgs & Hua & ->).
  split; simpl; intros t Ht; inversion Ht; subst.
  - apply gs_upsert_unique, Hg, Hgs.
  - apply ua_upsert_unique, Hu, Hua.
Qed.

Lemma counters_typed_statements user chat today d d' :
  track_activity_statements user chat today d = inr d' ->
  counters_typed d -> counters_typed d'.
Proof.
  intros H [Hg Hu].
  apply track_activity_statements_inv in H.
  destruct H as (gs & ua & Hgs & Hua & ->).
  split; simpl; intros t r Ht Hin; inversion Ht; subst.
  - apply gs_upsert_rows in Hin. destruct Hin as [Hin| ->]; [eauto|].
    simpl. apply well_typed_plus_one.
    unfold GroupStats.select_messages_count.
    destruct (find _ gs) as [r0|] eqn:E; [|reflexivity].
    apply find_some in E. eapply Hg; [eassumption | apply E].
  - apply ua_upsert_rows in Hin. destruct Hin as [Hin| ->]; [eauto|].
    simpl. apply well_typed_plus_one.
    unfold UserActivity.select_message_count.
    destruct (find _ ua) as [r0|] eqn:E; [|reflexivity].
    apply find_some in E. eapply Hu; [eassumption | apply E].
Qed.

Lemma never_decreases_statements user chat today d d' :
  track_activity_statements user chat today d = inr d' ->
  pk_unique d -> counters_typed d -> never_decreases d d'.
Proof.
  intros H [Hg Hu] [Tg Tu].
  apply track_activity_statements_inv in H.
  destruct H as (gs & ua & Hgs & Hua & ->).
  split; simpl; intros t r Ht Hin.
  - rewrite Hgs in Ht. inversion Ht; subst t.
    destruct (gs_upsert_monotone (Chat.id chat) today gs r
                (Hg gs Hgs) (Tg gs r Hgs Hin) Hin)
      as (r' & Hin' & Hk & Hle).
    eexists. exists r'. repeat split; eauto.
  - rewrite Hua in Ht. inversion Ht; subst t.
    destruct (ua_upsert_monotone (User.id user) (Chat.id chat)
                (User.username user) (User.first_name user) today ua r
                (Hu ua Hua) (Tu ua r Hua Hin) Hin)
      as (r' & Hin' & Hk & Hle).
    eexists. exists r'. repeat split; eauto.
Qed.

(** One delivered update, whatever it is. *)
Lemma deliver_store_invariants pf w x :
  pk_unique (db w) -> counters_typed (db w) ->
  pk_unique (db (deliver pf w x))
  /\ never_decreases (db w) (db (deliver pf w x))
  /\ counters_typed (db (deliver pf w x)).
Proof.
  intros Hunique Htyped.
  destruct (deliver_db pf w x) as [Heq | (user & chat & today & Hst)].
  - rewrite Heq.
    split; [assumption | split; [apply never_decreases_refl | assumption]].
  - split; [|split].
    + eapply pk_unique_statements; eassumption.
    + eapply never_decreases_statements; eassumption.
    + eapply counters_typed_statements; eassumption.
Qed.

Lemma counters_typed_init (d : Database) :
  counters_typed d -> counters_typed (init_database d).
Proof.
  intros [Hg Hu]. unfold init_database, create_table_if_not_exists.
  split; simpl; intros t r Ht Hin.
  - destruct (group_stats d) as [gs|]; inversion Ht; subst;
      [eapply Hg; [reflexivity | exact Hin] | contradiction].
  - destruct (user_activity d) as [ua|]; inversion Ht; subst;
      [eapply Hu; [reflexivity | exact Hin] | contradiction].
Qed.

(** The invariants hold in every store the program reaches. *)
Lemma run_store_invariants pf file updates :
  pk_unique file -> counters_typed file ->
  pk_unique (db (run pf file updates))
  /\ counters_typed (db (run pf file updates)).
Proof.
  intros Hu Ht. unfold run.
  assert (H0 : pk_unique (db (startup file)) /\ counters_typed (db (startup file))).
  { split; [apply pk_unique_init, Hu | apply counters_typed_init, Ht]. }
  revert H0. generalize (startup file).
  induction updates as [|x xs IH]; intros w [Hw1 Hw2]; simpl; [auto|].
  apply IH. destruct (deliver_store_invariants pf w x Hw1 Hw2) as (H1 & _ & H3).
  auto.
Qed.

Lemma new_file_store_invariants pf updates :
  pk_unique (db (run pf empty_file updates))
  /\ counters_typed (db (run pf empty_file updates)).
Proof.
  apply run_store_invariants; split; simpl; intros; discriminate.
Qed.

(** C7. Every operation keeps the primary keys unique: [init_database] and
    whatever the dispatcher runs on a delivered update. On a store with
    unique keys and 64-bit counters, a delivered update ([track_activity]
    is the only handler that writes) lowers no counter: each row keeps a row
    with its key whose [messages_count], respectively [message_count], is
    at least what it was; and the counters stay 64-bit values or the REAL. *)
Theorem store_keys_unique_counters_monotone
    (pf : Platform) (w : World) (x : Delivery)
    (Hunique : pk_unique (db w))
    (Htyped : counters_typed (db w)) :
  pk_unique (init_database (db w))
  /\ pk_unique (db (deliver pf w x))
  /\ never_decreases (db w) (db (deliver pf w x))
  /\ counters_typed (db (deliver pf w x)).
Proof.
  split; [apply pk_unique_init, Hunique|].
  apply deliver_store_invariants; assumption.
Qed.

(** The same for [track_activity] itself, on any update. *)
Lemma track_activity_monotone clock u ctx pf w :
  pk_unique (db w) -> counters_typed (db w) ->
  pk_unique (db (snd (track_activity clock u ctx pf w)))
  /\ never_decreases (db w) (db (snd (track_activity clock u ctx pf w))).
Proof.
  intros Hu Ht.
  destruct (track_activity_db clock u ctx pf w)
    as [Heq | (user & _ & _ & Hst)].
  - rewrite Heq. split; [assumption | apply never_decreases_refl].
  - split.
    + eapply pk_unique_statements; eassumption.
    + eapply never_decreases_statements; eassumption.
Qed.

(* ===================================================================== *)
(** * The member_count column *)
(* ===================================================================== *)

Lemma member_count_from_refl (d : Database) : member_count_from d d.
Proof.
  intros t r Ht Hin. right. right. exists t, r. auto.
Qed.

Lemma member_count_from_statements user chat today d d' :
  track_activity_statements user chat today d = inr d' ->
  member_count_from d d'.
Proof.
  intro H. apply track_activity_statements_inv in H.
  destruct H as (gs & ua & Hgs & Hua & ->).
  intros t' r' Ht' Hin. simpl in Ht'. inversion Ht'; subst t'.
  apply gs_upsert_rows in Hin. destruct Hin as [Hin | ->].
  - right. right. exists gs, r'. auto.
  - simpl. unfold GroupStats.select_coalesce_member_count.
    destruct (find (GroupStats.matches (Chat.id chat) today) gs) as [r|] eqn:E;
      [|left; reflexivity].
    apply find_some in E. destruct E as [Hin Hm].
    destruct (GroupStats.member_count r) eqn:Em; simpl.
    + right. left. reflexivity.
    + right. right. exists gs, r. repeat split; try assumption.
      apply (group_stats_hit_spec (Chat.id chat, today) r). exact Hm.
    + right. right. exists gs, r. repeat split; try assumption.
      apply (group_stats_hit_spec (Chat.id chat, today) r). exact Hm.
Qed.

Lemma deliver_member_count_from pf w x :
  member_count_from (db w) (db (deliver pf w x)).
Proof.
  destruct (deliver_db pf w x) as [Heq | (user & chat & today & Hst)].
  - rewrite Heq. apply member_count_from_refl.
  - eapply member_count_from_statements; eassumption.
Qed.

Lemma deliver_member_count_unset pf w x :
  member_count_unset (db w) -> member_count_unset (db (deliver pf w x)).
Proof.
  intros Hun t' r' Ht' Hin.
  destruct (deliver_member_count_from pf w x t' r' Ht' Hin)
    as [H | [H | (t & r & Ht & Hr & _ & Hm)]]; auto.
  rewrite <- Hm. eapply Hun; eassumption.
Qed.

Lemma fold_deliver_member_count_unset pf (xs : list Delivery) :
  forall w, member_count_unset (db w) ->
            member_count_unset (db (fold_left (deliver pf) xs w)).
Proof.
  induction xs as [|x xs IH]; intros w Hw; simpl; [exact Hw|].
  apply IH, deliver_member_count_unset, Hw.
Qed.

(** C9. [track_activity] writes no member count of the platform. For a
    group and a day without a row in [group_stats], the row it inserts has
    [member_count] NULL; for an update without a sender it inserts none and
    the store is as before. Whatever is delivered and whatever the platform
    answers, a [member_count] after it is NULL, the constant 0 of the
    COALESCE, or the value the row with that key already had; so from a new
    file every [member_count] the program ever holds is NULL or 0. *)
Theorem member_count_never_from_platform
    (pf : Platform) (w : World) (clock : Clock) (u : Update) (ctx : Context)
    (gs : GroupStats.table) (ua : UserActivity.table)
    (Hgs : group_stats (db w) = Some gs)
    (Hua : user_activity (db w) = Some ua)
    (Hgroup : String.eqb (Chat.type (effective_chat u)) "private" = false)
    (Hno_row : find (GroupStats.matches (Chat.id (effective_chat u))
                       (strftime_Ymd (clock 0%nat))) gs = None) :
  (forall user,
      effective_user u = Some user ->
      exists gs' r,
        group_stats (db (snd (track_activity clock u ctx pf w))) = Some gs'
        /\ find (GroupStats.matches (Chat.id (effective_chat u))
                   (strftime_Ymd (clock 0%nat))) gs' = Some r
        /\ GroupStats.member_count r = SqlNull)
  /\ (effective_user u = None -> snd (track_activity clock u ctx pf w) = w)
  /\ (forall x, member_count_from (db w) (db (deliver pf w x)))
  /\ (forall pf' updates, member_count_unset (db (run pf' empty_file updates))).
Proof.
  split; [|split; [|split]].
  - intros user Hsender.
    unfold track_activity. rewrite Hgroup, Hsender. unfold transaction.
    rewrite (track_activity_statements_ok _ _ _ _ gs ua Hgs Hua). simpl.
    eexists. eexists. split; [reflexivity|].
    unfold GroupStats.upsert. rewrite group_stats_replace.
    match goal with
    | |- context [replace _ _ ?new gs] =>
        rewrite (find_replace_same group_stats_hit_spec new gs
                 : find (GroupStats.matches (Chat.id (effective_chat u))
                           (strftime_Ymd (clock 0%nat))) _ = Some new)
    end.
    split; [reflexivity|]. simpl.
    unfold GroupStats.select_coalesce_member_count. rewrite Hno_row. reflexivity.
  - intro Hnone. unfold track_activity. rewrite Hgroup, Hnone. reflexivity.
  - intro x. apply deliver_member_count_from.
  - intros pf' updates. unfold run. apply fold_deliver_member_count_unset.
    intros t r Ht Hin. simpl in Ht. inversion Ht; subst. contradiction.
Qed.

(* ===================================================================== *)
(** * The permission gate and the privileged commands *)
(* ===================================================================== *)

(** Each handler is the gate in front of its action. *)
Lemma gated_handler_gate (g : gated) (clock : Clock) (u : Update) (ctx : Context) :
  gated_handler g clock u ctx
  = gate u ctx (bot_rejection g) (action_of g clock u ctx).
Proof. destruct g; reflexivity. Qed.

(** ** Running the gate *)

Lemma logged_logged (w : World) (a b : list event) :
  logged (logged w a) b = logged w (a ++ b).
Proof. unfold logged. simpl. rewrite app_assoc. reflexivity. Qed.

Lemma command_run (c : call) (pf : Platform) (w : World) :
  command c pf w
  = (outcome_of (command_answer pf (log w) c),
     logged w [(c, command_answer pf (log w) c)]).
Proof.
  unfold command, perform, command_answer.
  destruct (fault pf (log w) c); reflexivity.
Qed.

Lemma reply_run (u : Update) (m : Message) (Hm : message u = Some m)
    (text : string) (pm : option string) (pf : Platform) (w : World) :
  let c := ReplyText (Chat.id (effective_chat u)) text pm in
  reply_text u text pm pf w
  = (outcome_of (command_answer pf (log w) c),
     logged w [(c, command_answer pf (log w) c)]).
Proof. unfold reply_text. rewrite Hm. apply command_run. Qed.

(** Without [update.message] a reply raises and nothing is called. *)
Lemma reply_without_message (u : Update) (Hm : message u = None)
    (text : string) (pm : option string) (pf : Platform) (w : World) :
  reply_text u text pm pf w = (Raises (none_has_no "reply_text"), w).
Proof. unfold reply_text. rewrite Hm. reflexivity. Qed.

Arguments reply_run {u m} Hm text pm pf w.
Arguments reply_without_message {u} Hm text pm pf w.

Lemma is_admin_run (u : Update) (caller : User.t)
    (Hc : effective_user u = Some caller) (ctx : Context) (pf : Platform)
    (w : World) :
  let a := lookup_answer pf (log w) (Chat.id (effective_chat u))
                         (User.id caller) in
  is_admin u ctx pf w
  = (Returned (admits_caller a), logged w [(caller_lookup u caller, a)]).
Proof.
  unfold is_admin. rewrite Hc.
  unfold try_except, bind, get_chat_member, perform, lookup_answer,
    caller_lookup.
  destruct (fault pf (log w) _); reflexivity.
Qed.

(** Without a sender [is_admin] raises before any call. *)
Lemma is_admin_without_caller (u : Update) (Hc : effective_user u = None)
    (ctx : Context) (pf : Platform) (w : World) :
  is_admin u ctx pf w = (Raises (none_has_no "id"), w).
Proof. unfold is_admin. rewrite Hc. reflexivity. Qed.

Arguments is_admin_run {u caller} Hc ctx pf w.
Arguments is_admin_without_caller {u} Hc ctx pf w.

Lemma is_bot_admin_run (u : Update) (ctx : Context) (pf : Platform) (w : World) :
  let a := lookup_answer pf (log w) (Chat.id (effective_chat u)) (bot_id pf) in
  is_bot_admin u ctx pf w = (Returned (admits_bot a), logged w [(bot_lookup pf u, a)]).
Proof.
  unfold is_bot_admin, context_bot_id, try_except, bind, get_chat_member,
    perform, lookup_answer, bot_lookup.
  destruct (fault pf (log w) _); reflexivity.
Qed.

(** The gate, step by step. *)
Lemma gate_run (u : Update) (caller : User.t)
    (Hc : effective_user u = Some caller) (ctx : Context) (bot_msg : string)
    (action : bot unit) (pf : Platform) (w : World) :
  let chat := Chat.id (effective_chat u) in
  let a1 := lookup_answer pf (log w) chat (User.id caller) in
  let e1 := (caller_lookup u caller, a1) in
  let a2 := lookup_answer pf (log w ++ [e1]) chat (bot_id pf) in
  let e2 := (bot_lookup pf u, a2) in
  gate u ctx bot_msg action pf w
  = if admits_caller a1 then
      if admits_bot a2 then action pf (logged w [e1; e2])
      else reply_text u bot_msg None pf (logged w [e1; e2])
    else reply_text u caller_rejection None pf (logged w [e1]).
Proof.
  intros chat a1 e1 a2 e2. unfold gate, bind at 1.
  rewrite (is_admin_run Hc). fold chat a1 e1.
  destruct (admits_caller a1); cbn [negb]; cbv beta iota; [|reflexivity].
  unfold bind. rewrite is_bot_admin_run.
  change (log (logged w [e1])) with (log w ++ [e1]). fold chat a2 e2.
  rewrite logged_logged. simpl app.
  destruct (admits_bot a2); reflexivity.
Qed.

Lemma gate_without_caller (u : Update) (Hc : effective_user u = None)
    (ctx : Context) (bot_msg : string) (action : bot unit) (pf : Platform)
    (w : World) :
  gate u ctx bot_msg action pf w = (Raises (none_has_no "id"), w).
Proof. unfold gate, bind. rewrite (is_admin_without_caller Hc). reflexivity. Qed.

Arguments gate_run {u caller} Hc ctx bot_msg action pf w.
Arguments gate_without_caller {u} Hc ctx bot_msg action pf w.

Lemma logged_nil (w : World) : logged w [] = w.
Proof. destruct w. unfold logged. simpl. rewrite app_nil_r. reflexivity. Qed.

(** ** The log only grows *)

Lemma grows_ret {A} (a : A) : grows (ret a).
Proof. intros pf w. exists []. simpl. rewrite app_nil_r. reflexivity. Qed.

Lemma grows_bind {A B} (c : bot A) (k : A -> bot B) :
  grows c -> (forall a, grows (k a)) -> grows (bind c k).
Proof.
  intros Hc Hk pf w. unfold bind. destruct (Hc pf w) as [evs Hevs].
  destruct (c pf w) as [[a|e] w']; simpl in *.
  - destruct (Hk a pf w') as [evs' Hevs']. exists (evs ++ evs').
    rewrite Hevs', Hevs, app_assoc. reflexivity.
  - exists evs. exact Hevs.
Qed.

Lemma grows_try {A} (c : bot A) (h : string -> bot A) :
  grows c -> (forall m, grows (h m)) -> grows (try_except c h).
Proof.
  intros Hc Hh pf w. unfold try_except. destruct (Hc pf w) as [evs Hevs].
  destruct (c pf w) as [[a|[m|m|m]] w']; simpl in *;
    try (exists evs; exact Hevs).
  destruct (Hh m pf w') as [evs' Hevs']. exists (evs ++ evs').
  rewrite Hevs', Hevs, app_assoc. reflexivity.
Qed.

Lemma grows_raise {A} (e : exn) : grows (@raise A e).
Proof. intros pf w. exists []. simpl. rewrite app_nil_r. reflexivity. Qed.

Lemma grows_perform {A} (c : call) (v : Platform -> list event -> A)
    (s : A -> answer) : grows (perform c v s).
Proof.
  intros pf w. unfold perform.
  destruct (fault pf (log w) c); eexists; reflexivity.
Qed.

Lemma grows_query {A} (q : Database -> exn + A) : grows (query q).
Proof.
  intros pf w. unfold query. exists [].
  destruct (q (db w)); simpl; rewrite app_nil_r; reflexivity.
Qed.

Lemma grows_transaction (f : Database -> exn + Database) : grows (transaction f).
Proof.
  intros pf w. unfold transaction. exists [].
  destruct (f (db w)); simpl; rewrite app_nil_r; reflexivity.
Qed.

Lemma grows_context_bot_id : grows context_bot_id.
Proof. intros pf w. exists []. simpl. rewrite app_nil_r. reflexivity. Qed.

Create HintDb grows discriminated.
#[local] Hint Resolve grows_ret grows_raise grows_perform grows_query
  grows_transaction grows_context_bot_id : grows.

Ltac grows_step :=
  match goal with
  | |- grows (bind _ _) => apply grows_bind; [|intro]
  | |- grows (try_except _ _) => apply grows_try; [|intro]
  | |- grows (if ?b then _ else _) => destruct b
  | |- grows (match ?x with _ => _ end) => destruct x
  | |- grows _ => solve [auto with grows]
  end.

Ltac grows := repeat grows_step.

Lemma grows_reply (u : Update) (text : string) (pm : option string) :
  grows (reply_text u text pm).
Proof. unfold reply_text, command. grows. Qed.

#[local] Hint Resolve grows_reply : grows.

Lemma grows_action (g : gated) (clock : Clock) (u : Update) (ctx : Context) :
  grows (action_of g clock u ctx).
Proof.
  destruct g; unfold action_of, on_replied_user, attempt, set_chat_permissions,
    restrict_chat_member, ban_chat_member, unban_chat_member, command; grows.
Qed.

Lemma status_in_admin_or_creator_iff (s : string) :
  status_in_admin_or_creator s = true
  <-> s = "administrator"%string \/ s = "creator"%string.
Proof.
  unfold status_in_admin_or_creator.
  rewrite orb_true_iff, !String.eqb_eq. tauto.
Qed.

Lemma not_admin_status (s : string) :
  s <> "administrator"%string -> s <> "creator"%string ->
  status_in_admin_or_creator s = false.
Proof.
  intros H1 H2. destruct (status_in_admin_or_creator s) eqn:E; [|reflexivity].
  apply status_in_admin_or_creator_iff in E. tauto.
Qed.

Lemma lookup_answer_ok pf l chat user :
  fault pf l (GetChatMember chat user) = None ->
  lookup_answer pf l chat user = Status (member_status pf l chat user).
Proof. intro H. unfold lookup_answer. rewrite H. reflexivity. Qed.

Lemma lookup_answer_raised pf l chat user msg :
  fault pf l (GetChatMember chat user) = Some msg ->
  lookup_answer pf l chat user = Raised msg.
Proof. intro H. unfold lookup_answer. rewrite H. reflexivity. Qed.

(** C2. A gated command of a user whose status is neither 'administrator'
    nor 'creator': the handler makes the lookup and then calls
    [update.message.reply_text] with the rejection text. On a new message
    the text is sent and the handler stops; it returns when the platform
    takes the reply. On an edited message [update.message] is None: the
    handler raises AttributeError right after the lookup and no rejection
    is sent. Either way no call changes the chat and the database is
    untouched. *)
Theorem non_admin_rejection_needs_message
    (g : gated) (pf : Platform) (w : World) (clock : Clock) (u : Update)
    (ctx : Context) (caller : User.t)
    (Hcaller : effective_user u = Some caller)
    (Hlookup : fault pf (log w) (caller_lookup u caller) = None)
    (Hnot_admin :
       member_status pf (log w) (Chat.id (effective_chat u)) (User.id caller)
       <> "administrator"%string)
    (Hnot_creator :
       member_status pf (log w) (Chat.id (effective_chat u)) (User.id caller)
       <> "creator"%string) :
  let e1 := (caller_lookup u caller,
             Status (member_status pf (log w) (Chat.id (effective_chat u))
                       (User.id caller))) in
  let reply := ReplyText (Chat.id (effective_chat u)) caller_rejection None in
  let a := command_answer pf (log w ++ [e1]) reply in
  (forall m, message u = Some m ->
     gated_handler g clock u ctx pf w
     = (outcome_of a, {| log := log w ++ [e1; (reply, a)]; db := db w |})
     /\ (fault pf (log w ++ [e1]) reply = None -> outcome_of a = Returned tt))
  /\ (message u = None ->
      gated_handler g clock u ctx pf w
      = (Raises (none_has_no "reply_text"),
         {| log := log w ++ [e1]; db := db w |}))
  /\ (forall e, In e [e1; (reply, a)] -> privileged (fst e) = false).
Proof.
  intros e1 reply a.
  assert (Hgate : gated_handler g clock u ctx pf w
                  = reply_text u caller_rejection None pf (logged w [e1])).
  { rewrite gated_handler_gate, (gate_run Hcaller).
    rewrite !(lookup_answer_ok _ _ _ _ Hlookup).
    cbn [admits_caller]. rewrite not_admin_status by assumption.
    reflexivity. }
  split; [|split].
  - intros m Hm. split.
    + rewrite Hgate, (reply_run Hm), logged_logged. reflexivity.
    + intro H. unfold a, command_answer. rewrite H. reflexivity.
  - intro Hm. rewrite Hgate, (reply_without_message Hm). reflexivity.
  - intros e [<-|[<-|[]]]; reflexivity.
Qed.

(** C3. In any run of a gated handler, a call that changes the chat is
    made only after both lookups have returned, the caller's first with
    status 'administrator' or 'creator', then the bot's own with status
    'administrator': these are the first two calls of the invocation and
    the privileged call comes after them. *)
Theorem privileged_call_needs_both_lookups
    (g : gated) (pf : Platform) (w : World) (clock : Clock) (u : Update)
    (ctx : Context) :
  exists evs,
    log (snd (gated_handler g clock u ctx pf w)) = log w ++ evs
    /\ forall e, In e evs -> privileged (fst e) = true ->
         exists caller s1 s2 rest,
           effective_user u = Some caller
           /\ evs = (caller_lookup u caller, Status s1)
                    :: (bot_lookup pf u, Status s2) :: rest
           /\ (s1 = "administrator"%string \/ s1 = "creator"%string)
           /\ s2 = "administrator"%string
           /\ In e rest.
Proof.
  rewrite gated_handler_gate.
  destruct (effective_user u) as [caller|] eqn:Hc.
  2:{ rewrite (gate_without_caller Hc). exists []. split.
      - simpl. rewrite app_nil_r. reflexivity.
      - intros e []. }
  rewrite (gate_run Hc).
  set (a1 := lookup_answer pf (log w) _ _).
  set (a2 := lookup_answer pf (log w ++ _) _ _).
  destruct (admits_caller a1) eqn:E1; [destruct (admits_bot a2) eqn:E2|].
  - destruct (grows_action g clock u ctx pf
                (logged w [(caller_lookup u caller, a1); (bot_lookup pf u, a2)]))
      as [rest Hrest].
    exists ((caller_lookup u caller, a1) :: (bot_lookup pf u, a2) :: rest).
    split.
    + rewrite Hrest. simpl. rewrite <- app_assoc. reflexivity.
    + intros e Hin Hpriv.
      destruct a1 as [|s1| | |]; try discriminate E1.
      destruct a2 as [|s2| | |]; try discriminate E2.
      exists caller, s1, s2, rest. split; [reflexivity|].
      split; [reflexivity|].
      split; [apply status_in_admin_or_creator_iff, E1|].
      split; [apply String.eqb_eq, E2|].
      destruct Hin as [<-|[<-|Hin]]; [discriminate Hpriv .. | exact Hin].
  - destruct (message u) as [m|] eqn:Hm.
    + rewrite (reply_run Hm), logged_logged. eexists. split; [reflexivity|].
      intros e [<-|[<-|[<-|[]]]] Hpriv; discriminate Hpriv.
    + rewrite (reply_without_message Hm). eexists. split; [reflexivity|].
      intros e [<-|[<-|[]]] Hpriv; discriminate Hpriv.
  - destruct (message u) as [m|] eqn:Hm.
    + rewrite (reply_run Hm), logged_logged. eexists. split; [reflexivity|].
      intros e [<-|[<-|[]]] Hpriv; discriminate Hpriv.
    + rewrite (reply_without_message Hm). eexists. split; [reflexivity|].
      intros e [<-|[]] Hpriv; discriminate Hpriv.
Qed.

(** C4. A [TelegramError] in a lookup of the gate counts as 'not admin':
    [is_admin], respectively [is_bot_admin], returns False, and the handler
    calls [update.message.reply_text] with the caller's, respectively the
    bot's, rejection text and nothing else, so no call changes the chat. On
    a new message that text is sent. On an edited message [update.message]
    is None: the handler raises AttributeError after the failed lookup and
    the caller receives nothing. *)
Theorem lookup_error_is_not_admin
    (g : gated) (pf : Platform) (w : World) (clock : Clock) (u : Update)
    (ctx : Context) (caller : User.t) (msg : string)
    (Hcaller : effective_user u = Some caller) :
  let chat := Chat.id (effective_chat u) in
  (fault pf (log w) (caller_lookup u caller) = Some msg ->
   let e1 := (caller_lookup u caller, Raised msg) in
   let reply := ReplyText chat caller_rejection None in
   let a := command_answer pf (log w ++ [e1]) reply in
   is_admin u ctx pf w = (Returned false, logged w [e1])
   /\ gated_handler g clock u ctx pf w
      = match message u with
        | Some _ =>
            (outcome_of a, {| log := log w ++ [e1; (reply, a)]; db := db w |})
        | None =>
            (Raises (none_has_no "reply_text"),
             {| log := log w ++ [e1]; db := db w |})
        end)
  /\
  (forall s,
     fault pf (log w) (caller_lookup u caller) = None ->
     member_status pf (log w) chat (User.id caller) = s ->
     s = "administrator"%string \/ s = "creator"%string ->
     let e1 := (caller_lookup u caller, Status s) in
     fault pf (log w ++ [e1]) (bot_lookup pf u) = Some msg ->
     let e2 := (bot_lookup pf u, Raised msg) in
     let reply := ReplyText chat (bot_rejection g) None in
     let a := command_answer pf (log w ++ [e1; e2]) reply in
     is_bot_admin u ctx pf (logged w [e1]) = (Returned false, logged w [e1; e2])
     /\ gated_handler g clock u ctx pf w
        = match message u with
          | Some _ =>
              (outcome_of a,
               {| log := log w ++ [e1; e2; (reply, a)]; db := db w |})
          | None =>
              (Raises (none_has_no "reply_text"),
               {| log := log w ++ [e1; e2]; db := db w |})
          end).
Proof.
  intro chat. split.
  - intros Hf e1 reply a. subst chat. split.
    + rewrite (is_admin_run Hcaller), (lookup_answer_raised _ _ _ _ _ Hf).
      reflexivity.
    + rewrite gated_handler_gate, (gate_run Hcaller).
      rewrite !(lookup_answer_raised _ _ _ _ _ Hf).
      cbn [admits_caller]. destruct (message u) as [m|] eqn:Hm.
      * rewrite (reply_run Hm), logged_logged. reflexivity.
      * rewrite (reply_without_message Hm). reflexivity.
  - intros s Hf Hs Hadmin e1 Hfb e2 reply a. subst chat. split.
    + rewrite is_bot_admin_run, logged_logged.
      change (log (logged w [e1])) with (log w ++ [e1]).
      rewrite (lookup_answer_raised _ _ _ _ _ Hfb). reflexivity.
    + rewrite gated_handler_gate, (gate_run Hcaller).
      rewrite !(lookup_answer_ok _ _ _ _ Hf), !Hs. fold e1.
      cbn [admits_caller].
      rewrite (proj2 (status_in_admin_or_creator_iff s) Hadmin).
      rewrite (lookup_answer_raised _ _ _ _ _ Hfb).
      cbn [admits_bot]. destruct (message u) as [m|] eqn:Hm.
      * rewrite (reply_run Hm), logged_logged. reflexivity.
      * rewrite (reply_without_message Hm). reflexivity.
Qed.

(** C10. [is_admin] admits status 'administrator' and status 'creator';
    [is_bot_admin] admits status 'administrator' only. In a chat where the
    bot's own status is 'creator', [is_bot_admin] returns False and no gated
    command is carried out, whoever sends it and whatever the update is: no
    call changes the chat. What the handler does instead is call
    [update.message.reply_text] with a rejection text, the bot's when the
    caller is admitted and the caller's otherwise: on a new message that
    text is sent, on an edited message the call raises AttributeError. *)
Theorem bot_creator_is_rejected
    (g : gated) (pf : Platform) (w : World) (clock : Clock) (u : Update)
    (ctx : Context)
    (Hcreator : forall l,
        fault pf l (bot_lookup pf u) = None
        /\ member_status pf l (Chat.id (effective_chat u)) (bot_id pf)
           = "creator"%string) :
  let chat := Chat.id (effective_chat u) in
  let e2 := (bot_lookup pf u, Status "creator") in
  (forall caller s,
     effective_user u = Some caller ->
     lookup_answer pf (log w) chat (User.id caller) = Status s ->
     (fst (is_admin u ctx pf w) = Returned true
      <-> s = "administrator"%string \/ s = "creator"%string))
  /\ (forall pf' w' s,
        lookup_answer pf' (log w') chat (bot_id pf') = Status s ->
        (fst (is_bot_admin u ctx pf' w') = Returned true
         <-> s = "administrator"%string))
  /\ (forall w', is_bot_admin u ctx pf w'
                 = (Returned false, logged w' [e2]))
  /\ (forall caller,
        effective_user u = Some caller ->
        let a1 := lookup_answer pf (log w) chat (User.id caller) in
        let e1 := (caller_lookup u caller, a1) in
        let lookups := if admits_caller a1 then [e1; e2] else [e1] in
        let text := if admits_caller a1 then bot_rejection g
                    else caller_rejection in
        let reply := ReplyText chat text None in
        let a := command_answer pf (log w ++ lookups) reply in
        gated_handler g clock u ctx pf w
        = match message u with
          | Some _ => (outcome_of a, logged w (lookups ++ [(reply, a)]))
          | None => (Raises (none_has_no "reply_text"), logged w lookups)
          end)
  /\ (effective_user u = None ->
      gated_handler g clock u ctx pf w = (Raises (none_has_no "id"), w))
  /\ (forall evs e,
        log (snd (gated_handler g clock u ctx pf w)) = log w ++ evs ->
        In e evs -> privileged (fst e) = false).
Proof.
  intros chat e2.
  assert (Hbot : forall l, lookup_answer pf l chat (bot_id pf) = Status "creator").
  { intro l. destruct (Hcreator l) as [Hf Hs].
    unfold chat. rewrite lookup_answer_ok by exact Hf. rewrite Hs. reflexivity. }
  assert (Hrun : forall caller,
        effective_user u = Some caller ->
        let a1 := lookup_answer pf (log w) chat (User.id caller) in
        let e1 := (caller_lookup u caller, a1) in
        let lookups := if admits_caller a1 then [e1; e2] else [e1] in
        let text := if admits_caller a1 then bot_rejection g
                    else caller_rejection in
        let reply := ReplyText chat text None in
        let a := command_answer pf (log w ++ lookups) reply in
        gated_handler g clock u ctx pf w
        = match message u with
          | Some _ => (outcome_of a, logged w (lookups ++ [(reply, a)]))
          | None => (Raises (none_has_no "reply_text"), logged w lookups)
          end).
  { intros caller Hc a1 e1.
    rewrite gated_handler_gate, (gate_run Hc). fold chat a1 e1. rewrite Hbot.
    cbn [admits_bot]. change (String.eqb "creator" "administrator") with false.
    cbv iota. fold e2.
    destruct (admits_caller a1); cbv zeta; destruct (message u) as [m|] eqn:Hm;
      rewrite ?(reply_run Hm), ?(reply_without_message Hm), ?logged_logged;
      reflexivity. }
  assert (Hnone : effective_user u = None ->
                  gated_handler g clock u ctx pf w
                  = (Raises (none_has_no "id"), w)).
  { intro Hc. rewrite gated_handler_gate. apply (gate_without_caller Hc). }
  split; [|split; [|split; [|split; [|split]]]].
  - intros caller s Hc Hs. rewrite (is_admin_run Hc). fold chat. rewrite Hs.
    simpl. rewrite <- status_in_admin_or_creator_iff.
    split; [intro H; injection H as H; exact H | intro H; rewrite H; reflexivity].
  - intros pf' w' s Hs. rewrite is_bot_admin_run. fold chat. rewrite Hs. simpl.
    rewrite <- String.eqb_eq.
    split; [intro H; injection H as H; exact H | intro H; rewrite H; reflexivity].
  - intro w'. rewrite is_bot_admin_run. fold chat. rewrite Hbot. reflexivity.
  - exact Hrun.
  - exact Hnone.
  - intros evs e Hlog Hin.
    destruct (effective_user u) as [caller|] eqn:Hc.
    + rewrite (Hrun caller eq_refl) in Hlog.
      destruct (message u), (admits_caller _); simpl in Hlog;
        apply app_inv_head in Hlog; subst evs; simpl in Hin;
        intuition (subst; reflexivity).
    + rewrite (Hnone eq_refl) in Hlog. simpl in Hlog.
      rewrite <- (app_nil_r (log w)) in Hlog at 1.
      apply app_inv_head in Hlog. subst evs. contradiction.
Qed.

(** ** Running the actions *)

(** One call in the try block. *)
Lemma attempt_one_run (u : Update) (m0 : Message) (Hm : message u = Some m0)
    (c : call) (ok fail : string) (pf : Platform) (w : World) :
  let chat := Chat.id (effective_chat u) in
  attempt u (fun k => command c ;; k) ok fail pf w
  = match fault pf (log w) c with
    | Some m =>
        reply_text u (fail +++ m) None pf (logged w [(c, Raised m)])
    | None =>
        match fault pf (log w ++ [(c, Done)]) (ReplyText chat ok None) with
        | Some m =>
            reply_text u (fail +++ m) None pf
              (logged w [(c, Done); (ReplyText chat ok None, Raised m)])
        | None =>
            (Returned tt, logged w [(c, Done); (ReplyText chat ok None, Done)])
        end
    end.
Proof.
  intro chat. unfold attempt, try_except, bind. rewrite command_run.
  unfold command_answer. destruct (fault pf (log w) c) as [m|]; [reflexivity|].
  cbn [outcome_of]. rewrite (reply_run Hm). fold chat.
  change (log (logged w [(c, Done)])) with (log w ++ [(c, Done)]).
  unfold command_answer.
  destruct (fault pf (log w ++ [(c, Done)]) (ReplyText chat ok None));
    cbn [outcome_of]; rewrite logged_logged; reflexivity.
Qed.

(** Two calls in the try block. *)
Lemma attempt_two_run (u : Update) (m0 : Message) (Hm : message u = Some m0)
    (c1 c2 : call) (ok fail : string) (pf : Platform) (w : World) :
  let chat := Chat.id (effective_chat u) in
  attempt u (fun k => command c1 ;; command c2 ;; k) ok fail pf w
  = match fault pf (log w) c1 with
    | Some m =>
        reply_text u (fail +++ m) None pf (logged w [(c1, Raised m)])
    | None =>
        match fault pf (log w ++ [(c1, Done)]) c2 with
        | Some m =>
            reply_text u (fail +++ m) None pf
              (logged w [(c1, Done); (c2, Raised m)])
        | None =>
            match fault pf (log w ++ [(c1, Done); (c2, Done)])
                    (ReplyText chat ok None) with
            | Some m =>
                reply_text u (fail +++ m) None pf
                  (logged w [(c1, Done); (c2, Done);
                             (ReplyText chat ok None, Raised m)])
            | None =>
                (Returned tt,
                 logged w [(c1, Done); (c2, Done);
                           (ReplyText chat ok None, Done)])
            end
        end
    end.
Proof.
  intro chat. unfold attempt, try_except, bind. rewrite command_run.
  unfold command_answer. destruct (fault pf (log w) c1) as [m|]; [reflexivity|].
  cbn [outcome_of]. rewrite command_run.
  change (log (logged w [(c1, Done)])) with (log w ++ [(c1, Done)]).
  unfold command_answer.
  destruct (fault pf (log w ++ [(c1, Done)]) c2) as [m|];
    cbn [outcome_of]; rewrite logged_logged; [reflexivity|].
  rewrite (reply_run Hm). fold chat.
  change (log (logged w ([(c1, Done)] ++ [(c2, Done)])))
    with (log w ++ [(c1, Done); (c2, Done)]).
  unfold command_answer.
  destruct (fault pf (log w ++ [(c1, Done); (c2, Done)]) (ReplyText chat ok None));
    cbn [outcome_of]; rewrite logged_logged; reflexivity.
Qed.

Arguments attempt_one_run {u m0} Hm c ok fail pf w.
Arguments attempt_two_run {u m0} Hm c1 c2 ok fail pf w.

(** The try block of [lock_group] and [unlock_group] on an update without
    [update.message]: the call is made, then the reply raises
    AttributeError, in the try block or in the except branch. *)
Lemma attempt_without_message (u : Update) (Hm : message u = None)
    (c : call) (ok fail : string) (pf : Platform) (w : World) :
  attempt u (fun k => command c ;; k) ok fail pf w
  = (Raises (none_has_no "reply_text"),
     logged w [(c, command_answer pf (log w) c)]).
Proof.
  unfold attempt, try_except, bind. rewrite command_run.
  unfold command_answer. destruct (fault pf (log w) c) as [m|];
    cbn [outcome_of]; rewrite (reply_without_message Hm); reflexivity.
Qed.

Arguments attempt_without_message {u} Hm c ok fail pf w.

Lemma is_banned_from_app (b : bool) (l l' : list event) (chat user : Z) :
  is_banned_from b (l ++ l') chat user
  = is_banned_from (is_banned_from b l chat user) l' chat user.
Proof. unfold is_banned_from. apply fold_left_app. Qed.

Lemma on_replied_user_target (u : Update) (usage : bot unit)
    (act : User.t -> bot unit) (m : Message) (rm : RepliedMessage)
    (target : User.t) :
  message u = Some m ->
  reply_to_message m = Some rm -> from_user rm = Some target ->
  on_replied_user u usage act = act target.
Proof.
  intros H0 H1 H2. unfold on_replied_user. rewrite H0, H1, H2. reflexivity.
Qed.

(** Rewrite every reply of the goal by what it does. *)
Ltac run_replies :=
  repeat match goal with
         | Hm : message ?u = Some _ |- context [reply_text ?u _ _ _ _] =>
             rewrite (reply_run Hm)
         | Hm : message ?u = None |- context [reply_text ?u _ _ _ _] =>
             rewrite (reply_without_message Hm)
         end.

(** ** Kick and ban *)

Lemma kick_user_gate (u : Update) (ctx : Context) :
  kick_user u ctx
  = gate u ctx (bot_rejection Kick) (action_of Kick (fun _ => epoch) u ctx).
Proof. reflexivity. Qed.

Lemma ban_user_gate (u : Update) (ctx : Context) :
  ban_user u ctx
  = gate u ctx (bot_rejection Ban) (action_of Ban (fun _ => epoch) u ctx).
Proof. reflexivity. Qed.

(** An equation between two events that cannot hold: different calls, or
    replies whose texts start differently. *)
Ltac not_this_event H :=
  solve [ inversion H
        | injection H as H _; injection H as _ H _; discriminate H ].

Ltac split_faults :=
  repeat match goal with
         | |- context [match fault ?p ?l ?c with _ => _ end] =>
             destruct (fault p l c) eqn:?
         end.

Ltac which_event Hin :=
  cbn [In] in Hin;
  repeat match goal with
         | H : _ \/ _ |- _ => destruct H as [H|H]; try not_this_event H
         | H : False |- _ => destruct H
         end.

Ltac ban_list :=
  unfold is_banned, lookups; cbn [app]; rewrite is_banned_from_app;
  unfold is_banned_from, caller_lookup, bot_lookup;
  cbn [fold_left ban_step app]; rewrite ?Z.eqb_refl; reflexivity.

(** The gate when both checks pass. *)
Lemma gate_passes_run (u : Update) (caller : User.t) (s1 : string)
    (ctx : Context) (bot_msg : string) (action : bot unit) (pf : Platform)
    (w : World) :
  effective_user u = Some caller ->
  gate_passes pf w u caller s1 ->
  gate u ctx bot_msg action pf w = action pf (logged w (lookups pf u caller s1)).
Proof.
  intros Hc (H1 & Hs & H2). rewrite (gate_run Hc).
  rewrite H1. cbn [admits_caller]. rewrite Hs.
  unfold caller_lookup in H2 |- *. rewrite H2. reflexivity.
Qed.

(** C8. [kick_user] bans and at once unbans the same user in the same chat.
    When both checks of the gate pass and the platform takes the two calls,
    the handler's calls are the two lookups, [ban_chat_member],
    [unban_chat_member] of the same user in the same chat, both returned,
    and the success reply; it returns when that reply is taken, and the
    user is not on the ban list afterwards, also if banned before.
    [ban_user] under the same conditions makes the lookups, the ban and its
    success reply, and the user is on the ban list afterwards. Conversely,
    in any run that holds the success reply of [kick_user], respectively
    [ban_user], these calls came right before it. *)
Theorem kick_is_ban_then_unban
    (pf : Platform) (w : World) (u : Update) (ctx : Context)
    (caller : User.t) (m : Message) (rm : RepliedMessage) (target : User.t)
    (Hcaller : effective_user u = Some caller)
    (Hmessage : message u = Some m)
    (Hreply : reply_to_message m = Some rm)
    (Htarget : from_user rm = Some target) :
  let chat := Chat.id (effective_chat u) in
  let t := User.id target in
  let ban := (BanChatMember chat t, Done) in
  let unban := (UnbanChatMember chat t, Done) in
  let kicked := ReplyText chat (kicked_text target) None in
  let banned := ReplyText chat (banned_text target) None in
  (forall s1,
      gate_passes pf w u caller s1 ->
      fault pf (log w ++ lookups pf u caller s1) (BanChatMember chat t) = None ->
      fault pf (log w ++ lookups pf u caller s1 ++ [ban])
        (UnbanChatMember chat t) = None ->
      let a := command_answer pf
                 (log w ++ lookups pf u caller s1 ++ [ban; unban]) kicked in
      exists post,
        log (snd (kick_user u ctx pf w))
        = log w ++ lookups pf u caller s1 ++ [ban; unban; (kicked, a)] ++ post
        /\ (a = Done -> post = [] /\ fst (kick_user u ctx pf w) = Returned tt)
        /\ is_banned (log (snd (kick_user u ctx pf w))) chat t = false)
  /\
  (forall s1,
      gate_passes pf w u caller s1 ->
      fault pf (log w ++ lookups pf u caller s1) (BanChatMember chat t) = None ->
      let a := command_answer pf
                 (log w ++ lookups pf u caller s1 ++ [ban]) banned in
      exists post,
        log (snd (ban_user u ctx pf w))
        = log w ++ lookups pf u caller s1 ++ [ban; (banned, a)] ++ post
        /\ (a = Done -> post = [] /\ fst (ban_user u ctx pf w) = Returned tt)
        /\ is_banned (log (snd (ban_user u ctx pf w))) chat t = true)
  /\
  (exists evs,
      log (snd (kick_user u ctx pf w)) = log w ++ evs
      /\ forall a, In (kicked, a) evs ->
           (exists s1 post,
               evs = lookups pf u caller s1 ++ [ban; unban; (kicked, a)] ++ post)
           /\ is_banned (log w ++ evs) chat t = false)
  /\
  (exists evs,
      log (snd (ban_user u ctx pf w)) = log w ++ evs
      /\ forall a, In (banned, a) evs ->
           (exists s1 post,
               evs = lookups pf u caller s1 ++ [ban; (banned, a)] ++ post)
           /\ is_banned (log w ++ evs) chat t = true).
Proof.
  intros chat t ban unban kicked banned.
  split; [|split; [|split]].
  - intros s1 Hgate Hb Hu a.
    rewrite kick_user_gate, (gate_passes_run _ _ _ _ _ _ _ _ Hcaller Hgate).
    unfold action_of.
    rewrite (on_replied_user_target _ _ _ _ _ _ Hmessage Hreply Htarget).
    change (ban_chat_member ?c ?x) with (command (BanChatMember c x)).
    change (unban_chat_member ?c ?x) with (command (UnbanChatMember c x)).
    rewrite (attempt_two_run Hmessage). fold chat t kicked.
    change (log (logged w (lookups pf u caller s1)))
      with (log w ++ lookups pf u caller s1).
    rewrite app_assoc in Hu. unfold ban in Hu. rewrite Hb, Hu.
    assert (Ha : command_answer pf
                   ((log w ++ lookups pf u caller s1)
                    ++ [(BanChatMember chat t, Done);
                        (UnbanChatMember chat t, Done)]) kicked = a)
      by (unfold a; rewrite <- app_assoc; reflexivity).
    clearbody a. unfold command_answer in Ha.
    destruct (fault pf _ kicked) as [e|] eqn:Hk; subst a.
    + rewrite (reply_run Hmessage), !logged_logged. cbn [snd log logged].
      eexists. split; [reflexivity|].
      split; [discriminate|]. subst kicked banned. ban_list.
    + cbn [snd fst log logged]. exists [].
      split; [rewrite app_nil_r, app_assoc; reflexivity|].
      split; [intros _; split; reflexivity|]. subst kicked banned. ban_list.
  - intros s1 Hgate Hb a.
    rewrite ban_user_gate, (gate_passes_run _ _ _ _ _ _ _ _ Hcaller Hgate).
    unfold action_of.
    rewrite (on_replied_user_target _ _ _ _ _ _ Hmessage Hreply Htarget).
    change (ban_chat_member ?c ?x) with (command (BanChatMember c x)).
    rewrite (attempt_one_run Hmessage). fold chat t banned.
    change (log (logged w (lookups pf u caller s1)))
      with (log w ++ lookups pf u caller s1).
    rewrite Hb.
    assert (Ha : command_answer pf
                   ((log w ++ lookups pf u caller s1)
                    ++ [(BanChatMember chat t, Done)]) banned = a)
      by (unfold a; rewrite <- app_assoc; reflexivity).
    clearbody a. unfold command_answer in Ha.
    destruct (fault pf _ banned) as [e|] eqn:Hk; subst a.
    + rewrite (reply_run Hmessage), !logged_logged. cbn [snd log logged].
      eexists. split; [reflexivity|].
      split; [discriminate|]. subst kicked banned. ban_list.
    + cbn [snd fst log logged]. exists [].
      split; [rewrite app_nil_r, app_assoc; reflexivity|].
      split; [intros _; split; reflexivity|]. subst kicked banned. ban_list.
  - rewrite kick_user_gate, (gate_run Hcaller). fold chat.
    set (a1 := lookup_answer pf (log w) _ _).
    set (a2 := lookup_answer pf (log w ++ _) _ _).
    destruct (admits_caller a1) eqn:E1; [destruct (admits_bot a2) eqn:E2|].
    + assert (Ha2 : a2 = Status "administrator").
      { destruct a2; try discriminate E2. simpl in E2.
        apply String.eqb_eq in E2. congruence. }
      destruct a1 as [|s1| | |]; try discriminate E1.
      rewrite Ha2. clear E2 Ha2 a2.
      unfold action_of.
      rewrite (on_replied_user_target _ _ _ _ _ _ Hmessage Hreply Htarget).
      change (ban_chat_member ?c ?x) with (command (BanChatMember c x)).
      change (unban_chat_member ?c ?x) with (command (UnbanChatMember c x)).
      rewrite (attempt_two_run Hmessage). fold chat t kicked.
      split_faults; run_replies; rewrite ?logged_logged;
        cbn [snd log logged app];
        (eexists; split; [reflexivity|]); intros a Hin; which_event Hin;
        injection Hin as <-;
        (split; [exists s1; eexists; reflexivity | subst kicked; ban_list]).
    + run_replies; rewrite ?logged_logged. cbn [snd log logged app].
      eexists; split; [reflexivity|]. intros a Hin. which_event Hin.
    + run_replies; rewrite ?logged_logged. cbn [snd log logged app].
      eexists; split; [reflexivity|]. intros a Hin. which_event Hin.
  - rewrite ban_user_gate, (gate_run Hcaller). fold chat.
    set (a1 := lookup_answer pf (log w) _ _).
    set (a2 := lookup_answer pf (log w ++ _) _ _).
    destruct (admits_caller a1) eqn:E1; [destruct (admits_bot a2) eqn:E2|].
    + assert (Ha2 : a2 = Status "administrator").
      { destruct a2; try discriminate E2. simpl in E2.
        apply String.eqb_eq in E2. congruence. }
      destruct a1 as [|s1| | |]; try discriminate E1.
      rewrite Ha2. clear E2 Ha2 a2.
      unfold action_of.
      rewrite (on_replied_user_target _ _ _ _ _ _ Hmessage Hreply Htarget).
      change (ban_chat_member ?c ?x) with (command (BanChatMember c x)).
      rewrite (attempt_one_run Hmessage). fold chat t banned.
      split_faults; run_replies; rewrite ?logged_logged;
        cbn [snd log logged app];
        (eexists; split; [reflexivity|]); intros a Hin; which_event Hin;
        injection Hin as <-;
        (split; [exists s1; eexists; reflexivity | subst banned; ban_list]).
    + run_replies; rewrite ?logged_logged. cbn [snd log logged app].
      eexists; split; [reflexivity|]. intros a Hin. which_event Hin.
    + run_replies; rewrite ?logged_logged. cbn [snd log logged app].
      eexists; split; [reflexivity|]. intros a Hin. which_event Hin.
Qed.

(* ===================================================================== *)
(** * Errors of remote calls *)
(* ===================================================================== *)

Lemma prefix_refl (s : string) : String.prefix s s = true.
Proof.
  induction s as [|a s IH]; simpl; [reflexivity|].
  destruct (ascii_dec a a); [exact IH | contradiction].
Qed.

Lemma contains_prefix (n h : string) :
  String.prefix n h = true -> contains n h = true.
Proof. intro H. destruct h; cbn [contains]; rewrite H; reflexivity. Qed.

Lemma contains_append (p m : string) : contains m (p +++ m) = true.
Proof.
  induction p as [|a p IH].
  - apply contains_prefix, prefix_refl.
  - change (String a p +++ m) with (String a (p +++ m)).
    cbn [contains]. rewrite IH. apply orb_true_r.
Qed.

Lemma contains_self (m : string) : contains m m = true.
Proof. apply contains_prefix, prefix_refl. Qed.

Lemma contains_cons (m t : string) (a : ascii) :
  contains m t = true -> contains m (String a t) = true.
Proof. intro H. cbn [contains]. rewrite H. apply orb_true_r. Qed.

(** [contains msg (prefix +++ msg)], also when the literal prefix has been
    computed away. *)
Ltac contains_msg :=
  first [ apply contains_append
        | repeat apply contains_cons;
          first [apply contains_self | apply contains_append] ].

(** Find the raised event of [H : l = pre ++ (c, Raised msg) :: post] in the
    explicit list [l]. *)
Ltac scan H :=
  match type of H with
  | [] = ?pre ++ _ :: _ => exfalso; destruct pre; discriminate H
  | _ :: _ = ?pre ++ _ :: _ =>
      let p := fresh "p" in
      let Hp := fresh "Hp" in
      destruct pre as [|p pre]; cbn [app] in H;
      [ first [ discriminate H | injection H as ? ? ?; subst ]
      | injection H as Hp H; subst p; scan H ]
  end.

Ltac some_rejection :=
  first [ left; reflexivity
        | right; eexists; reflexivity
        | right; exists Lock; reflexivity
        | right; exists Unlock; reflexivity
        | right; exists Mute; reflexivity
        | right; exists Unmute; reflexivity
        | right; exists Ban; reflexivity
        | right; exists Kick; reflexivity ].

(** The goal of [errors_replied] at the event that [scan] found. *)
Ltac replied :=
  cbn [in_try_block rev app privileged];
  first
    [ reflexivity
    | eexists; eexists; split; [reflexivity | contains_msg]
    | eexists; eexists; split; [reflexivity | some_rejection]
    | eexists; eexists; split;
      [ reflexivity
      | split; [contains_msg
               | cbn [map fst In]; intuition discriminate] ] ].

Ltac explicit_log :=
  run_replies; rewrite ?logged_logged; unfold command_answer; split_faults;
  cbn [snd log logged app].

Ltac check_log :=
  eexists; split; [reflexivity|];
  let H := fresh "Hsplit" in
  intros ? ? ? ? H; unfold caller_lookup, bot_lookup in H;
  scan H; replied.

(** The actions behind the gate, as calls. *)
Ltac unfold_actions :=
  unfold action_of, on_replied_user;
  repeat match goal with
         | Hm : message ?u = _ |- context [match message ?u with _ => _ end] =>
             rewrite Hm
         | |- context [match ?x with Some _ => _ | None => _ end] =>
             destruct x
         | |- context [if first_arg_is_mention ?c then _ else _] =>
             destruct (first_arg_is_mention c)
         end;
  change (set_chat_permissions ?c ?p) with (command (SetChatPermissions c p));
  change (restrict_chat_member ?c ?x ?p ?t)
    with (command (RestrictChatMember c x p t));
  change (ban_chat_member ?c ?x) with (command (BanChatMember c x));
  change (unban_chat_member ?c ?x) with (command (UnbanChatMember c x));
  repeat match goal with
         | Hm : message ?u = Some _ |- context [attempt ?u _ _ _ _ _] =>
             first [rewrite (attempt_one_run Hm) | rewrite (attempt_two_run Hm)]
         | Hm : message ?u = None |- context [attempt ?u _ _ _ _ _] =>
             rewrite (attempt_without_message Hm)
         end.

Lemma nothing_replied (chat : Z) : errors_replied chat [].
Proof. intros pre c msg post H. destruct pre; discriminate H. Qed.

Lemma logged_nothing (w : World) : log w = log w ++ [].
Proof. rewrite app_nil_r. reflexivity. Qed.

Lemma gate_replies_errors (g : gated) (clock : Clock) (u : Update)
    (ctx : Context) (m : Message) :
  message u = Some m ->
  replies_errors (Chat.id (effective_chat u)) (gated_handler g clock u ctx).
Proof.
  intros Hm pf w. rewrite gated_handler_gate.
  destruct (effective_user u) as [caller|] eqn:Hc.
  2:{ rewrite (gate_without_caller Hc). exists [].
      split; [apply logged_nothing | apply nothing_replied]. }
  rewrite (gate_run Hc). unfold lookup_answer.
  destruct (fault pf (log w) (GetChatMember _ (User.id _))) as [m1|] eqn:F1;
    cbn [admits_caller].
  - explicit_log; check_log.
  - destruct (status_in_admin_or_creator _) eqn:S1.
    + destruct (fault pf (log w ++ _) (GetChatMember _ (bot_id pf))) as [m2|] eqn:F2;
        cbn [admits_bot].
      * explicit_log; check_log.
      * destruct (String.eqb _ "administrator") eqn:S2.
        -- destruct g; unfold_actions; split_faults; explicit_log; check_log.
        -- explicit_log; check_log.
    + explicit_log; check_log.
Qed.

Lemma perform_run {A} (c : call) (v : Platform -> list event -> A)
    (s : A -> answer) (pf : Platform) (w : World) :
  perform c v s pf w
  = match fault pf (log w) c with
    | Some m => (Raises (TelegramError m), logged w [(c, Raised m)])
    | None => (Returned (v pf (log w)), logged w [(c, s (v pf (log w)))])
    end.
Proof. reflexivity. Qed.

Lemma start_replies_errors (u : Update) (ctx : Context) (m : Message) :
  message u = Some m ->
  replies_errors (Chat.id (effective_chat u)) (start_command u ctx).
Proof.
  intros Hm pf w. unfold start_command. explicit_log; check_log.
Qed.

Lemma help_replies_errors (u : Update) (ctx : Context) (m : Message) :
  message u = Some m ->
  replies_errors (Chat.id (effective_chat u)) (help_command u ctx).
Proof.
  intros Hm pf w. unfold help_command. explicit_log; check_log.
Qed.

(** [track_activity] makes no call. *)
Lemma track_activity_log (clock : Clock) (u : Update) (ctx : Context)
    (pf : Platform) (w : World) :
  log (snd (track_activity clock u ctx pf w)) = log w.
Proof.
  unfold track_activity, transaction, ret, raise.
  destruct (String.eqb _ _); [reflexivity|].
  destruct (effective_user u); [|reflexivity].
  destruct (track_activity_statements _ _ _ _); reflexivity.
Qed.

Lemma track_replies_errors (clock : Clock) (u : Update) (ctx : Context) :
  replies_errors (Chat.id (effective_chat u)) (track_activity clock u ctx).
Proof.
  intros pf w. exists []. split; [|apply nothing_replied].
  rewrite track_activity_log. apply logged_nothing.
Qed.

Lemma stats_replies_errors (clock : Clock) (u : Update) (ctx : Context)
    (m : Message) :
  message u = Some m ->
  replies_errors (Chat.id (effective_chat u)) (stats_command clock u ctx).
Proof.
  intros Hm pf w. unfold stats_command.
  destruct (String.eqb _ _); [explicit_log; check_log|].
  unfold try_except, bind, get_chat_member_count, get_chat_administrators, query.
  rewrite perform_run.
  destruct (fault pf (log w) (GetChatMemberCount _)) as [m1|] eqn:F1;
    [explicit_log; check_log|].
  rewrite perform_run.
  destruct (fault pf (log (logged w _)) (GetChatAdministrators _)) as [m1|] eqn:F2;
    [explicit_log; check_log|].
  unfold select_today_messages, select_active_users, no_such_table.
  repeat change (db (logged ?a ?b)) with (db a).
  destruct (group_stats (db w)) as [gs|]; [|explicit_log; check_log].
  cbv beta iota. repeat change (db (logged ?a ?b)) with (db a).
  destruct (user_activity (db w)) as [ua|]; [|explicit_log; check_log].
  rewrite (reply_run Hm). unfold command_answer.
  match goal with
  | |- context [match fault ?p ?l ?c with _ => _ end] =>
      destruct (fault p l c) eqn:F3
  end; cbn [outcome_of]; explicit_log; check_log.
Qed.

(** C6, as amended. Whatever update that carries its message
    ([update.message]) is delivered, the events of the invocation are such
    that: an error of a call that is neither a status lookup of the gate
    nor a reply (the counts of [stats_command], the calls that change the
    chat) is caught and answered by one reply, the last event, whose text
    contains the error's message, and the failing call is made once; an
    error of a status lookup is caught inside the check and answered by the
    fixed rejection text; an error of the success reply of a try block is
    reported the same way by the next reply; an error of any other reply is
    the last event. *)
Theorem call_errors_are_replied (pf : Platform) (w : World) (x : Delivery)
    (m : Message)
    (Hmessage : message (d_update x) = Some m) :
  exists evs,
    log (deliver pf w x) = log w ++ evs
    /\ errors_replied (Chat.id (effective_chat (d_update x))) evs.
Proof.
  unfold deliver, dispatch.
  destruct (d_command x) as [name|]; [|apply track_replies_errors].
  repeat match goal with
         | |- context [String.eqb name ?s] => destruct (String.eqb name s)
         end.
  - apply (start_replies_errors _ _ _ Hmessage).
  - apply (stats_replies_errors _ _ _ _ Hmessage).
  - exact (gate_replies_errors Lock (d_clock x) _ _ _ Hmessage pf w).
  - exact (gate_replies_errors Unlock (d_clock x) _ _ _ Hmessage pf w).
  - exact (gate_replies_errors Mute (d_clock x) _ _ _ Hmessage pf w).
  - exact (gate_replies_errors Unmute (d_clock x) _ _ _ Hmessage pf w).
  - exact (gate_replies_errors Ban (d_clock x) _ _ _ Hmessage pf w).
  - exact (gate_replies_errors Kick (d_clock x) _ _ _ Hmessage pf w).
  - apply (help_replies_errors _ _ _ Hmessage).
  - apply track_replies_errors.
Qed.

(* ===================================================================== *)
(** * Concrete runs *)
(* ===================================================================== *)

(** C6, as worded, fails. With a platform whose status lookups raise
    'Chat not found', [lock_group] answers with the fixed rejection text,
    which does not contain that message. With a platform that refuses
    replies, the reply of [start_command] raises and nothing follows it. *)
Lemma lookup_error_reply_lacks_message :
  ~ surfaces_every_error (lock_group Example.in_reply_to_bob Example.no_args)
  /\ ~ surfaces_every_error
         (start_command Example.in_reply_to_bob Example.no_args).
Proof.
  split; intro H.
  - destruct (H Example.lookups_fail Example.fresh
                [(GetChatMember (-1001) 7, Raised "Chat not found");
                 (ReplyText (-1001) caller_rejection None, Done)]
                eq_refl [] _ _ _ eq_refl)
      as [(chat & text & pm & a & Hin & Hc) _].
    destruct Hin as [Heq|[]]. injection Heq as _ <- _ _.
    vm_compute in Hc. discriminate Hc.
  - destruct (H Example.replies_fail Example.fresh
                [(ReplyText (-1001) start_text None,
                  Raised "Forbidden: bot was kicked from the supergroup chat")]
                eq_refl [] _ _ _ eq_refl)
      as [(chat & text & pm & a & Hin & _) _].
    destruct Hin.
Qed.

Lemma track_activity_counts_messages_witness :
  exists gs' ua' ru rg,
    track_each [Example.a_message; Example.a_message; Example.a_message]
      Example.all_members Example.fresh
    = (Returned tt,
       {| log := log Example.fresh;
          db := {| group_stats := Some gs'; user_activity := Some ua' |} |})
    /\ find (UserActivity.matches 7 (-1001)) ua' = Some ru
    /\ UserActivity.message_count ru = SqlInt 3
    /\ find (GroupStats.matches (-1001) "2023-11-14") gs' = Some rg
    /\ GroupStats.messages_count rg = SqlInt 3.
Proof.
  apply (track_activity_counts_messages Example.all_members Example.fresh
           [] [] 7 (-1001) "2023-11-14"
           [Example.a_message; Example.a_message; Example.a_message]);
    try reflexivity.
  - discriminate.
  - repeat (constructor; [repeat split; reflexivity|]). constructor.
  - vm_compute. discriminate.
Defined.

(** C2 and C4 at an edited command: Ann, a plain member, edits a message
    into [/lock]. The lookup is made, then [update.message.reply_text]
    raises and no rejection is sent; on a new message the rejection is
    sent. *)
Lemma non_admin_rejection_needs_message_witness :
  gated_handler Lock Example.clock Example.edited_by_ann Example.no_args
    Example.all_members Example.fresh
  = (Raises (none_has_no "reply_text"),
     {| log := [(GetChatMember (-1001) 7, Status "member")];
        db := db Example.fresh |})
  /\ gated_handler Ban Example.clock Example.in_reply_to_bob Example.no_args
       Example.all_members Example.fresh
     = (Returned tt,
        {| log := [(GetChatMember (-1001) 7, Status "member");
                   (ReplyText (-1001) caller_rejection None, Done)];
           db := db Example.fresh |}).
Proof.
  split.
  - exact (proj1 (proj2 (non_admin_rejection_needs_message Lock
                           Example.all_members Example.fresh Example.clock
                           Example.edited_by_ann Example.no_args Example.ann
                           eq_refl eq_refl
                           ltac:(vm_compute; discriminate)
                           ltac:(vm_compute; discriminate)))
             eq_refl).
  - exact (proj1 (proj1 (non_admin_rejection_needs_message Ban
                           Example.all_members Example.fresh Example.clock
                           Example.in_reply_to_bob Example.no_args Example.ann
                           eq_refl eq_refl
                           ltac:(vm_compute; discriminate)
                           ltac:(vm_compute; discriminate))
                    _ eq_refl)).
Defined.

Lemma lookup_error_is_not_admin_witness :
  is_admin Example.in_reply_to_bob Example.no_args Example.lookups_fail
    Example.fresh
  = (Returned false,
     logged Example.fresh [(GetChatMember (-1001) 7, Raised "Chat not found")])
  /\ gated_handler Lock Example.clock Example.edited_by_ann Example.no_args
       Example.lookups_fail Example.fresh
     = (Raises (none_has_no "reply_text"),
        {| log := [(GetChatMember (-1001) 7, Raised "Chat not found")];
           db := db Example.fresh |})
  /\ gated_handler Lock Example.clock Example.in_reply_to_bob Example.no_args
       Example.lookups_fail Example.fresh
     = (Returned tt,
        {| log := [(GetChatMember (-1001) 7, Raised "Chat not found");
                   (ReplyText (-1001) caller_rejection None, Done)];
           db := db Example.fresh |})
  /\ is_bot_admin Example.in_reply_to_bob Example.no_args
       Example.bot_lookup_fails
       (logged Example.fresh [(GetChatMember (-1001) 7, Status "administrator")])
     = (Returned false,
        logged Example.fresh
          [(GetChatMember (-1001) 7, Status "administrator");
           (GetChatMember (-1001) 99, Raised "Chat not found")]).
Proof.
  split; [|split; [|split]].
  - exact (proj1 (proj1 (lookup_error_is_not_admin Lock Example.lookups_fail
                           Example.fresh Example.clock Example.in_reply_to_bob
                           Example.no_args Example.ann "Chat not found" eq_refl)
                    eq_refl)).
  - exact (proj2 (proj1 (lookup_error_is_not_admin Lock Example.lookups_fail
                           Example.fresh Example.clock Example.edited_by_ann
                           Example.no_args Example.ann "Chat not found" eq_refl)
                    eq_refl)).
  - exact (proj2 (proj1 (lookup_error_is_not_admin Lock Example.lookups_fail
                           Example.fresh Example.clock Example.in_reply_to_bob
                           Example.no_args Example.ann "Chat not found" eq_refl)
                    eq_refl)).
  - exact (proj1 (proj2 (lookup_error_is_not_admin Mute Example.bot_lookup_fails
                           Example.fresh Example.clock Example.in_reply_to_bob
                           Example.no_args Example.ann "Chat not found" eq_refl)
                    "administrator"%string eq_refl eq_refl
                    (or_introl eq_refl) eq_refl)).
Defined.

(** C6 at [/lock] when the platform refuses to change the permissions: the
    error is answered by the failure text with its message. *)
Lemma call_errors_are_replied_witness :
  exists evs,
    log (deliver Example.permissions_fail Example.fresh Example.lock_by_ann)
    = log Example.fresh ++ evs
    /\ errors_replied (-1001) evs
    /\ evs = [(GetChatMember (-1001) 7, Status "creator");
              (GetChatMember (-1001) 99, Status "administrator");
              (SetChatPermissions (-1001) lock_permissions,
               Raised "Bad Request: not enough rights");
              (ReplyText (-1001)
                 "❌ Failed to lock group: Bad Request: not enough rights"
                 None, Done)].
Proof.
  destruct (call_errors_are_replied Example.permissions_fail Example.fresh
              Example.lock_by_ann _ eq_refl) as (evs & Hlog & Herr).
  exists evs. split; [exact Hlog|]. split; [exact Herr|].
  vm_compute in Hlog. subst evs. reflexivity.
Defined.

Lemma init_database_existing_store_witness :
  init_database (db Example.after_two) = db Example.after_two.
Proof.
  exact (proj1 (init_database_existing_store (db Example.after_two) _ _
                  eq_refl eq_refl)).
Defined.

Lemma example_store_unique : pk_unique (db Example.after_two).
Proof.
  split; intros t Ht; vm_compute in Ht; injection Ht as <-;
    (constructor; [intros [] | constructor]).
Qed.

Lemma example_store_typed : counters_typed (db Example.after_two).
Proof.
  split; intros t r Ht Hin; vm_compute in Ht; injection Ht as <-;
    destruct Hin as [<-|[]]; reflexivity.
Qed.

Lemma store_keys_unique_counters_monotone_witness :
  pk_unique (db (deliver Example.all_members Example.after_two Example.a_message))
  /\ never_decreases (db Example.after_two)
       (db (deliver Example.all_members Example.after_two Example.a_message)).
Proof.
  destruct (store_keys_unique_counters_monotone Example.all_members
              Example.after_two Example.a_message
              example_store_unique example_store_typed)
    as (_ & Hu & Hm & _).
  split; assumption.
Defined.

(** C8 on a chat where Bob is already banned: the kick leaves him off the
    ban list; a ban on the new chat puts him on it. *)
Lemma kick_is_ban_then_unban_witness :
  is_banned (log Example.bob_banned) (-1001) 8 = true
  /\ log (snd (kick_user Example.in_reply_to_bob Example.no_args
                 Example.ann_creator_bot_admin Example.bob_banned))
     = log Example.bob_banned
       ++ [(GetChatMember (-1001) 7, Status "creator");
           (GetChatMember (-1001) 99, Status "administrator");
           (BanChatMember (-1001) 8, Done);
           (UnbanChatMember (-1001) 8, Done);
           (ReplyText (-1001) (kicked_text Example.bob) None, Done)]
  /\ is_banned
       (log (snd (kick_user Example.in_reply_to_bob Example.no_args
                    Example.ann_creator_bot_admin Example.bob_banned)))
       (-1001) 8
     = false
  /\ log (snd (ban_user Example.in_reply_to_bob Example.no_args
                 Example.ann_creator_bot_admin Example.fresh))
     = log Example.fresh
       ++ [(GetChatMember (-1001) 7, Status "creator");
           (GetChatMember (-1001) 99, Status "administrator");
           (BanChatMember (-1001) 8, Done);
           (ReplyText (-1001) (banned_text Example.bob) None, Done)]
  /\ is_banned
       (log (snd (ban_user Example.in_reply_to_bob Example.no_args
                    Example.ann_creator_bot_admin Example.fresh)))
       (-1001) 8
     = true.
Proof.
  destruct (kick_is_ban_then_unban Example.ann_creator_bot_admin
              Example.bob_banned Example.in_reply_to_bob Example.no_args
              Example.ann _ _ Example.bob eq_refl eq_refl eq_refl eq_refl)
    as (Hkick & _ & _ & _).
  destruct (Hkick "creator"%string
              (conj eq_refl (conj eq_refl eq_refl)) eq_refl eq_refl)
    as (post & Hlog & Hpost & Hbanned).
  destruct (Hpost eq_refl) as [-> _].
  destruct (kick_is_ban_then_unban Example.ann_creator_bot_admin
              Example.fresh Example.in_reply_to_bob Example.no_args
              Example.ann _ _ Example.bob eq_refl eq_refl eq_refl eq_refl)
    as (_ & Hban & _ & _).
  destruct (Hban "creator"%string
              (conj eq_refl (conj eq_refl eq_refl)) eq_refl)
    as (post' & Hlog' & Hpost' & Hbanned').
  destruct (Hpost' eq_refl) as [-> _].
  split; [reflexivity|].
  split; [exact Hlog|]. split; [exact Hbanned|].
  split; [exact Hlog' | exact Hbanned'].
Defined.

Lemma member_count_never_from_platform_witness :
  exists gs' r,
    group_stats
      (db (snd (track_activity Example.clock Example.in_reply_to_bob
                  Example.no_args Example.all_members Example.fresh)))
    = Some gs'
    /\ find (GroupStats.matches (-1001) "2023-11-14") gs' = Some r
    /\ GroupStats.member_count r = SqlNull.
Proof.
  exact (proj1 (member_count_never_from_platform Example.all_members
                  Example.fresh Example.clock Example.in_reply_to_bob
                  Example.no_args [] [] eq_refl eq_refl eq_refl eq_refl)
           Example.ann eq_refl).
Defined.

(** C10 with Ann an administrator and the bot the creator: [/kick] ends in
    the bot's rejection text on a new message, and in AttributeError after
    the two lookups on an edited one; Bob is not banned either way. *)
Lemma bot_creator_is_rejected_witness :
  is_bot_admin Example.in_reply_to_bob Example.no_args
    Example.ann_admin_bot_creator Example.fresh
  = (Returned false,
     logged Example.fresh [(GetChatMember (-1001) 99, Status "creator")])
  /\ gated_handler Kick Example.clock Example.in_reply_to_bob Example.no_args
       Example.ann_admin_bot_creator Example.fresh
     = (Returned tt,
        logged Example.fresh
          [(GetChatMember (-1001) 7, Status "administrator");
           (GetChatMember (-1001) 99, Status "creator");
           (ReplyText (-1001) (bot_rejection Kick) None, Done)])
  /\ gated_handler Kick Example.clock Example.edited_by_ann Example.no_args
       Example.ann_admin_bot_creator Example.fresh
     = (Raises (none_has_no "reply_text"),
        logged Example.fresh
          [(GetChatMember (-1001) 7, Status "administrator");
           (GetChatMember (-1001) 99, Status "creator")]).
Proof.
  destruct (bot_creator_is_rejected Kick Example.ann_admin_bot_creator
              Example.fresh Example.clock Example.in_reply_to_bob
              Example.no_args (fun l => conj eq_refl eq_refl))
    as (_ & _ & Hbot & Hrun & _).
  destruct (bot_creator_is_rejected Kick Example.ann_admin_bot_creator
              Example.fresh Example.clock Example.edited_by_ann
              Example.no_args (fun l => conj eq_refl eq_refl))
    as (_ & _ & _ & Hedited & _).
  split; [apply Hbot|].
  split; [exact (Hrun Example.ann eq_refl) | exact (Hedited Example.ann eq_refl)].
Defined.

(* ===================================================================== *)
(** * Further properties of the counter store *)
(* ===================================================================== *)

Lemma gs_find_upsert_same (g : Z) (d : string) (t : GroupStats.table) :
  find (GroupStats.matches g d) (GroupStats.upsert g d t)
  = Some {| GroupStats.group_id := g;
            GroupStats.date := d;
            GroupStats.member_count :=
              GroupStats.select_coalesce_member_count g d t;
            GroupStats.messages_count :=
              plus_one (coalesce (GroupStats.select_messages_count g d t)
                                 (SqlInt 0)) |}.
Proof.
  unfold GroupStats.upsert. rewrite group_stats_replace.
  match goal with
  | |- context [replace _ _ ?new t] =>
      exact (find_replace_same group_stats_hit_spec new t)
  end.
Qed.

Lemma ua_find_upsert_same (u g : Z) (n : option string) (f d : string)
    (t : UserActivity.table) :
  find (UserActivity.matches u g) (UserActivity.upsert u g n f d t)
  = Some {| UserActivity.user_id := u;
            UserActivity.group_id := g;
            UserActivity.username := n;
            UserActivity.first_name := f;
            UserActivity.last_message := d;
            UserActivity.message_count :=
              plus_one (coalesce (UserActivity.select_message_count u g t)
                                 (SqlInt 0)) |}.
Proof.
  unfold UserActivity.upsert. rewrite user_activity_replace.
  match goal with
  | |- context [replace _ _ ?new t] =>
      exact (find_replace_same user_activity_hit_spec new t)
  end.
Qed.

Lemma gs_find_upsert_other (g g' : Z) (d d' : string) (t : GroupStats.table) :
  (g', d') <> (g, d) ->
  find (GroupStats.matches g' d') (GroupStats.upsert g d t)
  = find (GroupStats.matches g' d') t.
Proof.
  intro Hne. unfold GroupStats.upsert. rewrite group_stats_replace.
  match goal with
  | |- context [replace _ _ ?new t] =>
      exact (find_replace_other group_stats_hit_spec (g', d') new t Hne)
  end.
Qed.

Lemma ua_find_upsert_other (u u' g g' : Z) (n : option string) (f d : string)
    (t : UserActivity.table) :
  (u', g') <> (u, g) ->
  find (UserActivity.matches u' g') (UserActivity.upsert u g n f d t)
  = find (UserActivity.matches u' g') t.
Proof.
  intro Hne. unfold UserActivity.upsert. rewrite user_activity_replace.
  match goal with
  | |- context [replace _ _ ?new t] =>
      exact (find_replace_other user_activity_hit_spec (u', g') new t Hne)
  end.
Qed.

(** One call of [track_activity] on a database that has both tables: what
    it leaves, and that it returns unless the update is in a non-private
    chat and has no sender. *)
Lemma track_activity_rows (x : Delivery) (pf : Platform) (w : World)
    (gs : GroupStats.table) (ua : UserActivity.table) :
  group_stats (db w) = Some gs -> user_activity (db w) = Some ua ->
  snd (track_activity (d_clock x) (d_update x) (d_context x) pf w)
  = {| log := log w;
       db := {| group_stats := Some (fst (rows_after_one x (gs, ua)));
                user_activity := Some (snd (rows_after_one x (gs, ua))) |} |}
  /\ ((tracked x = true -> has_sender x = true) ->
      fst (track_activity (d_clock x) (d_update x) (d_context x) pf w)
      = Returned tt).
Proof.
  intros Hg Hu.
  assert (Hw : w = {| log := log w;
                      db := {| group_stats := Some gs;
                               user_activity := Some ua |} |}).
  { destruct w as [l [g0 u0]]. simpl in *. subst. reflexivity. }
  unfold track_activity, rows_after_one, tracked, has_sender, sender.
  destruct (String.eqb (Chat.type (effective_chat (d_update x))) "private");
    cbn [negb].
  - destruct (effective_user (d_update x)); split; try exact Hw; reflexivity.
  - destruct (effective_user (d_update x)) as [user|].
    + unfold transaction.
      rewrite (track_activity_statements_ok _ _ _ _ gs ua Hg Hu).
      split; reflexivity.
    + split; [exact Hw|]. intro H. discriminate (H eq_refl).
Qed.

Lemma track_all_cons (pf : Platform) (w : World) (x : Delivery)
    (xs : list Delivery) :
  track_all pf w (x :: xs)
  = track_all pf
      (snd (track_activity (d_clock x) (d_update x) (d_context x) pf w)) xs.
Proof. reflexivity. Qed.

Lemma track_all_rows (xs : list Delivery) :
  forall (pf : Platform) (w : World) gs ua,
    group_stats (db w) = Some gs -> user_activity (db w) = Some ua ->
    track_all pf w xs
    = {| log := log w;
         db := {| group_stats := Some (fst (rows_after xs (gs, ua)));
                  user_activity := Some (snd (rows_after xs (gs, ua))) |} |}.
Proof.
  induction xs as [|x xs IH]; intros pf w gs ua Hg Hu.
  - destruct w as [l [g0 u0]]. simpl in *. subst. reflexivity.
  - rewrite track_all_cons.
    rewrite (proj1 (track_activity_rows x pf w gs ua Hg Hu)).
    destruct (rows_after_one x (gs, ua)) as [gs1 ua1] eqn:E1.
    cbn [fst snd].
    rewrite (IH pf {| log := log w;
                      db := {| group_stats := Some gs1;
                               user_activity := Some ua1 |} |}
                gs1 ua1 eq_refl eq_refl).
    unfold rows_after. cbn [fold_left log]. rewrite E1. reflexivity.
Qed.

Lemma track_each_rows (xs : list Delivery) :
  forall (pf : Platform) (w : World) gs ua,
    group_stats (db w) = Some gs -> user_activity (db w) = Some ua ->
    (forall x, In x xs -> tracked x = true -> has_sender x = true) ->
    track_each xs pf w
    = (Returned tt,
       {| log := log w;
          db := {| group_stats := Some (fst (rows_after xs (gs, ua)));
                   user_activity := Some (snd (rows_after xs (gs, ua))) |} |}).
Proof.
  induction xs as [|x xs IH]; intros pf w gs ua Hg Hu Hs.
  - destruct w as [l [g0 u0]]. simpl in *. subst. reflexivity.
  - cbn [track_each]. unfold bind at 1.
    destruct (track_activity_rows x pf w gs ua Hg Hu) as [Hw Hr].
    specialize (Hr (Hs x (or_introl eq_refl))).
    destruct (track_activity (d_clock x) (d_update x) (d_context x) pf w)
      as [o w1].
    cbn [fst snd] in Hw, Hr. subst o w1.
    destruct (rows_after_one x (gs, ua)) as [gs1 ua1] eqn:E1.
    cbn [fst snd].
    rewrite (IH pf {| log := log w;
                      db := {| group_stats := Some gs1;
                               user_activity := Some ua1 |} |}
                gs1 ua1 eq_refl eq_refl).
    + unfold rows_after. cbn [fold_left log]. rewrite E1. reflexivity.
    + intros y Hy. apply Hs. right. exact Hy.
Qed.

Lemma tracks_to_rows (xs : list Delivery) (pf : Platform) (w : World)
    (gs : GroupStats.table) (ua : UserActivity.table) :
  group_stats (db w) = Some gs -> user_activity (db w) = Some ua ->
  tracks_to xs pf w
    {| log := log w;
       db := {| group_stats := Some (fst (rows_after xs (gs, ua)));
                user_activity := Some (snd (rows_after xs (gs, ua))) |} |}.
Proof.
  intros Hg Hu. split.
  - apply track_all_rows; assumption.
  - intro Hs. apply track_each_rows; assumption.
Qed.

Lemma how_many_cons (p : Delivery -> bool) (x : Delivery) (xs : list Delivery) :
  how_many p (x :: xs) = (if p x then 1 else 0) + how_many p xs.
Proof.
  unfold how_many. cbn [filter]. destruct (p x); cbn [List.length]; lia.
Qed.

Lemma how_many_nonneg (p : Delivery -> bool) (xs : list Delivery) :
  0 <= how_many p xs.
Proof. unfold how_many. lia. Qed.

Lemma ua_count_after_one (x : Delivery) (user group : Z) (a : Z)
    (tabs : GroupStats.table * UserActivity.table) :
  coalesce (UserActivity.select_message_count user group (snd tabs)) (SqlInt 0)
  = SqlInt a ->
  a + (if by_user_in user group x then 1 else 0) <= max_int64 ->
  coalesce (UserActivity.select_message_count user group
              (snd (rows_after_one x tabs))) (SqlInt 0)
  = SqlInt (a + (if by_user_in user group x then 1 else 0)).
Proof.
  intros Ha Hr. unfold rows_after_one, by_user_in, sent_by in *.
  destruct (sender x) as [s|];
    [|rewrite andb_false_r; cbn [andb]; rewrite Z.add_0_r; exact Ha].
  destruct (tracked x); cbn [andb snd] in *; [|rewrite Z.add_0_r; exact Ha].
  destruct (User.id s =? user) eqn:Eu; [destruct (chat_of x =? group) eqn:Eg|];
    cbn [andb] in *.
  - apply Z.eqb_eq in Eu, Eg. subst user group.
    rewrite ua_upsert_select, Ha, plus_one_int by lia. reflexivity.
  - rewrite Z.add_0_r. unfold UserActivity.select_message_count in *.
    rewrite ua_find_upsert_other; [exact Ha|].
    apply Z.eqb_neq in Eg. congruence.
  - rewrite Z.add_0_r. unfold UserActivity.select_message_count in *.
    rewrite ua_find_upsert_other; [exact Ha|].
    apply Z.eqb_neq in Eu. congruence.
Qed.

Lemma gs_count_after_one (x : Delivery) (group : Z) (day : string) (b : Z)
    (tabs : GroupStats.table * UserActivity.table) :
  coalesce (GroupStats.select_messages_count group day (fst tabs)) (SqlInt 0)
  = SqlInt b ->
  b + (if in_group_on group day x then 1 else 0) <= max_int64 ->
  coalesce (GroupStats.select_messages_count group day
              (fst (rows_after_one x tabs))) (SqlInt 0)
  = SqlInt (b + (if in_group_on group day x then 1 else 0)).
Proof.
  intros Hb Hr. unfold rows_after_one, in_group_on, has_sender in *.
  destruct (sender x) as [s|];
    [|rewrite andb_false_r; cbn [andb]; rewrite Z.add_0_r; exact Hb].
  destruct (tracked x); cbn [andb fst] in *; [|rewrite Z.add_0_r; exact Hb].
  destruct (chat_of x =? group) eqn:Eg;
    [destruct (String.eqb (day_of x) day) eqn:Ed|]; cbn [andb] in *.
  - apply Z.eqb_eq in Eg. apply String.eqb_eq in Ed. subst group day.
    rewrite gs_upsert_select, Hb, plus_one_int by lia. reflexivity.
  - rewrite Z.add_0_r. unfold GroupStats.select_messages_count in *.
    rewrite gs_find_upsert_other; [exact Hb|].
    apply String.eqb_neq in Ed. congruence.
  - rewrite Z.add_0_r. unfold GroupStats.select_messages_count in *.
    rewrite gs_find_upsert_other; [exact Hb|].
    apply Z.eqb_neq in Eg. congruence.
Qed.

Lemma ua_count_after (user group : Z) (xs : list Delivery) :
  forall a tabs,
    coalesce (UserActivity.select_message_count user group (snd tabs)) (SqlInt 0)
    = SqlInt a ->
    a + how_many (by_user_in user group) xs <= max_int64 ->
    coalesce (UserActivity.select_message_count user group
                (snd (rows_after xs tabs))) (SqlInt 0)
    = SqlInt (a + how_many (by_user_in user group) xs).
Proof.
  induction xs as [|x xs IH]; intros a tabs Ha Hr.
  - unfold how_many. simpl. rewrite Z.add_0_r. exact Ha.
  - rewrite how_many_cons in *. unfold rows_after. cbn [fold_left].
    pose proof (how_many_nonneg (by_user_in user group) xs) as Hpos.
    fold (rows_after xs (rows_after_one x tabs)).
    rewrite (IH (a + (if by_user_in user group x then 1 else 0))); [f_equal; lia| |lia].
    apply ua_count_after_one; [exact Ha | lia].
Qed.

Lemma gs_count_after (group : Z) (day : string) (xs : list Delivery) :
  forall b tabs,
    coalesce (GroupStats.select_messages_count group day (fst tabs)) (SqlInt 0)
    = SqlInt b ->
    b + how_many (in_group_on group day) xs <= max_int64 ->
    coalesce (GroupStats.select_messages_count group day
                (fst (rows_after xs tabs))) (SqlInt 0)
    = SqlInt (b + how_many (in_group_on group day) xs).
Proof.
  induction xs as [|x xs IH]; intros b tabs Hb Hr.
  - unfold how_many. simpl. rewrite Z.add_0_r. exact Hb.
  - rewrite how_many_cons in *. unfold rows_after. cbn [fold_left].
    pose proof (how_many_nonneg (in_group_on group day) xs) as Hpos.
    fold (rows_after xs (rows_after_one x tabs)).
    rewrite (IH (b + (if in_group_on group day x then 1 else 0))); [f_equal; lia| |lia].
    apply gs_count_after_one; [exact Hb | lia].
Qed.

(** X1. Whatever updates [track_activity] handles, of any users or of none,
    in any chats, on any days: the counter of a user in a group grows by
    the number of that user's messages in that group. Messages in private
    chats, of other users, without a sender or in other groups do not
    count. *)
Theorem user_counter_counts_own_messages
    (pf : Platform) (w : World) (gs : GroupStats.table)
    (ua : UserActivity.table) (user group a : Z) (xs : list Delivery)
    (Hgs : group_stats (db w) = Some gs)
    (Hua : user_activity (db w) = Some ua)
    (Hstart : coalesce (UserActivity.select_message_count user group ua)
                       (SqlInt 0) = SqlInt a)
    (Hrange : a + how_many (by_user_in user group) xs <= max_int64) :
  exists gs' ua',
    tracks_to xs pf w
      {| log := log w;
         db := {| group_stats := Some gs'; user_activity := Some ua' |} |}
    /\ coalesce (UserActivity.select_message_count user group ua') (SqlInt 0)
       = SqlInt (a + how_many (by_user_in user group) xs).
Proof.
  eexists. eexists. split; [apply (tracks_to_rows xs pf w gs ua Hgs Hua)|].
  apply (ua_count_after user group xs a (gs, ua)); assumption.
Qed.

(** X2. Under the same updates, the counter of a group for a day grows by
    the number of messages with a sender handled in that group on that
    day, whoever the sender is. An update without a sender (a channel post)
    is not counted: [track_activity] raises on it before it writes. *)
Theorem group_counter_counts_messages_of_the_day
    (pf : Platform) (w : World) (gs : GroupStats.table)
    (ua : UserActivity.table) (group : Z) (day : string) (b : Z)
    (xs : list Delivery)
    (Hgs : group_stats (db w) = Some gs)
    (Hua : user_activity (db w) = Some ua)
    (Hstart : coalesce (GroupStats.select_messages_count group day gs)
                       (SqlInt 0) = SqlInt b)
    (Hrange : b + how_many (in_group_on group day) xs <= max_int64) :
  exists gs' ua',
    tracks_to xs pf w
      {| log := log w;
         db := {| group_stats := Some gs'; user_activity := Some ua' |} |}
    /\ coalesce (GroupStats.select_messages_count group day gs') (SqlInt 0)
       = SqlInt (b + how_many (in_group_on group day) xs).
Proof.
  eexists. eexists. split; [apply (tracks_to_rows xs pf w gs ua Hgs Hua)|].
  apply (gs_count_after group day xs b (gs, ua)); assumption.
Qed.

Lemma gs_in_upsert_other (g : Z) (d : string) (t : GroupStats.table)
    (r : GroupStats.row) :
  GroupStats.key r <> (g, d) ->
  (In r (GroupStats.upsert g d t) <-> In r t).
Proof.
  intro Hne. unfold GroupStats.upsert. rewrite group_stats_replace.
  rewrite (in_replace group_stats_hit_spec). split.
  - intros [[Hin _]|Heq]; [exact Hin|]. subst r. exfalso. apply Hne. reflexivity.
  - intro Hin. left. split; [exact Hin | exact Hne].
Qed.

Lemma ua_in_upsert_other (u g : Z) (n : option string) (f d : string)
    (t : UserActivity.table) (r : UserActivity.row) :
  UserActivity.key r <> (u, g) ->
  (In r (UserActivity.upsert u g n f d t) <-> In r t).
Proof.
  intro Hne. unfold UserActivity.upsert. rewrite user_activity_replace.
  rewrite (in_replace user_activity_hit_spec). split.
  - intros [[Hin _]|Heq]; [exact Hin|]. subst r. exfalso. apply Hne. reflexivity.
  - intro Hin. left. split; [exact Hin | exact Hne].
Qed.

Lemma track_activity_without_sender (x : Delivery) (pf : Platform)
    (w : World) :
  tracked x = true -> sender x = None ->
  track_activity (d_clock x) (d_update x) (d_context x) pf w
  = (Raises (none_has_no "id"), w).
Proof.
  unfold tracked, sender, track_activity. intros Ht Hs.
  apply negb_true_iff in Ht. rewrite Ht, Hs. reflexivity.
Qed.

(** X3. One call of [track_activity] makes no remote call and touches at
    most one row per table: in [user_activity] the sender's row for the
    chat, in [group_stats] the chat's row for the day. Every row with
    another key is still there as it was and no other row appears. The
    call returns, except on an update without a sender in a non-private
    chat: there it raises AttributeError and both tables are as before. *)
Theorem track_activity_leaves_other_rows
    (pf : Platform) (w : World) (x : Delivery)
    (gs : GroupStats.table) (ua : UserActivity.table)
    (Hgs : group_stats (db w) = Some gs)
    (Hua : user_activity (db w) = Some ua) :
  let run := track_activity (d_clock x) (d_update x) (d_context x) pf w in
  exists gs' ua',
    snd run
    = {| log := log w;
         db := {| group_stats := Some gs'; user_activity := Some ua' |} |}
    /\ (forall r, Some (UserActivity.user_id r) <> option_map User.id (sender x)
                  \/ UserActivity.group_id r <> chat_of x ->
                  (In r ua' <-> In r ua))
    /\ (forall u g, Some u <> option_map User.id (sender x) \/ g <> chat_of x ->
                    find (UserActivity.matches u g) ua'
                    = find (UserActivity.matches u g) ua)
    /\ (forall r, GroupStats.key r <> (chat_of x, day_of x) ->
                  (In r gs' <-> In r gs))
    /\ (forall g d, (g, d) <> (chat_of x, day_of x) ->
                    find (GroupStats.matches g d) gs'
                    = find (GroupStats.matches g d) gs)
    /\ (tracked x = false \/ has_sender x = true -> fst run = Returned tt)
    /\ (tracked x = true -> sender x = None ->
        fst run = Raises (none_has_no "id") /\ gs' = gs /\ ua' = ua).
Proof.
  intro run.
  destruct (track_activity_rows x pf w gs ua Hgs Hua) as [Hw Hr].
  eexists. eexists. split; [exact Hw|].
  assert (Hret : tracked x = false \/ has_sender x = true ->
                 fst run = Returned tt).
  { intros [H|H]; apply Hr; intro H'; congruence. }
  unfold rows_after_one, has_sender in *.
  destruct (sender x) as [s|] eqn:Hs; [destruct (tracked x) eqn:Ht|];
    cbn [fst snd option_map].
  - split; [|split; [|split; [|split; [|split]]]].
    + intros r Hne. apply ua_in_upsert_other. unfold UserActivity.key.
      intro Hk. injection Hk as Hu Hg. destruct Hne as [Hne|Hne]; congruence.
    + intros u g Hne. apply ua_find_upsert_other.
      intro Hk. injection Hk as Hu Hg. destruct Hne as [Hne|Hne]; congruence.
    + intros; apply gs_in_upsert_other; assumption.
    + intros; apply gs_find_upsert_other; assumption.
    + exact Hret.
    + intros _ H. discriminate H.
  - split; [intros; reflexivity|]. split; [intros; reflexivity|].
    split; [intros; reflexivity|]. split; [intros; reflexivity|].
    split; [exact Hret|]. intros H. discriminate H.
  - split; [intros; reflexivity|]. split; [intros; reflexivity|].
    split; [intros; reflexivity|]. split; [intros; reflexivity|].
    split; [exact Hret|]. intros Ht _. unfold run.
    rewrite (track_activity_without_sender x pf w Ht Hs).
    repeat split; reflexivity.
Qed.

(** X4. After [track_activity] on a message in a non-private chat, looking
    up the sender's row for the chat finds the data of this message: the
    username and first name as they are now, the day as [last_message], and
    the previous count plus one (1 when there was no row). *)
Theorem track_activity_then_lookup
    (pf : Platform) (w : World) (x : Delivery) (user : User.t)
    (gs : GroupStats.table) (ua : UserActivity.table)
    (Hgs : group_stats (db w) = Some gs)
    (Hua : user_activity (db w) = Some ua)
    (Htracked : tracked x = true)
    (Hsender : sender x = Some user) :
  exists gs' ua',
    track_activity (d_clock x) (d_update x) (d_context x) pf w
    = (Returned tt,
       {| log := log w;
          db := {| group_stats := Some gs'; user_activity := Some ua' |} |})
    /\ find (UserActivity.matches (User.id user) (chat_of x)) ua'
       = Some {| UserActivity.user_id := User.id user;
                 UserActivity.group_id := chat_of x;
                 UserActivity.username := User.username user;
                 UserActivity.first_name := User.first_name user;
                 UserActivity.last_message := day_of x;
                 UserActivity.message_count :=
                   plus_one
                     (coalesce (UserActivity.select_message_count
                                  (User.id user) (chat_of x) ua) (SqlInt 0)) |}
    /\ (find (UserActivity.matches (User.id user) (chat_of x)) ua = None ->
        UserActivity.select_message_count (User.id user) (chat_of x) ua'
        = SqlInt 1).
Proof.
  destruct (track_activity_rows x pf w gs ua Hgs Hua) as [Hw Hr].
  eexists. eexists. split.
  - rewrite (surjective_pairing (track_activity _ _ _ pf w)), Hw, Hr;
      [reflexivity|].
    intros _. unfold has_sender. rewrite Hsender. reflexivity.
  - unfold rows_after_one. rewrite Hsender, Htracked. cbn [fst snd]. split.
    + apply ua_find_upsert_same.
    + intro Hnone. rewrite ua_upsert_select.
      unfold UserActivity.select_message_count. rewrite Hnone. reflexivity.
Qed.

(** X5. The [member_count] of a day's row is NULL only after the first
    message of the day: on a later message (one that has a sender, so that
    it is written) the COALESCE of the subquery replaces a NULL by 0, and
    keeps any other value. The messages counter of the row is the previous
    one plus one. *)
Theorem track_activity_member_count_after_first
    (pf : Platform) (w : World) (x : Delivery) (user : User.t)
    (gs : GroupStats.table) (ua : UserActivity.table) (r : GroupStats.row)
    (Hgs : group_stats (db w) = Some gs)
    (Hua : user_activity (db w) = Some ua)
    (Htracked : tracked x = true)
    (Hsender : sender x = Some user)
    (Hrow : find (GroupStats.matches (chat_of x) (day_of x)) gs = Some r) :
  exists gs' ua' r',
    track_activity (d_clock x) (d_update x) (d_context x) pf w
    = (Returned tt,
       {| log := log w;
          db := {| group_stats := Some gs'; user_activity := Some ua' |} |})
    /\ find (GroupStats.matches (chat_of x) (day_of x)) gs' = Some r'
    /\ GroupStats.member_count r'
       = coalesce (GroupStats.member_count r) (SqlInt 0)
    /\ (GroupStats.member_count r = SqlNull ->
        GroupStats.member_count r' = SqlInt 0)
    /\ GroupStats.messages_count r'
       = plus_one (coalesce (GroupStats.messages_count r) (SqlInt 0)).
Proof.
  destruct (track_activity_rows x pf w gs ua Hgs Hua) as [Hw Hr].
  eexists. eexists. eexists. split.
  - rewrite (surjective_pairing (track_activity _ _ _ pf w)), Hw, Hr;
      [reflexivity|].
    intros _. unfold has_sender. rewrite Hsender. reflexivity.
  - unfold rows_after_one. rewrite Hsender, Htracked. cbn [fst snd].
    split; [apply gs_find_upsert_same|].
    cbn [GroupStats.member_count GroupStats.messages_count].
    unfold GroupStats.select_coalesce_member_count,
      GroupStats.select_messages_count. rewrite Hrow.
    repeat split. intro Hnull. rewrite Hnull. reflexivity.
Qed.

(** ** Active users *)

Lemma count_active_length (g : Z) (d : string) (t : UserActivity.table) :
  UserActivity.count_active g d t = List.length (active_ids g d t).
Proof.
  unfold UserActivity.count_active, active_ids. rewrite length_map. reflexivity.
Qed.

Lemma same_members_length (l l' : list Z) :
  NoDup l -> NoDup l' -> (forall z, In z l <-> In z l') ->
  List.length l = List.length l'.
Proof.
  intros Hl Hl' H.
  assert (List.length l <= List.length l')%nat
    by (apply NoDup_incl_length; [exact Hl | intros z Hz; apply H, Hz]).
  assert (List.length l' <= List.length l)%nat
    by (apply NoDup_incl_length; [exact Hl' | intros z Hz; apply H, Hz]).
  lia.
Qed.

Lemma in_active_ids (g : Z) (d : string) (t : UserActivity.table) (u : Z) :
  In u (active_ids g d t)
  <-> exists r, In r t /\ UserActivity.user_id r = u
                /\ UserActivity.group_id r = g
                /\ UserActivity.last_message r = d.
Proof.
  unfold active_ids. rewrite in_map_iff. split.
  - intros (r & Hu & Hin). apply filter_In in Hin. destruct Hin as [Hin Hf].
    apply andb_true_iff in Hf. destruct Hf as [Hg Hd].
    apply Z.eqb_eq in Hg. apply String.eqb_eq in Hd. eauto.
  - intros (r & Hin & Hu & Hg & Hd). exists r. split; [exact Hu|].
    apply filter_In. split; [exact Hin|].
    apply andb_true_iff. split; [apply Z.eqb_eq, Hg | apply String.eqb_eq, Hd].
Qed.

Lemma active_ids_nodup (g : Z) (d : string) (t : UserActivity.table) :
  unique UserActivity.key t -> NoDup (active_ids g d t).
Proof.
  unfold unique, active_ids.
  induction t as [|r t IH]; simpl; intro Hu; [constructor|].
  inversion Hu as [|? ? Hnotin Hrest]; subst.
  destruct ((UserActivity.group_id r =? g)
            && String.eqb (UserActivity.last_message r) d) eqn:E;
    [|apply IH, Hrest].
  simpl. constructor; [|apply IH, Hrest].
  intro Hin. apply Hnotin.
  apply in_map_iff in Hin. destruct Hin as (r' & Hu' & Hin').
  apply filter_In in Hin'. destruct Hin' as [Hin' Hf].
  apply andb_true_iff in E, Hf.
  destruct E as [Eg _]. destruct Hf as [Hg' _].
  apply Z.eqb_eq in Eg, Hg'.
  apply in_map_iff. exists r'. split; [|exact Hin'].
  unfold UserActivity.key. congruence.
Qed.

Lemma active_ids_upsert (g g0 u u0 : Z) (n : option string) (f d : string)
    (t : UserActivity.table) :
  In u (active_ids g d (UserActivity.upsert u0 g0 n f d t))
  <-> In u (active_ids g d t) \/ (g0 = g /\ u = u0).
Proof.
  rewrite !in_active_ids. unfold UserActivity.upsert.
  rewrite user_activity_replace. split.
  - intros (r & Hin & Hu & Hg & Hd).
    apply (in_replace user_activity_hit_spec) in Hin.
    destruct Hin as [[Hin _]| ->]; [left; eauto|].
    right. simpl in *. auto.
  - intros [(r & Hin & Hu & Hg & Hd) | [Hg Hu]].
    + destruct (Z.eq_dec u u0) as [Euu|Euu];
        [destruct (Z.eq_dec g g0) as [Egg|Egg]|].
      * eexists. split;
          [apply (in_replace user_activity_hit_spec); right; reflexivity|].
        simpl. auto.
      * exists r. split; [|auto].
        apply (in_replace user_activity_hit_spec). left. split; [exact Hin|].
        unfold UserActivity.key. simpl. congruence.
      * exists r. split; [|auto].
        apply (in_replace user_activity_hit_spec). left. split; [exact Hin|].
        unfold UserActivity.key. simpl. congruence.
    + eexists. split;
        [apply (in_replace user_activity_hit_spec); right; reflexivity|].
      simpl. auto.
Qed.

Lemma senders_in_cons (g : Z) (x : Delivery) (xs : list Delivery) (u : Z) :
  In u (senders_in g (x :: xs))
  <-> (tracked x = true /\ chat_of x = g
       /\ exists s, sender x = Some s /\ u = User.id s)
      \/ In u (senders_in g xs).
Proof.
  unfold senders_in. cbn [filter].
  destruct (tracked x) eqn:Et; [destruct (chat_of x =? g) eqn:Eg|];
    cbn [andb flat_map].
  - apply Z.eqb_eq in Eg. rewrite in_app_iff.
    destruct (sender x) as [s|]; cbn [In]; split.
    + intros [[H|[]]|H]; [left|right; exact H].
      repeat split; try assumption. exists s. split; [reflexivity|congruence].
    + intros [(_ & _ & s' & Hs & Hu)|H]; [left; left|right; exact H].
      congruence.
    + intros [[]|H]. right. exact H.
    + intros [(_ & _ & s' & Hs & _)|H]; [discriminate Hs | right; exact H].
  - apply Z.eqb_neq in Eg. split; [intro H; right; exact H|].
    intros [(_ & Hg & _)|H]; [contradiction | exact H].
  - split; [intro H; right; exact H|].
    intros [(Ht & _)|H]; [discriminate Ht | exact H].
Qed.

Lemma active_after (g : Z) (d : string) (xs : list Delivery) :
  forall tabs,
    unique UserActivity.key (snd tabs) ->
    (forall x, In x xs -> tracked x = true -> day_of x = d) ->
    unique UserActivity.key (snd (rows_after xs tabs))
    /\ forall u, In u (active_ids g d (snd (rows_after xs tabs)))
                 <-> In u (active_ids g d (snd tabs)) \/ In u (senders_in g xs).
Proof.
  induction xs as [|x xs IH]; intros tabs Hu Hday.
  - split; [exact Hu|]. intro u. unfold senders_in. simpl. tauto.
  - unfold rows_after. cbn [fold_left].
    fold (rows_after xs (rows_after_one x tabs)).
    assert (Hu1 : unique UserActivity.key (snd (rows_after_one x tabs))).
    { unfold rows_after_one. destruct (sender x); [|exact Hu].
      destruct (tracked x); [|exact Hu].
      cbn [snd]. apply ua_upsert_unique, Hu. }
    destruct (IH (rows_after_one x tabs) Hu1) as [Hu' Hact].
    { intros y Hy. apply Hday. right. exact Hy. }
    split; [exact Hu'|]. intro u. rewrite Hact, senders_in_cons.
    unfold rows_after_one.
    destruct (sender x) as [s|] eqn:Hs; [destruct (tracked x) eqn:Et|];
      cbn [snd].
    + rewrite (Hday x (or_introl eq_refl) Et), active_ids_upsert.
      split.
      * intros [[H|[Hg Hid]]|H]; [left; exact H| |right; right; exact H].
        right. left. repeat split; try assumption. exists s. auto.
      * intros [H|[(_ & Hg & s' & Hs' & Hid)|H]];
          [left; left; exact H| |right; exact H].
        left. right. split; [exact Hg|]. congruence.
    + split; [intros [H|H]; [left; exact H | right; right; exact H]|].
      intros [H|[(Ht & _)|H]]; [left; exact H | discriminate Ht | right; exact H].
    + split; [intros [H|H]; [left; exact H | right; right; exact H]|].
      intros [H|[(_ & _ & s' & Hs' & _)|H]];
        [left; exact H | discriminate Hs' | right; exact H].
Qed.

(** X6. On a new day (no row has that day as [last_message] yet), after
    any messages handled on that day, the number [stats_command] selects as
    active users of a group is the number of distinct senders of the
    messages in that group; messages in private chats and in other groups
    do not count, and a sender counts once however many messages. *)
Theorem active_users_are_distinct_senders
    (pf : Platform) (w : World) (gs : GroupStats.table)
    (ua : UserActivity.table) (group : Z) (day : string) (xs : list Delivery)
    (Hgs : group_stats (db w) = Some gs)
    (Hua : user_activity (db w) = Some ua)
    (Hunique : unique UserActivity.key ua)
    (Hnew_day : forall r, In r ua -> UserActivity.last_message r <> day)
    (Htoday : forall x, In x xs -> tracked x = true -> day_of x = day) :
  exists gs' ua',
    tracks_to xs pf w
      {| log := log w;
         db := {| group_stats := Some gs'; user_activity := Some ua' |} |}
    /\ UserActivity.count_active group day ua'
       = List.length (nodup Z.eq_dec (senders_in group xs)).
Proof.
  eexists. eexists. split; [apply (tracks_to_rows xs pf w gs ua Hgs Hua)|].
  destruct (active_after group day xs (gs, ua) Hunique Htoday) as [Hu Hact].
  rewrite count_active_length. apply same_members_length.
  - apply active_ids_nodup, Hu.
  - apply NoDup_nodup.
  - intro u. rewrite Hact, nodup_In. cbn [snd]. split; [|tauto].
    intros [Hin|Hin]; [|exact Hin]. exfalso.
    apply in_active_ids in Hin. destruct Hin as (r & Hr & _ & _ & Hd).
    exact (Hnew_day r Hr Hd).
Qed.

(* ===================================================================== *)
(** * Further properties of the handlers *)
(* ===================================================================== *)

(** ** Events of a computation, by parts *)

Section Traced.

Variable P : event -> Prop.

Lemma traced_ret {A} (a : A) : traced P (ret a).
Proof.
  intros pf w. exists []. simpl. rewrite app_nil_r. split; [reflexivity|constructor].
Qed.

Lemma traced_bind {A B} (c : bot A) (k : A -> bot B) :
  traced P c -> (forall a, traced P (k a)) -> traced P (bind c k).
Proof.
  intros Hc Hk pf w. unfold bind. destruct (Hc pf w) as (evs & Hevs & HP).
  destruct (c pf w) as [[a|e] w']; simpl in *.
  - destruct (Hk a pf w') as (evs' & Hevs' & HP'). exists (evs ++ evs').
    rewrite Hevs', Hevs, app_assoc. split; [reflexivity|].
    apply Forall_app. split; assumption.
  - exists evs. split; assumption.
Qed.

Lemma traced_try {A} (c : bot A) (h : string -> bot A) :
  traced P c -> (forall m, traced P (h m)) -> traced P (try_except c h).
Proof.
  intros Hc Hh pf w. unfold try_except. destruct (Hc pf w) as (evs & Hevs & HP).
  destruct (c pf w) as [[a|[m|m|m]] w']; simpl in *;
    try (exists evs; split; assumption).
  destruct (Hh m pf w') as (evs' & Hevs' & HP'). exists (evs ++ evs').
  rewrite Hevs', Hevs, app_assoc. split; [reflexivity|].
  apply Forall_app. split; assumption.
Qed.

Lemma traced_perform {A} (c : call) (v : Platform -> list event -> A)
    (s : A -> answer) :
  (forall a, P (c, a)) -> traced P (perform c v s).
Proof.
  intros Hc pf w. unfold perform.
  destruct (fault pf (log w) c); eexists; (split; [reflexivity|]);
    constructor; auto.
Qed.

Lemma traced_silent {A} (c : bot A) :
  (forall pf w, log (snd (c pf w)) = log w) -> traced P c.
Proof.
  intros H pf w. exists []. rewrite app_nil_r. split; [apply H | constructor].
Qed.

Lemma traced_query {A} (q : Database -> exn + A) : traced P (query q).
Proof.
  apply traced_silent. intros pf w. unfold query. destruct (q (db w)); reflexivity.
Qed.

Lemma traced_transaction (f : Database -> exn + Database) :
  traced P (transaction f).
Proof.
  apply traced_silent. intros pf w. unfold transaction.
  destruct (f (db w)); reflexivity.
Qed.

Lemma traced_context_bot_id : traced P context_bot_id.
Proof. apply traced_silent. reflexivity. Qed.

Lemma traced_raise {A} (e : exn) : traced P (@raise A e).
Proof. apply traced_silent. reflexivity. Qed.

End Traced.

(** Take a handler apart down to its remote calls. *)
Ltac to_calls :=
  unfold start_command, help_command, stats_command, lock_group, unlock_group,
    mute_user, unmute_user, ban_user, kick_user, track_activity,
    is_admin, is_bot_admin, reply_text, set_chat_permissions,
    restrict_chat_member, ban_chat_member, unban_chat_member,
    get_chat_member, get_chat_member_count, get_chat_administrators, command.

Ltac traced_step :=
  match goal with
  | |- traced _ (bind _ _) => apply traced_bind; [|intro]
  | |- traced _ (try_except _ _) => apply traced_try; [|intro]
  | |- traced _ (ret _) => apply traced_ret
  | |- traced _ (raise _) => apply traced_raise
  | |- traced _ (query _) => apply traced_query
  | |- traced _ (transaction _) => apply traced_transaction
  | |- traced _ context_bot_id => apply traced_context_bot_id
  | |- traced _ (perform _ _ _) =>
      apply traced_perform; intro; cbn; first [reflexivity | assumption]
  | |- traced _ (if ?b then _ else _) => destruct b
  | |- traced _ (match ?x with _ => _ end) => destruct x
  | |- traced _ (let _ := _ in _) => cbv zeta
  end.

Ltac traced := to_calls; cbv zeta; repeat traced_step.

(** The handler behind each gated command. *)
Ltac unfold_gated :=
  match goal with
  | |- context [gated_handler Lock ?c ?u ?x] =>
      change (gated_handler Lock c u x) with (lock_group u x)
  | |- context [gated_handler Unlock ?c ?u ?x] =>
      change (gated_handler Unlock c u x) with (unlock_group u x)
  | |- context [gated_handler Mute ?c ?u ?x] =>
      change (gated_handler Mute c u x) with (mute_user c u x)
  | |- context [gated_handler Unmute ?c ?u ?x] =>
      change (gated_handler Unmute c u x) with (unmute_user u x)
  | |- context [gated_handler Ban ?c ?u ?x] =>
      change (gated_handler Ban c u x) with (ban_user u x)
  | |- context [gated_handler Kick ?c ?u ?x] =>
      change (gated_handler Kick c u x) with (kick_user u x)
  end.

(** The dispatcher, case by case. *)
Lemma dispatch_cases (cmd : option string) :
  (exists g, cmd = Some (gated_name g))
  \/ cmd = Some "start"%string
  \/ cmd = Some "stats"%string
  \/ cmd = Some "help"%string
  \/ ((forall name, cmd = Some name -> ~ In name command_names)
      /\ dispatch cmd = track_activity).
Proof.
  destruct cmd as [name|];
    [|right; right; right; right; split; [intros ? H; discriminate H | reflexivity]].
  unfold dispatch.
  destruct (String.eqb_spec name "start");
    [subst; right; left; reflexivity|].
  destruct (String.eqb_spec name "stats");
    [subst; right; right; left; reflexivity|].
  destruct (String.eqb_spec name "lock"); [subst; left; exists Lock; reflexivity|].
  destruct (String.eqb_spec name "unlock");
    [subst; left; exists Unlock; reflexivity|].
  destruct (String.eqb_spec name "mute"); [subst; left; exists Mute; reflexivity|].
  destruct (String.eqb_spec name "unmute");
    [subst; left; exists Unmute; reflexivity|].
  destruct (String.eqb_spec name "ban"); [subst; left; exists Ban; reflexivity|].
  destruct (String.eqb_spec name "kick"); [subst; left; exists Kick; reflexivity|].
  destruct (String.eqb_spec name "help");
    [subst; right; right; right; left; reflexivity|].
  right; right; right; right. split; [|reflexivity].
  intros name' H. injection H as <-. unfold command_names. simpl.
  intuition congruence.
Qed.

(** X7. Every call of an invocation is addressed to the chat of the
    update: the lookups, the calls that change a chat and the replies of
    any delivered update never name another chat. *)
Theorem calls_address_the_chat_of_the_update
    (pf : Platform) (w : World) (x : Delivery) :
  exists evs,
    log (deliver pf w x) = log w ++ evs
    /\ Forall (fun e => call_chat (fst e) = chat_of x) evs.
Proof.
  unfold deliver, chat_of.
  set (P := fun e : event =>
              call_chat (fst e) = Chat.id (effective_chat (d_update x))).
  assert (Ht : forall clock ctx, traced P (track_activity clock (d_update x) ctx))
    by (intros; traced).
  destruct (dispatch_cases (d_command x))
    as [[g Hg] | [H | [H | [H | [_ H]]]]]; rewrite ?Hg, ?H.
  - change (dispatch (Some (gated_name g))) with (gated_handler g).
    assert (Hh : traced P (gated_handler g (d_clock x) (d_update x) (d_context x)))
      by (destruct g; unfold_gated; traced).
    apply Hh.
  - assert (Hh : traced P (start_command (d_update x) (d_context x))) by traced.
    apply Hh.
  - assert (Hh : traced P (stats_command (d_clock x) (d_update x) (d_context x)))
      by traced.
    apply Hh.
  - assert (Hh : traced P (help_command (d_update x) (d_context x))) by traced.
    apply Hh.
  - apply Ht.
Qed.

(** Behind the gate, a privileged call comes after both lookups. *)
Lemma gated_privileged_after_lookups
    (g : gated) (pf : Platform) (w : World) (clock : Clock) (u : Update)
    (ctx : Context) :
  exists evs,
    log (snd (gated_handler g clock u ctx pf w)) = log w ++ evs
    /\ forall e, In e evs -> privileged (fst e) = true ->
         exists caller s1 s2 rest,
           effective_user u = Some caller
           /\ evs = (caller_lookup u caller, Status s1)
                    :: (bot_lookup pf u, Status s2) :: rest
           /\ (s1 = "administrator"%string \/ s1 = "creator"%string)
           /\ s2 = "administrator"%string
           /\ In e rest.
Proof.
  rewrite gated_handler_gate.
  destruct (effective_user u) as [caller|] eqn:Hc.
  2:{ rewrite (gate_without_caller Hc). exists [].
      split; [apply logged_nothing | intros e []]. }
  rewrite (gate_run Hc).
  set (a1 := lookup_answer pf (log w) _ _).
  set (a2 := lookup_answer pf (log w ++ _) _ _).
  destruct (admits_caller a1) eqn:E1; [destruct (admits_bot a2) eqn:E2|].
  - destruct (grows_action g clock u ctx pf
                (logged w [(caller_lookup u caller, a1); (bot_lookup pf u, a2)]))
      as [rest Hrest].
    exists ((caller_lookup u caller, a1) :: (bot_lookup pf u, a2) :: rest).
    split.
    + rewrite Hrest. simpl. rewrite <- app_assoc. reflexivity.
    + intros e Hin Hpriv.
      destruct a1 as [|s1| | |]; try discriminate E1.
      destruct a2 as [|s2| | |]; try discriminate E2.
      exists caller, s1, s2, rest. split; [reflexivity|].
      split; [reflexivity|].
      split; [apply status_in_admin_or_creator_iff, E1|].
      split; [apply String.eqb_eq, E2|].
      destruct Hin as [<-|[<-|Hin]]; [discriminate Hpriv .. | exact Hin].
  - destruct (message u) as [m|] eqn:Hm; run_replies; rewrite ?logged_logged;
      (eexists; split; [reflexivity|]); intros e Hin Hpriv; exfalso;
      cbn [In] in Hin;
      repeat (destruct Hin as [Hin|Hin];
              [subst e; discriminate Hpriv|]);
      exact Hin.
  - destruct (message u) as [m|] eqn:Hm; run_replies; rewrite ?logged_logged;
      (eexists; split; [reflexivity|]); intros e Hin Hpriv; exfalso;
      cbn [In] in Hin;
      repeat (destruct Hin as [Hin|Hin];
              [subst e; discriminate Hpriv|]);
      exact Hin.
Qed.

(** X8. Over the whole dispatcher: a call that changes a chat is made only
    for one of the six gated commands, and then only after the caller's
    lookup returned 'administrator' or 'creator' and the bot's own lookup
    returned 'administrator'. [start], [help], [stats], plain messages and
    unknown commands never make such a call. *)
Theorem privileged_calls_only_behind_the_gate
    (pf : Platform) (w : World) (x : Delivery) :
  exists evs,
    log (deliver pf w x) = log w ++ evs
    /\ forall e, In e evs -> privileged (fst e) = true ->
         (exists g, d_command x = Some (gated_name g))
         /\ exists caller s1 s2 rest,
              effective_user (d_update x) = Some caller
              /\ evs = (caller_lookup (d_update x) caller, Status s1)
                       :: (bot_lookup pf (d_update x), Status s2) :: rest
              /\ (s1 = "administrator"%string \/ s1 = "creator"%string)
              /\ s2 = "administrator"%string
              /\ In e rest.
Proof.
  unfold deliver.
  set (P := fun e : event => privileged (fst e) = false).
  assert (Hnone : forall h : bot unit, traced P h ->
            exists evs, log (snd (h pf w)) = log w ++ evs
              /\ forall e, In e evs -> privileged (fst e) = true ->
                   (exists g, d_command x = Some (gated_name g))
                   /\ exists caller s1 s2 rest,
                        effective_user (d_update x) = Some caller
                        /\ evs = (caller_lookup (d_update x) caller, Status s1)
                                 :: (bot_lookup pf (d_update x), Status s2)
                                 :: rest
                        /\ (s1 = "administrator"%string \/ s1 = "creator"%string)
                        /\ s2 = "administrator"%string
                        /\ In e rest).
  { intros h Hh. destruct (Hh pf w) as (evs & Hlog & HP).
    exists evs. split; [exact Hlog|]. intros e Hin Hpriv. exfalso.
    rewrite Forall_forall in HP. specialize (HP e Hin). unfold P in HP.
    congruence. }
  destruct (dispatch_cases (d_command x))
    as [[g Hg] | [H | [H | [H | [_ H]]]]].
  - rewrite Hg.
    change (dispatch (Some (gated_name g))) with (gated_handler g).
    destruct (gated_privileged_after_lookups g pf w (d_clock x) (d_update x)
                (d_context x)) as (evs & Hlog & Hpriv).
    exists evs. split; [exact Hlog|]. intros e Hin He.
    split; [exists g; reflexivity | exact (Hpriv e Hin He)].
  - replace (dispatch (d_command x)) with (fun _ : Clock => start_command)
      by (rewrite H; reflexivity).
    apply Hnone. traced.
  - replace (dispatch (d_command x)) with stats_command
      by (rewrite H; reflexivity).
    apply Hnone. traced.
  - replace (dispatch (d_command x)) with (fun _ : Clock => help_command)
      by (rewrite H; reflexivity).
    apply Hnone. traced.
  - rewrite H. apply Hnone. traced.
Qed.

(** ** The database under the handlers *)

Lemma db_safe_ret {A} (a : A) : db_safe (ret a).
Proof. intros pf w H. split; [exact H | intros m E; discriminate E]. Qed.

Lemma db_safe_bind {A B} (c : bot A) (k : A -> bot B) :
  db_safe c -> (forall a, db_safe (k a)) -> db_safe (bind c k).
Proof.
  intros Hc Hk pf w H. unfold bind. destruct (Hc pf w H) as [Ht He].
  destruct (c pf w) as [[a|e] w']; simpl in *.
  - apply Hk, Ht.
  - split; [exact Ht|]. intros m E. apply (He m). congruence.
Qed.

Lemma db_safe_try {A} (c : bot A) (h : string -> bot A) :
  db_safe c -> (forall m, db_safe (h m)) -> db_safe (try_except c h).
Proof.
  intros Hc Hh pf w H. unfold try_except. destruct (Hc pf w H) as [Ht He].
  destruct (c pf w) as [[a|[m|m|m]] w']; simpl in *.
  - split; [exact Ht | intros m E; discriminate E].
  - apply Hh, Ht.
  - split; [exact Ht | exact He].
  - split; [exact Ht | exact He].
Qed.

Lemma db_safe_raise {A} (name : string) : db_safe (@raise A (none_has_no name)).
Proof. intros pf w H. split; [exact H | intros m E; discriminate E]. Qed.

Lemma db_safe_perform {A} (c : call) (v : Platform -> list event -> A)
    (s : A -> answer) : db_safe (perform c v s).
Proof.
  intros pf w H. unfold perform.
  destruct (fault pf (log w) c); simpl; (split; [exact H | intros m E; discriminate E]).
Qed.

Lemma db_safe_context_bot_id : db_safe context_bot_id.
Proof. intros pf w H. split; [exact H | intros m E; discriminate E]. Qed.

Lemma db_safe_select_today_messages (chat : Z) (today : string) :
  db_safe (query (select_today_messages chat today)).
Proof.
  intros pf w H. unfold query, select_today_messages.
  destruct H as [[gs Hg] Hu]. rewrite Hg. simpl.
  split; [split; [eauto | exact Hu] | intros m E; discriminate E].
Qed.

Lemma db_safe_select_active_users (chat : Z) (today : string) :
  db_safe (query (select_active_users chat today)).
Proof.
  intros pf w H. unfold query, select_active_users.
  destruct H as [Hg [ua Hu]]. rewrite Hu. simpl.
  split; [split; [exact Hg | eauto] | intros m E; discriminate E].
Qed.

Lemma db_safe_track_statements (user : User.t) (chat : Chat.t) (today : string) :
  db_safe (transaction (track_activity_statements user chat today)).
Proof.
  intros pf w [[gs Hg] [ua Hu]]. unfold transaction.
  rewrite (track_activity_statements_ok user chat today (db w) gs ua Hg Hu).
  cbn [snd fst db]. split; [|intros m E; discriminate E].
  split; eexists; reflexivity.
Qed.

Ltac db_safe_step :=
  match goal with
  | |- db_safe (bind _ _) => apply db_safe_bind; [|intro]
  | |- db_safe (try_except _ _) => apply db_safe_try; [|intro]
  | |- db_safe (ret _) => apply db_safe_ret
  | |- db_safe (raise _) => apply db_safe_raise
  | |- db_safe (perform _ _ _) => apply db_safe_perform
  | |- db_safe context_bot_id => apply db_safe_context_bot_id
  | |- db_safe (query (select_today_messages _ _)) =>
      apply db_safe_select_today_messages
  | |- db_safe (query (select_active_users _ _)) =>
      apply db_safe_select_active_users
  | |- db_safe (transaction (track_activity_statements _ _ _)) =>
      apply db_safe_track_statements
  | |- db_safe (if ?b then _ else _) => destruct b
  | |- db_safe (match ?x with _ => _ end) => destruct x
  end.

Ltac db_safe := to_calls; cbv zeta; repeat db_safe_step.

Lemma dispatch_db_safe (cmd : option string) (clock : Clock) (u : Update)
    (ctx : Context) : db_safe (dispatch cmd clock u ctx).
Proof.
  destruct (dispatch_cases cmd) as [[g Hg] | [H | [H | [H | [_ H]]]]];
    rewrite ?Hg, ?H.
  - change (dispatch (Some (gated_name g))) with (gated_handler g).
    destruct g; unfold_gated; db_safe.
  - change (db_safe (start_command u ctx)). db_safe.
  - change (db_safe (stats_command clock u ctx)). db_safe.
  - change (db_safe (help_command u ctx)). db_safe.
  - db_safe.
Qed.

Lemma tables_exist_init (d : Database) : tables_exist (init_database d).
Proof.
  unfold tables_exist, init_database, create_table_if_not_exists. simpl.
  destruct (group_stats d), (user_activity d); split; eauto.
Qed.

Lemma run_tables_exist (pf : Platform) (file : Database)
    (updates : list Delivery) :
  tables_exist (db (run pf file updates)).
Proof.
  unfold run.
  assert (H0 : tables_exist (db (startup file))) by apply tables_exist_init.
  revert H0. generalize (startup file).
  induction updates as [|x xs IH]; intros w Hw; simpl; [exact Hw|].
  apply IH. unfold deliver. apply dispatch_db_safe, Hw.
Qed.

(** X9. Whatever file of the program the bot starts on (each of the two
    tables missing, or as [init_database] declares it) and whatever was
    delivered since, both tables exist, so no handler ends in the database
    error 'no such table'. [track_activity] returns, except on an update
    without a sender in a non-private chat, where it raises
    AttributeError. *)
Theorem no_database_error_after_startup
    (pf : Platform) (file : Database) (updates : list Delivery)
    (x : Delivery) :
  let w := run pf file updates in
  tables_exist (db w)
  /\ (forall m,
        fst (dispatch (d_command x) (d_clock x) (d_update x) (d_context x) pf w)
        <> Raises (OperationalError m))
  /\ (tracked x = false \/ has_sender x = true ->
      fst (track_activity (d_clock x) (d_update x) (d_context x) pf w)
      = Returned tt)
  /\ (tracked x = true -> sender x = None ->
      fst (track_activity (d_clock x) (d_update x) (d_context x) pf w)
      = Raises (none_has_no "id")).
Proof.
  intro w. pose proof (run_tables_exist pf file updates) as Hw. fold w in Hw.
  split; [exact Hw|]. split; [|split].
  - apply dispatch_db_safe, Hw.
  - destruct Hw as [[gs Hg] [ua Hu]].
    intros [H|H]; apply (proj2 (track_activity_rows x pf w gs ua Hg Hu));
      intro H'; congruence.
  - intros Ht Hs. rewrite (track_activity_without_sender x pf w Ht Hs).
    reflexivity.
Qed.

(** X10. A registered command is not counted as a message: the dispatcher
    gives it to the handler that [setup_handlers] registered under its
    name, to that one only, and the database is as before. *)
Theorem registered_commands_are_not_counted
    (pf : Platform) (w : World) (x : Delivery) (name : string)
    (handler : Clock -> Update -> Context -> bot unit)
    (Hcmd : d_command x = Some name)
    (Hname : In (name, handler) registered) :
  dispatch (d_command x) = handler
  /\ deliver pf w x
     = snd (handler (d_clock x) (d_update x) (d_context x) pf w)
  /\ db (deliver pf w x) = db w.
Proof.
  unfold deliver. rewrite Hcmd. unfold registered in Hname.
  cbn [In] in Hname.
  repeat match goal with
         | H : _ \/ _ |- _ => destruct H as [H|H]
         | H : False |- _ => destruct H
         end; injection Hname as <- <-;
    (split; [reflexivity|]); (split; [reflexivity|]).
  - exact (keeps_start (d_update x) (d_context x) pf w).
  - exact (keeps_stats (d_clock x) (d_update x) (d_context x) pf w).
  - exact (keeps_lock (d_update x) (d_context x) pf w).
  - exact (keeps_unlock (d_update x) (d_context x) pf w).
  - exact (keeps_mute (d_clock x) (d_update x) (d_context x) pf w).
  - exact (keeps_unmute (d_update x) (d_context x) pf w).
  - exact (keeps_ban (d_update x) (d_context x) pf w).
  - exact (keeps_kick (d_update x) (d_context x) pf w).
  - exact (keeps_help (d_update x) (d_context x) pf w).
Qed.

(** X11. An update that is not one of the nine registered commands (a plain
    message, or a command with another name) falls through to
    [track_activity]; in a non-private chat it is counted for its sender.
    When it has no sender (a channel post) the handler raises and the
    database is as before. *)
Theorem other_updates_are_tracked
    (pf : Platform) (w : World) (x : Delivery)
    (gs : GroupStats.table) (ua : UserActivity.table)
    (Hother : forall name, d_command x = Some name -> ~ In name command_names)
    (Hgs : group_stats (db w) = Some gs)
    (Hua : user_activity (db w) = Some ua)
    (Htracked : tracked x = true) :
  deliver pf w x
  = snd (track_activity (d_clock x) (d_update x) (d_context x) pf w)
  /\ (forall user, sender x = Some user ->
      exists gs' ua',
        db (deliver pf w x)
        = {| group_stats := Some gs'; user_activity := Some ua' |}
        /\ UserActivity.select_message_count (User.id user) (chat_of x) ua'
           = plus_one (coalesce (UserActivity.select_message_count
                                   (User.id user) (chat_of x) ua) (SqlInt 0))
        /\ GroupStats.select_messages_count (chat_of x) (day_of x) gs'
           = plus_one (coalesce (GroupStats.select_messages_count
                                   (chat_of x) (day_of x) gs) (SqlInt 0)))
  /\ (sender x = None ->
      dispatch (d_command x) (d_clock x) (d_update x) (d_context x) pf w
      = (Raises (none_has_no "id"), w)).
Proof.
  assert (Hd : dispatch (d_command x) = track_activity).
  { destruct (dispatch_cases (d_command x))
      as [[g Hg] | [H | [H | [H | [_ H]]]]]; [exfalso .. | exact H].
    - apply (Hother _ Hg). destruct g; simpl; tauto.
    - apply (Hother _ H). simpl; tauto.
    - apply (Hother _ H). simpl; tauto.
    - apply (Hother _ H). simpl; tauto. }
  unfold deliver. rewrite Hd. split; [reflexivity|]. split.
  - intros user Hs.
    rewrite (proj1 (track_activity_rows x pf w gs ua Hgs Hua)).
    unfold rows_after_one. rewrite Hs, Htracked. cbn [fst snd db].
    eexists. eexists. split; [reflexivity|].
    split; [apply ua_upsert_select | apply gs_upsert_select].
  - intro Hs. apply (track_activity_without_sender x pf w Htracked Hs).
Qed.

Lemma track_activity_db_only clock u ctx (pf pf' : Platform) (w w' : World) :
  db w = db w' ->
  db (snd (track_activity clock u ctx pf w))
  = db (snd (track_activity clock u ctx pf' w')).
Proof.
  intro H. unfold track_activity.
  destruct (String.eqb (Chat.type (effective_chat u)) "private");
    [exact H|].
  destruct (effective_user u) as [user|]; [|exact H].
  unfold transaction. rewrite H.
  destruct (track_activity_statements _ _ _ (db w')); [exact H | reflexivity].
Qed.

Lemma deliver_db_only (pf pf' : Platform) (w w' : World) (x : Delivery) :
  db w = db w' -> db (deliver pf w x) = db (deliver pf' w' x).
Proof.
  intro H. unfold deliver, dispatch.
  destruct (d_command x) as [name|]; [|apply track_activity_db_only, H].
  repeat match goal with
         | |- context [String.eqb name ?s] => destruct (String.eqb name s)
         end;
    try (apply track_activity_db_only, H);
    (transitivity (db w); [|rewrite H; symmetry]).
  - apply keeps_start.
  - apply keeps_start.
  - apply keeps_stats.
  - apply keeps_stats.
  - apply keeps_lock.
  - apply keeps_lock.
  - apply keeps_unlock.
  - apply keeps_unlock.
  - apply keeps_mute.
  - apply keeps_mute.
  - apply keeps_unmute.
  - apply keeps_unmute.
  - apply keeps_ban.
  - apply keeps_ban.
  - apply keeps_kick.
  - apply keeps_kick.
  - apply keeps_help.
  - apply keeps_help.
Qed.

Lemma deliver_all_db_only (pf pf' : Platform) (xs : list Delivery) :
  forall w w', db w = db w' ->
    db (fold_left (deliver pf) xs w) = db (fold_left (deliver pf') xs w').
Proof.
  induction xs as [|x xs IH]; intros w w' H; [exact H|].
  cbn [fold_left]. apply IH, deliver_db_only, H.
Qed.

(** X12. The database after a run depends only on the file and on the
    updates delivered, not on what the platform answered: stopping the bot
    after some updates and starting it again on the file it left, also
    against a platform that answers differently, gives after the remaining
    updates the database of an uninterrupted run. [init_database] on the
    file that a run left changes nothing. *)
Theorem restart_keeps_the_store (pf pf' : Platform) (file : Database)
    (xs ys : list Delivery) :
  db (startup (db (run pf file xs))) = db (run pf file xs)
  /\ db (run pf' (db (run pf file xs)) ys) = db (run pf file (xs ++ ys)).
Proof.
  assert (Hstart : db (startup (db (run pf file xs))) = db (run pf file xs)).
  { destruct (run_tables_exist pf file xs) as [[gs Hg] [ua Hu]].
    unfold startup. cbn [db].
    destruct (db (run pf file xs)) as [g0 u0]. simpl in *. subst.
    reflexivity. }
  split; [exact Hstart|].
  unfold run at 1 3. rewrite fold_left_app.
  fold (run pf file xs).
  apply deliver_all_db_only, Hstart.
Qed.

(** ** The try blocks of the gated commands *)

Lemma plan_message (g : gated) (clock : Clock) (u : Update)
    (calls : list call) (ok : string) :
  plan g clock u = Some (calls, ok) ->
  g = Lock \/ g = Unlock \/ exists m, message u = Some m.
Proof.
  destruct g; auto; unfold plan, replied_user;
    (destruct (message u) as [m|]; [right; right; exists m; reflexivity|]);
    discriminate.
Qed.

Lemma plan_action (g : gated) (clock : Clock) (u : Update) (ctx : Context)
    (calls : list call) (ok : string) :
  plan g clock u = Some (calls, ok) ->
  action_of g clock u ctx = attempt u (then_all calls) ok (failure_prefix g).
Proof.
  destruct g; unfold plan, action_of, on_replied_user, replied_user;
    try (intro H; injection H as <- <-; reflexivity);
    destruct (message u) as [m|]; try discriminate;
    destruct (reply_to_message m) as [rm|]; try discriminate;
    destruct (from_user rm) as [target|]; try discriminate;
    intro H; injection H as <- <-; reflexivity.
Qed.

Lemma plan_calls_privileged (g : gated) (clock : Clock) (u : Update)
    (calls : list call) (ok : string) :
  plan g clock u = Some (calls, ok) ->
  forall c, In c calls -> privileged c = true.
Proof.
  destruct g; unfold plan; try destruct (replied_user u); cbn [option_map];
    intro H; try discriminate H; injection H as <- <-;
    intros c Hin; cbn [In] in Hin; intuition (subst; reflexivity).
Qed.

(** The success text is none of the other texts of the handler. *)
Lemma plan_ok_not_failure (g : gated) (clock : Clock) (u : Update)
    (calls : list call) (ok : string) (m : string) :
  plan g clock u = Some (calls, ok) -> failure_prefix g +++ m <> ok.
Proof.
  destruct g; unfold plan; try destruct (replied_user u); cbn [option_map];
    intro H; try discriminate H; injection H as <- <-; discriminate.
Qed.

Lemma plan_ok_not_rejection (g : gated) (clock : Clock) (u : Update)
    (calls : list call) (ok : string) :
  plan g clock u = Some (calls, ok) ->
  caller_rejection <> ok /\ bot_rejection g <> ok.
Proof.
  destruct g; unfold plan; try destruct (replied_user u); cbn [option_map];
    intro H; try discriminate H; injection H as <- <-; split; discriminate.
Qed.

(** The body of a try block: the calls in turn up to the first that raises,
    then the success reply. *)
Lemma then_all_run (u : Update) (m0 : Message) (Hm : message u = Some m0)
    (ok : string) (calls : list call) :
  forall (pf : Platform) (w : World),
    let r := then_all calls (reply_text u ok None) pf w in
    let reply := ReplyText (Chat.id (effective_chat u)) ok None in
    exists evs,
      snd r = logged w evs
      /\ ((exists done c m rest,
              calls = done ++ c :: rest
              /\ evs = all_done done ++ [(c, Raised m)]
              /\ fst r = Raises (TelegramError m))
          \/ (evs = all_done calls ++ [(reply, Done)] /\ fst r = Returned tt)
          \/ (exists m,
                 evs = all_done calls ++ [(reply, Raised m)]
                 /\ fst r = Raises (TelegramError m))).
Proof.
  induction calls as [|c calls IH]; intros pf w r reply; subst r.
  - cbn [then_all fold_right all_done map app]. rewrite (reply_run Hm).
    fold reply.
    unfold command_answer. destruct (fault pf (log w) reply) as [m|];
      eexists; (split; [reflexivity|]).
    + right. right. exists m. split; reflexivity.
    + right. left. split; reflexivity.
  - cbn [then_all fold_right]. fold (then_all calls (reply_text u ok None)).
    unfold bind. rewrite command_run. unfold command_answer.
    destruct (fault pf (log w) c) as [m|]; cbn [outcome_of].
    + eexists. split; [reflexivity|]. left. exists [], c, m, calls.
      repeat split; reflexivity.
    + destruct (IH pf (logged w [(c, Done)])) as (evs & Hw & Hcases).
      exists ((c, Done) :: evs). split.
      * rewrite Hw, logged_logged. reflexivity.
      * destruct Hcases as [(done & c' & m & rest & Hc & He & Ho)
                           | [[He Ho] | (m & He & Ho)]].
        -- left. exists (c :: done), c', m, rest. subst. repeat split.
           exact Ho.
        -- right. left. subst. split; [reflexivity | exact Ho].
        -- right. right. exists m. subst. split; [reflexivity | exact Ho].
Qed.

(** The whole try/except. *)
Lemma attempt_run (u : Update) (m0 : Message) (Hm : message u = Some m0)
    (ok fail : string) (calls : list call) (pf : Platform) (w : World) :
  let r := attempt u (then_all calls) ok fail pf w in
  let chat := Chat.id (effective_chat u) in
  exists evs,
    snd r = logged w evs
    /\ ((exists done c m rest a,
            calls = done ++ c :: rest
            /\ evs = all_done done
                     ++ [(c, Raised m); (ReplyText chat (fail +++ m) None, a)]
            /\ fst r = outcome_of a)
        \/ (evs = all_done calls ++ [(ReplyText chat ok None, Done)]
            /\ fst r = Returned tt)
        \/ (exists m a,
               evs = all_done calls
                     ++ [(ReplyText chat ok None, Raised m);
                         (ReplyText chat (fail +++ m) None, a)]
               /\ fst r = outcome_of a)).
Proof.
  intros r chat. subst r. unfold attempt, try_except.
  destruct (then_all_run u m0 Hm ok calls pf w) as (evs & Hw & Hcases).
  destruct (then_all calls (reply_text u ok None) pf w) as [out w'].
  cbn [fst snd] in *. subst w'.
  destruct Hcases as [(done & c & m & rest & Hc & He & Ho)
                     | [[He Ho] | (m & He & Ho)]]; subst out.
  - rewrite (reply_run Hm), logged_logged. fold chat.
    eexists. split; [reflexivity|]. left.
    exists done, c, m, rest. eexists. subst evs.
    split; [exact Hc|]. split; [rewrite <- app_assoc; reflexivity | reflexivity].
  - exists evs. split; [reflexivity|]. right. left. split; [exact He | reflexivity].
  - rewrite (reply_run Hm), logged_logged. fold chat.
    eexists. split; [reflexivity|]. right. right.
    exists m. eexists. subst evs.
    split; [rewrite <- app_assoc; reflexivity | reflexivity].
Qed.

Lemma all_done_in (calls : list call) (c : call) (a : answer) :
  In (c, a) (all_done calls) -> In c calls /\ a = Done.
Proof.
  unfold all_done. rewrite in_map_iff. intros (c' & Heq & Hin).
  injection Heq as <- <-. auto.
Qed.

(** Prove that an explicit list of events holds no reply. *)
Ltac no_reply_in Hin :=
  unfold caller_lookup, bot_lookup in Hin; cbn [In app] in Hin;
  repeat match goal with
         | H : _ \/ _ |- _ => destruct H as [H|H]; try discriminate H
         | H : False |- _ => destruct H
         end.

(** On an update without [update.message] a gated handler sends nothing
    and ends in AttributeError. *)
Lemma gated_without_message
    (g : gated) (pf : Platform) (w : World) (clock : Clock) (u : Update)
    (ctx : Context) :
  message u = None ->
  exists evs name,
    gated_handler g clock u ctx pf w
    = (Raises (none_has_no name), logged w evs)
    /\ (forall chat text pm a, ~ In (ReplyText chat text pm, a) evs)
    /\ (forall e, In e evs -> privileged (fst e) = true ->
        g = Lock \/ g = Unlock).
Proof.
  intro Hm. rewrite gated_handler_gate.
  destruct (effective_user u) as [caller|] eqn:Hc.
  2:{ rewrite (gate_without_caller Hc). exists [], "id"%string.
      rewrite logged_nil. split; [reflexivity|].
      split; [intros ? ? ? ? [] | intros ? []]. }
  rewrite (gate_run Hc).
  destruct (admits_caller _); [destruct (admits_bot _)|].
  - destruct g; unfold_actions; unfold raise; rewrite ?logged_logged;
      eexists; eexists; (split; [reflexivity|]);
      (split;
       [ intros chat text pm a Hin; unfold command_answer in Hin;
         no_reply_in Hin
       | intros e Hin Hp; cbn [In app] in Hin;
         repeat (destruct Hin as [Hin|Hin];
                 [subst e; first [discriminate Hp | auto]|]);
         destruct Hin ]).
  - run_replies. eexists. eexists. split; [reflexivity|].
    split; [intros chat text pm a Hin; no_reply_in Hin|].
    intros e Hin Hp; cbn [In app] in Hin.
    repeat (destruct Hin as [Hin|Hin]; [subst e; discriminate Hp|]).
    destruct Hin.
  - run_replies. eexists. eexists. split; [reflexivity|].
    split; [intros chat text pm a Hin; no_reply_in Hin|].
    intros e Hin Hp; cbn [In app] in Hin.
    repeat (destruct Hin as [Hin|Hin]; [subst e; discriminate Hp|]).
    destruct Hin.
Qed.

(** Where the success reply stands among the events of a gated handler. *)
Lemma success_reply_position
    (g : gated) (pf : Platform) (w : World) (clock : Clock) (u : Update)
    (ctx : Context) (calls : list call) (ok : string) :
  plan g clock u = Some (calls, ok) ->
  let chat := Chat.id (effective_chat u) in
  exists evs,
    log (snd (gated_handler g clock u ctx pf w)) = log w ++ evs
    /\ forall a, In (ReplyText chat ok None, a) evs ->
         exists caller s1 post,
           effective_user u = Some caller
           /\ evs = (caller_lookup u caller, Status s1)
                    :: (bot_lookup pf u, Status "administrator")
                    :: all_done calls ++ (ReplyText chat ok None, a) :: post
           /\ ((a = Done /\ post = [])
               \/ exists m a',
                    a = Raised m
                    /\ post = [(ReplyText chat (failure_prefix g +++ m) None,
                                a')]).
Proof.
  intros Hplan chat.
  destruct (message u) as [m0|] eqn:Hm.
  2:{ destruct (gated_without_message g pf w clock u ctx Hm)
        as (evs & name & Hrun & Hno & _).
      exists evs. rewrite Hrun. split; [reflexivity|].
      intros a Hin. destruct (Hno _ _ _ _ Hin). }
  pose proof (plan_calls_privileged g clock u calls ok Hplan) as Hpriv.
  pose proof (plan_ok_not_rejection g clock u calls ok Hplan) as [Hr1 Hr2].
  assert (Hnot_call : forall c a, In (c, a) (all_done calls) ->
                                  c <> ReplyText chat ok None).
  { intros c a Hin Heq. apply all_done_in in Hin. destruct Hin as [Hin _].
    apply Hpriv in Hin. subst c. discriminate Hin. }
  rewrite gated_handler_gate.
  destruct (effective_user u) as [caller|] eqn:Hc.
  2:{ rewrite (gate_without_caller Hc). exists [].
      split; [apply logged_nothing | intros a []]. }
  rewrite (gate_run Hc). fold chat.
  set (a1 := lookup_answer pf (log w) _ _).
  set (a2 := lookup_answer pf (log w ++ _) _ _).
  destruct (admits_caller a1) eqn:E1; [destruct (admits_bot a2) eqn:E2|].
  - destruct a1 as [|s1| | |]; try discriminate E1.
    destruct a2 as [|s2| | |]; try discriminate E2.
    cbn [admits_bot] in E2. apply String.eqb_eq in E2. subst s2.
    rewrite (plan_action g clock u ctx calls ok Hplan).
    destruct (attempt_run u m0 Hm ok (failure_prefix g) calls pf
                (logged w [(caller_lookup u caller, Status s1);
                           (bot_lookup pf u, Status "administrator")]))
      as (evs & Hw & Hcases).
    cbv zeta in Hw. rewrite Hw, logged_logged. fold chat in Hcases.
    eexists. split; [reflexivity|]. intros a Hin.
    cbn [app In] in Hin.
    destruct Hin as [Hin|[Hin|Hin]];
      [unfold caller_lookup in Hin; discriminate Hin
      |unfold bot_lookup in Hin; discriminate Hin|].
    exists caller, s1.
    destruct Hcases as [(done & c & m & rest & a' & Hc' & He & _)
                       | [[He _] | (m & a' & He & _)]]; subst evs.
    + exfalso. apply in_app_iff in Hin. destruct Hin as [Hin|[Hin|[Hin|[]]]].
      * apply all_done_in in Hin. destruct Hin as [Hin _].
        assert (Hc'' : In (ReplyText chat ok None) calls)
          by (rewrite Hc'; apply in_app_iff; left; exact Hin).
        apply Hpriv in Hc''. discriminate Hc''.
      * injection Hin as -> _.
        assert (Hc'' : In (ReplyText chat ok None) calls)
          by (rewrite Hc'; apply in_app_iff; right; left; reflexivity).
        apply Hpriv in Hc''. discriminate Hc''.
      * injection Hin as Ht _.
        exact (plan_ok_not_failure g clock u calls ok m Hplan Ht).
    + apply in_app_iff in Hin. destruct Hin as [Hin|[Hin|[]]].
      * exfalso. exact (Hnot_call _ _ Hin eq_refl).
      * injection Hin as <-. exists []. split; [reflexivity|].
        split; [reflexivity|]. left. split; reflexivity.
    + apply in_app_iff in Hin. destruct Hin as [Hin|[Hin|[Hin|[]]]].
      * exfalso. exact (Hnot_call _ _ Hin eq_refl).
      * injection Hin as <-. eexists. split; [reflexivity|].
        split; [reflexivity|]. right. exists m, a'. split; reflexivity.
      * exfalso. injection Hin as Ht _.
        exact (plan_ok_not_failure g clock u calls ok m Hplan Ht).
  - rewrite (reply_run Hm), logged_logged. cbn [snd log logged app].
    eexists. split; [reflexivity|]. intros a Hin. exfalso.
    destruct Hin as [Hin|[Hin|[Hin|[]]]];
      [unfold caller_lookup in Hin; discriminate Hin
      |unfold bot_lookup in Hin; discriminate Hin|].
    injection Hin as Ht _. exact (Hr2 Ht).
  - rewrite (reply_run Hm), logged_logged. cbn [snd log logged app].
    eexists. split; [reflexivity|]. intros a Hin. exfalso.
    destruct Hin as [Hin|[Hin|[]]];
      [unfold caller_lookup in Hin; discriminate Hin|].
    injection Hin as Ht _. exact (Hr1 Ht).
Qed.

(** X13. A gated command sends its success text only after the calls of
    its try block have all returned: they are the events right before the
    success reply, right after the two lookups (the bot's with status
    'administrator'), and they name the chat of the update and the sender
    of the replied-to message. *)
Theorem success_text_only_after_the_calls
    (g : gated) (pf : Platform) (w : World) (clock : Clock) (u : Update)
    (ctx : Context) (calls : list call) (ok : string)
    (Hplan : plan g clock u = Some (calls, ok)) :
  let chat := Chat.id (effective_chat u) in
  exists evs,
    log (snd (gated_handler g clock u ctx pf w)) = log w ++ evs
    /\ forall a, In (ReplyText chat ok None, a) evs ->
         exists caller s1 post,
           effective_user u = Some caller
           /\ (s1 = "administrator"%string \/ s1 = "creator"%string)
           /\ evs = (caller_lookup u caller, Status s1)
                    :: (bot_lookup pf u, Status "administrator")
                    :: all_done calls ++ (ReplyText chat ok None, a) :: post
           /\ (a = Done -> post = []).
Proof.
  intro chat.
  destruct (success_reply_position g pf w clock u ctx calls ok Hplan)
    as (evs & Hlog & Hpos).
  destruct (gated_privileged_after_lookups g pf w clock u ctx)
    as (evs' & Hlog' & Hgate).
  assert (evs' = evs) by (rewrite Hlog in Hlog'; apply app_inv_head in Hlog';
                          congruence).
  subst evs'. exists evs. split; [exact Hlog|]. intros a Hin.
  destruct (Hpos a Hin) as (caller & s1 & post & Hc & Hevs & Hpost).
  exists caller, s1, post. split; [exact Hc|]. split; [|split; [exact Hevs|]].
  - destruct calls as [|c calls].
    + exfalso. destruct g; unfold plan in Hplan;
        try destruct (replied_user u); cbn [option_map] in Hplan;
        discriminate Hplan.
    + destruct (Hgate (c, Done))
        as (caller' & s1' & s2 & rest & _ & Hevs' & Hs1 & _).
      * rewrite Hevs. right. right. left. reflexivity.
      * apply (plan_calls_privileged g clock u _ ok Hplan). left. reflexivity.
      * rewrite Hevs in Hevs'. injection Hevs' as _ <- _. exact Hs1.
  - intros ->. destruct Hpost as [[_ Hp] | (m & a' & Ha & _)];
      [exact Hp | discriminate Ha].
Qed.

(** X14. When the calls of the try block have returned and only the
    success reply raises, the except branch answers with the failure text:
    the caller reads that the command failed although it was carried out. *)
Theorem failure_text_after_a_failed_success_reply
    (g : gated) (pf : Platform) (w : World) (clock : Clock) (u : Update)
    (ctx : Context) (calls : list call) (ok : string)
    (Hplan : plan g clock u = Some (calls, ok)) :
  let chat := Chat.id (effective_chat u) in
  exists evs,
    log (snd (gated_handler g clock u ctx pf w)) = log w ++ evs
    /\ forall m, In (ReplyText chat ok None, Raised m) evs ->
         exists caller s1 a',
           effective_user u = Some caller
           /\ evs = (caller_lookup u caller, Status s1)
                    :: (bot_lookup pf u, Status "administrator")
                    :: all_done calls
                    ++ [(ReplyText chat ok None, Raised m);
                        (ReplyText chat (failure_prefix g +++ m) None, a')].
Proof.
  intro chat.
  destruct (success_reply_position g pf w clock u ctx calls ok Hplan)
    as (evs & Hlog & Hpos).
  exists evs. split; [exact Hlog|]. intros m Hin.
  destruct (Hpos (Raised m) Hin) as (caller & s1 & post & Hc & Hevs & Hpost).
  destruct Hpost as [[Ha _] | (m' & a' & Ha & Hp)]; [discriminate Ha|].
  injection Ha as <-. exists caller, s1, a'. split; [exact Hc|].
  rewrite Hevs, Hp. reflexivity.
Qed.

(** Without a user to act on, the action is a usage text or nothing; without
    [update.message] it raises. *)
Lemma no_plan_action (g : gated) (clock : Clock) (u : Update) (ctx : Context) :
  plan g clock u = None ->
  (message u = None
   /\ action_of g clock u ctx = raise (none_has_no "reply_to_message"))
  \/ (exists m, message u = Some m /\ reply_to_message m = None
                /\ exists text, action_of g clock u ctx = reply_text u text None)
  \/ (exists m rm, message u = Some m /\ reply_to_message m = Some rm
                   /\ from_user rm = None
                   /\ action_of g clock u ctx = ret tt).
Proof.
  destruct g; unfold plan, action_of, on_replied_user, replied_user;
    try discriminate;
    (destruct (message u) as [m|]; [|intros _; left; split; reflexivity]);
    (destruct (reply_to_message m) as [rm|] eqn:Hr;
     [destruct (from_user rm) as [target|] eqn:Ef; cbn [option_map];
      [discriminate|]; intros _; right; right; exists m, rm;
      split; [reflexivity|]; split; [exact Hr|];
      split; [exact Ef | reflexivity]
     |intros _; right; left; exists m; split; [reflexivity|];
      split; [exact Hr|];
      try destruct (first_arg_is_mention ctx); eexists; reflexivity]).
Qed.

(** X15. The user commands act on a replied-to message only. Without one
    (also for [/mute @username], whose lookup by name is not implemented),
    or when the replied-to message has no sender, no call changes the chat,
    whoever asks. On a new message that replies to nothing the caller is
    still answered: the last event is a reply. On an edited message
    ([update.message] is None) nothing is sent and the handler ends in
    AttributeError. *)
Theorem no_replied_user_no_action
    (g : gated) (pf : Platform) (w : World) (clock : Clock) (u : Update)
    (ctx : Context)
    (Hnone : plan g clock u = None) :
  exists evs,
    log (snd (gated_handler g clock u ctx pf w)) = log w ++ evs
    /\ (forall e, In e evs -> privileged (fst e) = false)
    /\ (forall caller m,
          effective_user u = Some caller -> message u = Some m ->
          reply_to_message m = None ->
          exists pre text a,
            evs = pre ++ [(ReplyText (Chat.id (effective_chat u)) text None, a)])
    /\ (message u = None ->
        (exists name,
            fst (gated_handler g clock u ctx pf w) = Raises (none_has_no name))
        /\ forall chat text pm a, ~ In (ReplyText chat text pm, a) evs).
Proof.
  destruct (message u) as [m0|] eqn:Hm.
  2:{ destruct (gated_without_message g pf w clock u ctx Hm)
        as (evs & name & Hrun & Hno & Hpriv).
      exists evs. rewrite Hrun. split; [reflexivity|]. split; [|split].
      - intros e Hin. destruct (privileged (fst e)) eqn:Hp; [|reflexivity].
        exfalso. destruct (Hpriv e Hin Hp) as [-> | ->]; discriminate Hnone.
      - intros caller m _ H. discriminate H.
      - intros _. split; [exists name; reflexivity | exact Hno]. }
  rewrite gated_handler_gate.
  destruct (effective_user u) as [caller|] eqn:Hc.
  2:{ rewrite (gate_without_caller Hc). exists [].
      split; [apply logged_nothing|]. split; [intros e []|].
      split; [intros ? ? H; discriminate H | intro H; discriminate H]. }
  rewrite (gate_run Hc).
  set (a1 := lookup_answer pf (log w) _ _).
  set (a2 := lookup_answer pf (log w ++ _) _ _).
  destruct (admits_caller a1); [destruct (admits_bot a2)|].
  - destruct (no_plan_action g clock u ctx Hnone)
      as [[Hnm _] | [(m & Hm' & Hrm & text & ->)
                     | (m & rm & Hm' & Hrm & Hfrom & ->)]];
      [rewrite Hm in Hnm; discriminate Hnm | |].
    + rewrite (reply_run Hm), logged_logged. cbn [snd log logged app].
      eexists. split; [reflexivity|]. split; [|split].
      * intros e [<-|[<-|[<-|[]]]]; reflexivity.
      * intros _ _ _ _ _.
        exists [(caller_lookup u caller, a1); (bot_lookup pf u, a2)].
        eexists. eexists. reflexivity.
      * intro H. discriminate H.
    + cbn [ret snd log logged]. eexists. split; [reflexivity|].
      split; [|split].
      * intros e [<-|[<-|[]]]; reflexivity.
      * intros caller' m' _ Hm'' H. congruence.
      * intro H. discriminate H.
  - rewrite (reply_run Hm), logged_logged. cbn [snd log logged app].
    eexists. split; [reflexivity|]. split; [|split].
    + intros e [<-|[<-|[<-|[]]]]; reflexivity.
    + intros _ _ _ _ _.
      exists [(caller_lookup u caller, a1); (bot_lookup pf u, a2)].
      eexists. eexists. reflexivity.
    + intro H. discriminate H.
  - rewrite (reply_run Hm), logged_logged. cbn [snd log logged app].
    eexists. split; [reflexivity|]. split; [|split].
    + intros e [<-|[<-|[]]]; reflexivity.
    + intros _ _ _ _ _. exists [(caller_lookup u caller, a1)].
      eexists. eexists. reflexivity.
    + intro H. discriminate H.
Qed.

(** X16. A user command in reply to a message that has no sender, from a
    caller and a bot that both pass the gate: the handler makes the two
    lookups and returns; it changes nothing and sends no text at all. *)
Theorem replied_message_without_sender_is_silent
    (g : gated) (pf : Platform) (w : World) (clock : Clock) (u : Update)
    (ctx : Context) (caller : User.t) (m : Message) (rm : RepliedMessage)
    (Huser_command : g <> Lock /\ g <> Unlock)
    (Hsent_by : effective_user u = Some caller)
    (Hmessage : message u = Some m)
    (Hreply : reply_to_message m = Some rm)
    (Hno_sender : from_user rm = None)
    (Hcaller : admits_caller
                 (lookup_answer pf (log w) (Chat.id (effective_chat u))
                    (User.id caller)) = true)
    (Hbot : admits_bot
              (lookup_answer pf
                 (log w ++ [(caller_lookup u caller,
                             lookup_answer pf (log w)
                               (Chat.id (effective_chat u))
                               (User.id caller))])
                 (Chat.id (effective_chat u)) (bot_id pf)) = true) :
  exists s1,
    gated_handler g clock u ctx pf w
    = (Returned tt,
       logged w [(caller_lookup u caller, Status s1);
                 (bot_lookup pf u, Status "administrator")]).
Proof.
  assert (Hplan : plan g clock u = None).
  { destruct Huser_command as [H1 H2].
    destruct g; try contradiction; unfold plan, replied_user;
      rewrite Hmessage, Hreply, Hno_sender; reflexivity. }
  rewrite gated_handler_gate, (gate_run Hsent_by). rewrite Hcaller, Hbot.
  destruct (no_plan_action g clock u ctx Hplan)
    as [[Hnm _] | [(m' & Hm' & Hrm & _) | (m' & rm' & _ & _ & _ & ->)]];
    [congruence | congruence |].
  destruct (lookup_answer pf (log w) _ _) as [|s1| | |] eqn:E1;
    try discriminate Hcaller.
  destruct (lookup_answer pf (log w ++ _) _ _) as [|s2| | |] eqn:E2;
    try discriminate Hbot.
  cbn [admits_bot] in Hbot. apply String.eqb_eq in Hbot. subst s2.
  exists s1. reflexivity.
Qed.

(** X17. A kick whose unban raises leaves the user banned: the ban has
    returned, the user is on the ban list, and the caller gets the failure
    text with the error's message. *)
Theorem kick_leaves_banned_when_unban_fails
    (pf : Platform) (w : World) (u : Update) (ctx : Context)
    (target : User.t) (m : string) (evs : list event)
    (Htarget : replied_user u = Some target)
    (Hlog : log (snd (kick_user u ctx pf w)) = log w ++ evs)
    (Hunban : In (UnbanChatMember (Chat.id (effective_chat u)) (User.id target),
                  Raised m) evs) :
  let chat := Chat.id (effective_chat u) in
  (exists caller s1 a,
      effective_user u = Some caller
      /\ evs = [(caller_lookup u caller, Status s1);
                (bot_lookup pf u, Status "administrator");
                (BanChatMember chat (User.id target), Done);
                (UnbanChatMember chat (User.id target), Raised m);
                (ReplyText chat ("❌ Failed to kick user: " +++ m) None, a)])
  /\ is_banned (log w ++ evs) chat (User.id target) = true.
Proof.
  intro chat.
  assert (Hplan : plan Kick (fun _ => epoch) u
                  = Some ([BanChatMember chat (User.id target);
                           UnbanChatMember chat (User.id target)],
                          kicked_text target)).
  { unfold plan. rewrite Htarget. reflexivity. }
  assert (Hmsg : exists m0, message u = Some m0).
  { unfold replied_user in Htarget. destruct (message u) as [m0|];
      [exists m0; reflexivity | discriminate Htarget]. }
  destruct Hmsg as [m0 Hm].
  assert (Hshape : exists caller s1 a,
      effective_user u = Some caller
      /\ evs = [(caller_lookup u caller, Status s1);
                (bot_lookup pf u, Status "administrator");
                (BanChatMember chat (User.id target), Done);
                (UnbanChatMember chat (User.id target), Raised m);
                (ReplyText chat ("❌ Failed to kick user: " +++ m) None, a)]).
  { revert Hlog. rewrite kick_user_gate.
    destruct (effective_user u) as [caller|] eqn:Hc.
    2:{ rewrite (gate_without_caller Hc). cbn [snd].
        rewrite (logged_nothing w) at 1.
        intro Hlog. apply app_inv_head in Hlog. subst evs.
        destruct Hunban. }
    rewrite (gate_run Hc). fold chat.
    set (a1 := lookup_answer pf (log w) _ _).
    set (a2 := lookup_answer pf (log w ++ _) _ _).
    destruct (admits_caller a1) eqn:E1; [destruct (admits_bot a2) eqn:E2|].
    - destruct a1 as [|s1| | |]; try discriminate E1.
      destruct a2 as [|s2| | |]; try discriminate E2.
      cbn [admits_bot] in E2. apply String.eqb_eq in E2. subst s2.
      rewrite (plan_action Kick _ u ctx _ _ Hplan).
      destruct (attempt_run u m0 Hm (kicked_text target) (failure_prefix Kick)
                  [BanChatMember chat (User.id target);
                   UnbanChatMember chat (User.id target)] pf
                  (logged w [(caller_lookup u caller, Status s1);
                             (bot_lookup pf u, Status "administrator")]))
        as (evs' & Hw & Hcases).
      cbv zeta in Hw. rewrite Hw, logged_logged. cbn [log logged].
      intro Hlog. apply app_inv_head in Hlog. subst evs.
      fold chat in Hcases.
      destruct Hcases as [(done & c & m' & rest & a' & Hc' & He & _)
                         | [[He _] | (m' & a' & He & _)]]; subst evs'.
      + destruct done as [|c1 [|c2 done]]; cbn [app] in Hc'.
        * injection Hc' as <- <-. exfalso. cbn [all_done map app In] in Hunban.
          unfold caller_lookup, bot_lookup in Hunban.
          repeat match goal with
                 | H : _ \/ _ |- _ => destruct H as [H|H]; try discriminate H
                 | H : False |- _ => destruct H
                 end.
        * injection Hc' as <- <- <-. cbn [all_done map app In] in Hunban.
          unfold caller_lookup, bot_lookup in Hunban.
          repeat match goal with
                 | H : _ \/ _ |- _ => destruct H as [H|H]; try discriminate H
                 | H : False |- _ => destruct H
                 end.
          injection Hunban as <-. exists caller, s1, a'.
          split; reflexivity.
        * exfalso. injection Hc' as _ _ Hc'. destruct done; discriminate Hc'.
      + exfalso. cbn [all_done map app In] in Hunban.
        unfold caller_lookup, bot_lookup in Hunban.
        repeat match goal with
               | H : _ \/ _ |- _ => destruct H as [H|H]; try discriminate H
               | H : False |- _ => destruct H
               end.
      + exfalso. cbn [all_done map app In] in Hunban.
        unfold caller_lookup, bot_lookup in Hunban.
        repeat match goal with
               | H : _ \/ _ |- _ => destruct H as [H|H]; try discriminate H
               | H : False |- _ => destruct H
               end.
    - rewrite (reply_run Hm), logged_logged. cbn [snd log logged app].
      intro Hlog. apply app_inv_head in Hlog. subst evs. exfalso.
      unfold caller_lookup, bot_lookup in Hunban. cbn [In] in Hunban.
      repeat match goal with
             | H : _ \/ _ |- _ => destruct H as [H|H]; try discriminate H
             | H : False |- _ => destruct H
             end.
    - rewrite (reply_run Hm), logged_logged. cbn [snd log logged app].
      intro Hlog. apply app_inv_head in Hlog. subst evs. exfalso.
      unfold caller_lookup, bot_lookup in Hunban. cbn [In] in Hunban.
      repeat match goal with
             | H : _ \/ _ |- _ => destruct H as [H|H]; try discriminate H
             | H : False |- _ => destruct H
             end. }
  split; [exact Hshape|].
  destruct Hshape as (caller & s1 & a & _ & ->). ban_list.
Qed.

(** ** One answer per update *)

(** Find the accepted reply of [H : l = pre ++ (ReplyText _ _ _, Done) :: post]
    in the explicit list [l]. *)
Ltac scan_reply H :=
  match type of H with
  | [] = ?pre ++ _ :: _ => exfalso; destruct pre; discriminate H
  | _ :: _ = ?pre ++ _ :: _ =>
      let p := fresh "p" in
      let Hp := fresh "Hp" in
      destruct pre as [|p pre]; cbn [app] in H;
      [ first [ discriminate H | injection H; intros; subst; reflexivity ]
      | injection H as Hp H; subst p; scan_reply H ]
  end.

Ltac check_last :=
  first [ eexists; split; [reflexivity|]
        | exists []; split; [apply logged_nothing|] ];
  split;
  [ let H := fresh "Hsplit" in
    intros ? ? ? ? ? H; unfold caller_lookup, bot_lookup in H;
    scan_reply H
  | unfold at_most_six; cbn [List.length]; lia ].

Lemma nothing_accepted : accepted_reply_is_last [].
Proof. intros pre c t pm post H. destruct pre; discriminate H. Qed.

Lemma silent_stops_at_accepted_reply (h : bot unit) :
  (forall pf w, log (snd (h pf w)) = log w) -> stops_at_accepted_reply h.
Proof.
  intros H pf w. exists []. rewrite H.
  split; [apply logged_nothing|].
  split; [apply nothing_accepted | unfold at_most_six; simpl; lia].
Qed.

Lemma gate_stops_at_accepted_reply (g : gated) (clock : Clock) (u : Update)
    (ctx : Context) :
  stops_at_accepted_reply (gated_handler g clock u ctx).
Proof.
  intros pf w. rewrite gated_handler_gate.
  destruct (effective_user u) as [caller|] eqn:Hc.
  2:{ rewrite (gate_without_caller Hc). exists [].
      split; [apply logged_nothing|].
      split; [apply nothing_accepted | unfold at_most_six; simpl; lia]. }
  rewrite (gate_run Hc). unfold lookup_answer.
  destruct (message u) as [m|] eqn:Hm;
    (destruct (fault pf (log w) (GetChatMember _ (User.id _))) as [m1|] eqn:F1;
     cbn [admits_caller];
     [ explicit_log; check_last
     | destruct (status_in_admin_or_creator _) eqn:S1;
       [ destruct (fault pf (log w ++ _) (GetChatMember _ (bot_id pf)))
           as [m2|] eqn:F2;
         cbn [admits_bot];
         [ explicit_log; check_last
         | destruct (String.eqb _ "administrator") eqn:S2;
           [ destruct g; unfold_actions; unfold raise, ret; split_faults;
             explicit_log; check_last
           | explicit_log; check_last ] ]
       | explicit_log; check_last ] ]).
Qed.

Lemma start_stops_at_accepted_reply (u : Update) (ctx : Context) :
  stops_at_accepted_reply (start_command u ctx).
Proof.
  intros pf w. unfold start_command.
  destruct (message u) as [m|] eqn:Hm; explicit_log; check_last.
Qed.

Lemma help_stops_at_accepted_reply (u : Update) (ctx : Context) :
  stops_at_accepted_reply (help_command u ctx).
Proof.
  intros pf w. unfold help_command.
  destruct (message u) as [m|] eqn:Hm; explicit_log; check_last.
Qed.

Lemma track_stops_at_accepted_reply (clock : Clock) (u : Update) (ctx : Context) :
  stops_at_accepted_reply (track_activity clock u ctx).
Proof. apply silent_stops_at_accepted_reply, track_activity_log. Qed.

Lemma stats_stops_at_accepted_reply (clock : Clock) (u : Update) (ctx : Context) :
  stops_at_accepted_reply (stats_command clock u ctx).
Proof.
  intros pf w. unfold stats_command.
  destruct (message u) as [m|] eqn:Hm;
    (destruct (String.eqb _ _); [explicit_log; check_last|]);
    unfold try_except, bind, get_chat_member_count, get_chat_administrators,
      query;
    rewrite perform_run;
    (destruct (fault pf (log w) (GetChatMemberCount _)) as [m1|] eqn:F1;
     [explicit_log; check_last|]);
    rewrite perform_run;
    (destruct (fault pf (log (logged w _)) (GetChatAdministrators _))
       as [m1|] eqn:F2;
     [explicit_log; check_last|]);
    unfold select_today_messages, select_active_users, no_such_table;
    repeat change (db (logged ?a ?b)) with (db a);
    (destruct (group_stats (db w)) as [gs|]; [|explicit_log; check_last]);
    cbv beta iota; repeat change (db (logged ?a ?b)) with (db a);
    (destruct (user_activity (db w)) as [ua|]; [|explicit_log; check_last]);
    run_replies; unfold command_answer; split_faults; cbn [outcome_of];
    explicit_log; check_last.
Qed.

Lemma deliver_stops_at_accepted_reply (pf : Platform) (w : World)
    (x : Delivery) :
  exists evs,
    log (deliver pf w x) = log w ++ evs
    /\ accepted_reply_is_last evs /\ at_most_six evs.
Proof.
  unfold deliver.
  destruct (dispatch_cases (d_command x))
    as [[g Hg] | [H | [H | [H | [_ H]]]]]; rewrite ?Hg, ?H.
  - apply (gate_stops_at_accepted_reply g).
  - apply (start_stops_at_accepted_reply (d_update x) (d_context x)).
  - apply (stats_stops_at_accepted_reply (d_clock x) (d_update x) (d_context x)).
  - apply (help_stops_at_accepted_reply (d_update x) (d_context x)).
  - apply track_stops_at_accepted_reply.
Qed.

(** X18. Whatever update is delivered, a reply that the platform accepted
    is the last call of the invocation: nothing is called after it, so the
    chat gets at most one text per update, and a second reply is attempted
    only after a first one raised. *)
Theorem accepted_reply_ends_the_invocation
    (pf : Platform) (w : World) (x : Delivery) :
  exists evs,
    log (deliver pf w x) = log w ++ evs /\ accepted_reply_is_last evs.
Proof.
  destruct (deliver_stops_at_accepted_reply pf w x) as (evs & Hlog & Hlast & _).
  exists evs. split; assumption.
Qed.

(** X21. No handler loops or retries: whatever update is delivered and
    whatever the platform answers, the invocation makes at most six calls
    (the two lookups, at most two calls that change the chat, at most two
    replies). *)
Theorem at_most_six_calls_per_update
    (pf : Platform) (w : World) (x : Delivery) :
  exists evs,
    log (deliver pf w x) = log w ++ evs /\ (List.length evs <= 6)%nat.
Proof.
  destruct (deliver_stops_at_accepted_reply pf w x) as (evs & Hlog & _ & Hsix).
  exists evs. split; assumption.
Qed.

(** ** What [stats_command] shows *)

Lemma messages_today_coalesce (g : Z) (d : string) (t : GroupStats.table) (b : Z) :
  messages_today g d t = SqlInt b ->
  coalesce (GroupStats.select_messages_count g d t) (SqlInt 0) = SqlInt b.
Proof.
  unfold messages_today, GroupStats.fetchone_messages_count,
    GroupStats.select_messages_count.
  destruct (find (GroupStats.matches g d) t) as [r|]; cbn [option_map].
  - intros ->. reflexivity.
  - intro H. exact H.
Qed.

Lemma messages_today_after_one (x : Delivery) (group : Z) (day : string) (b : Z)
    (tabs : GroupStats.table * UserActivity.table) :
  messages_today group day (fst tabs) = SqlInt b ->
  b + (if in_group_on group day x then 1 else 0) <= max_int64 ->
  messages_today group day (fst (rows_after_one x tabs))
  = SqlInt (b + (if in_group_on group day x then 1 else 0)).
Proof.
  intros Hb Hr. unfold rows_after_one, in_group_on, has_sender in *.
  destruct (sender x) as [s|];
    [|rewrite andb_false_r; cbn [andb]; rewrite Z.add_0_r; exact Hb].
  destruct (tracked x); cbn [andb fst] in *; [|rewrite Z.add_0_r; exact Hb].
  destruct (chat_of x =? group) eqn:Eg;
    [destruct (String.eqb (day_of x) day) eqn:Ed|]; cbn [andb] in *.
  - apply Z.eqb_eq in Eg. apply String.eqb_eq in Ed. subst group day.
    unfold messages_today, GroupStats.fetchone_messages_count.
    rewrite gs_find_upsert_same. cbn [option_map GroupStats.messages_count].
    rewrite (messages_today_coalesce _ _ _ _ Hb), plus_one_int by lia.
    reflexivity.
  - rewrite Z.add_0_r.
    unfold messages_today, GroupStats.fetchone_messages_count in *.
    rewrite gs_find_upsert_other; [exact Hb|].
    apply String.eqb_neq in Ed. congruence.
  - rewrite Z.add_0_r.
    unfold messages_today, GroupStats.fetchone_messages_count in *.
    rewrite gs_find_upsert_other; [exact Hb|].
    apply Z.eqb_neq in Eg. congruence.
Qed.

Lemma messages_today_after (group : Z) (day : string) (xs : list Delivery) :
  forall b tabs,
    messages_today group day (fst tabs) = SqlInt b ->
    b + how_many (in_group_on group day) xs <= max_int64 ->
    messages_today group day (fst (rows_after xs tabs))
    = SqlInt (b + how_many (in_group_on group day) xs).
Proof.
  induction xs as [|x xs IH]; intros b tabs Hb Hr.
  - unfold how_many. simpl. rewrite Z.add_0_r. exact Hb.
  - rewrite how_many_cons in *. unfold rows_after. cbn [fold_left].
    pose proof (how_many_nonneg (in_group_on group day) xs) as Hpos.
    fold (rows_after xs (rows_after_one x tabs)).
    rewrite (IH (b + (if in_group_on group day x then 1 else 0))); [f_equal; lia| |lia].
    apply messages_today_after_one; [exact Hb | lia].
Qed.

(** The statistics text, when [stats_command] sends it. *)
Lemma stats_reply_text (clock : Clock) (u : Update) (ctx : Context)
    (pf : Platform) (w : World) (gs : GroupStats.table)
    (ua : UserActivity.table) :
  group_stats (db w) = Some gs -> user_activity (db w) = Some ua ->
  String.eqb (Chat.type (effective_chat u)) "private" = false ->
  let chat := Chat.id (effective_chat u) in
  let day := strftime_Ymd (clock 0%nat) in
  exists evs,
    log (snd (stats_command clock u ctx pf w)) = log w ++ evs
    /\ forall text a,
         In (ReplyText chat text (Some "Markdown"%string), a) evs ->
         exists members admins,
           text = stats_text (Chat.title (effective_chat u)) members admins
                    (UserActivity.count_active chat day ua)
                    (messages_today chat day gs)
                    (strftime_YmdHMS (clock 1%nat)).
Proof.
  intros Hg Hu Hgroup chat day. unfold stats_command. rewrite Hgroup.
  fold chat day.
  unfold try_except, bind, get_chat_member_count, get_chat_administrators, query.
  rewrite perform_run.
  destruct (message u) as [m0|] eqn:Hm;
    (destruct (fault pf (log w) (GetChatMemberCount chat)) as [m|] eqn:F1;
     [ explicit_log; (eexists; split; [reflexivity|]); intros text a Hin;
       cbn [In] in Hin;
       repeat match goal with
              | H : _ \/ _ |- _ => destruct H as [H|H]; try discriminate H
              | H : False |- _ => destruct H
              end
     | rewrite perform_run;
       destruct (fault pf (log (logged w _)) (GetChatAdministrators chat))
         as [m|] eqn:F2;
       [ explicit_log; (eexists; split; [reflexivity|]); intros text a Hin;
         cbn [In] in Hin;
         repeat match goal with
                | H : _ \/ _ |- _ => destruct H as [H|H]; try discriminate H
                | H : False |- _ => destruct H
                end
       | unfold select_today_messages, select_active_users;
         cbn [db logged snd]; rewrite Hg; cbv beta iota;
         cbn [db logged snd]; rewrite Hu; cbv beta iota;
         unfold no_such_table;
         fold (messages_today chat day gs);
         run_replies; fold chat; unfold command_answer;
         split_faults; cbn [outcome_of];
         explicit_log; (eexists; split; [reflexivity|]); intros text a Hin;
         cbn [In] in Hin;
         repeat match goal with
                | H : _ \/ _ |- _ => destruct H as [H|H]; try discriminate H
                | H : False |- _ => destruct H
                end;
         injection Hin as <- _; eexists; eexists; reflexivity ] ]).
Qed.

(** X19. [/stats] reads back what [track_activity] wrote: after any
    handled updates, whenever [stats_command] in a group sends its
    statistics, the number after 'Messages Today' is the number it would
    have shown before plus the number of messages with a sender handled in
    that group on that day, and the number of active users is the COUNT
    over the table the updates left. *)
Theorem stats_shows_the_messages_tracked_today
    (pf : Platform) (w : World) (gs : GroupStats.table)
    (ua : UserActivity.table) (xs : list Delivery)
    (clock : Clock) (u : Update) (ctx : Context) (b : Z)
    (Hgs : group_stats (db w) = Some gs)
    (Hua : user_activity (db w) = Some ua)
    (Hgroup : String.eqb (Chat.type (effective_chat u)) "private" = false)
    (Hstart : messages_today (Chat.id (effective_chat u))
                (strftime_Ymd (clock 0%nat)) gs = SqlInt b)
    (Hrange : b + how_many (in_group_on (Chat.id (effective_chat u))
                              (strftime_Ymd (clock 0%nat))) xs
              <= max_int64) :
  let chat := Chat.id (effective_chat u) in
  let day := strftime_Ymd (clock 0%nat) in
  exists gs' ua' evs,
    tracks_to xs pf w
      {| log := log w;
         db := {| group_stats := Some gs'; user_activity := Some ua' |} |}
    /\ log (snd (stats_command clock u ctx pf
                   {| log := log w;
                      db := {| group_stats := Some gs';
                               user_activity := Some ua' |} |}))
       = log w ++ evs
    /\ forall text a,
         In (ReplyText chat text (Some "Markdown"%string), a) evs ->
         exists members admins,
           text = stats_text (Chat.title (effective_chat u)) members admins
                    (UserActivity.count_active chat day ua')
                    (SqlInt (b + how_many (in_group_on chat day) xs))
                    (strftime_YmdHMS (clock 1%nat)).
Proof.
  intros chat day.
  eexists. eexists.
  destruct (stats_reply_text clock u ctx pf
              {| log := log w;
                 db := {| group_stats := Some (fst (rows_after xs (gs, ua)));
                          user_activity := Some (snd (rows_after xs (gs, ua))) |} |}
              _ _ eq_refl eq_refl Hgroup) as (evs & Hlog & Htext).
  exists evs. split; [apply (tracks_to_rows xs pf w gs ua Hgs Hua)|].
  split; [exact Hlog|].
  intros text a Hin. destruct (Htext text a Hin) as (members & admins & ->).
  exists members, admins. fold chat day.
  rewrite (messages_today_after chat day xs b (gs, ua) Hstart Hrange).
  reflexivity.
Qed.

(** ** Totals of a group *)

Section Sums.

Variables (R K : Type) (key : R -> K) (hit : K -> R -> bool).
Hypothesis hit_spec : forall k r, hit k r = true <-> key r = k.
Variables (P : R -> bool) (cnt : R -> sqlval).
Hypothesis P_of_key : forall r r', key r = key r' -> P r = P r'.

Lemma sum_where_cons (r : R) (t : list R) :
  sum_where P cnt (r :: t) = part P cnt r + sum_where P cnt t.
Proof.
  unfold sum_where, part. cbn [filter]. destruct (P r); reflexivity.
Qed.

Lemma sum_where_app (t t' : list R) :
  sum_where P cnt (t ++ t') = sum_where P cnt t + sum_where P cnt t'.
Proof.
  induction t as [|r t IH]; [reflexivity|].
  cbn [app]. rewrite !sum_where_cons, IH. lia.
Qed.

Lemma filter_no_key (k : K) (t : list R) :
  ~ In k (map key t) -> filter (fun r => negb (hit k r)) t = t.
Proof.
  induction t as [|r t IH]; intro Hno; [reflexivity|].
  cbn [filter]. rewrite (hit_other _ _ _ _ hit_spec).
  - cbn [negb]. rewrite IH; [reflexivity|].
    intro Hin. apply Hno. right. exact Hin.
  - intro Hk. apply Hno. left. exact Hk.
Qed.

Lemma sum_where_filter_out (k : K) (t : list R) :
  unique key t ->
  sum_where P cnt (filter (fun r => negb (hit k r)) t)
  = sum_where P cnt t
    - match find (hit k) t with
      | Some r => part P cnt r
      | None => 0
      end.
Proof.
  unfold unique. induction t as [|r t IH]; intro Hu; [reflexivity|].
  inversion Hu as [|? ? Hnotin Hrest]; subst.
  cbn [filter find]. destruct (hit k r) eqn:E; cbn [negb].
  - apply hit_spec in E. subst k.
    rewrite (filter_no_key _ _ Hnotin), sum_where_cons. lia.
  - rewrite !sum_where_cons, (IH Hrest). lia.
Qed.

Lemma sum_where_replace (new : R) (t : list R) :
  unique key t ->
  sum_where P cnt (replace key hit new t)
  = sum_where P cnt t
    - match find (hit (key new)) t with
      | Some r => part P cnt r
      | None => 0
      end
    + part P cnt new.
Proof.
  intro Hu. unfold replace.
  rewrite sum_where_app, (sum_where_filter_out _ _ Hu), sum_where_cons.
  unfold sum_where at 2. simpl. lia.
Qed.

Lemma part_nonneg (r : R) (t : list R) :
  counts_from_zero P cnt t -> In r t -> 0 <= part P cnt r.
Proof.
  intros Hc Hin. unfold part. destruct (P r) eqn:E; [|lia].
  destruct (Hc r Hin E) as (z & -> & Hz). exact Hz.
Qed.

Lemma counts_from_zero_tail (r : R) (t : list R) :
  counts_from_zero P cnt (r :: t) -> counts_from_zero P cnt t.
Proof. intros Hc r' Hr'. apply Hc. right. exact Hr'. Qed.

Lemma sum_where_nonneg (t : list R) :
  counts_from_zero P cnt t -> 0 <= sum_where P cnt t.
Proof.
  induction t as [|r t IH]; intro Hc; [unfold sum_where; simpl; lia|].
  rewrite sum_where_cons.
  pose proof (IH (counts_from_zero_tail _ _ Hc)).
  pose proof (part_nonneg r _ Hc (or_introl eq_refl)). lia.
Qed.

Lemma part_le_sum (r : R) (t : list R) :
  counts_from_zero P cnt t -> In r t -> part P cnt r <= sum_where P cnt t.
Proof.
  induction t as [|x t IH]; intros Hc Hin; [contradiction|].
  rewrite sum_where_cons.
  pose proof (counts_from_zero_tail _ _ Hc) as Hrest.
  pose proof (sum_where_nonneg _ Hrest).
  pose proof (part_nonneg x _ Hc (or_introl eq_refl)).
  destruct Hin as [->|Hin]; [lia|].
  specialize (IH Hrest Hin). lia.
Qed.

Lemma counts_from_zero_replace (new : R) (t : list R) :
  counts_from_zero P cnt t ->
  (P new = true -> exists z, cnt new = SqlInt z /\ 0 <= z) ->
  counts_from_zero P cnt (replace key hit new t).
Proof.
  intros Hc Hnew r Hr HP. apply (in_replace hit_spec _ _ _) in Hr.
  destruct Hr as [[Hr _]| ->]; [apply Hc; assumption | apply Hnew, HP].
Qed.

(** An INSERT OR REPLACE whose new counter is one more than the counter
    found under its key adds one to the total when the row is selected,
    and nothing otherwise. *)
Lemma sum_where_bump (new : R) (t : list R) :
  unique key t ->
  counts_from_zero P cnt t ->
  cnt new
  = plus_one (coalesce match find (hit (key new)) t with
                       | Some r => cnt r
                       | None => SqlNull
                       end (SqlInt 0)) ->
  sum_where P cnt t + (if P new then 1 else 0) <= max_int64 ->
  counts_from_zero P cnt (replace key hit new t)
  /\ sum_where P cnt (replace key hit new t)
     = sum_where P cnt t + (if P new then 1 else 0).
Proof.
  intros Hu Hc Hnew Hr.
  pose proof (sum_where_nonneg _ Hc) as H0.
  rewrite (sum_where_replace _ _ Hu).
  destruct (find (hit (key new)) t) as [r|] eqn:E.
  - apply find_some in E. destruct E as [Hin Hhit].
    apply hit_spec in Hhit. pose proof (P_of_key _ _ Hhit) as HP.
    destruct (P new) eqn:EP.
    + destruct (Hc r Hin HP) as (z & Hz & Hz0).
      pose proof (part_le_sum r t Hc Hin) as Hle.
      unfold part in Hle |- *. rewrite HP in Hle |- *. rewrite EP.
      rewrite Hz in Hnew, Hle |- *. cbn [coalesce counted numeric] in *.
      rewrite plus_one_int in Hnew by lia.
      split.
      * apply counts_from_zero_replace; [exact Hc|].
        intros _. exists (z + 1). split; [exact Hnew | lia].
      * rewrite Hnew. cbn [counted numeric]. lia.
    + unfold part. rewrite HP, EP. split; [|lia].
      apply counts_from_zero_replace; [exact Hc | congruence].
  - destruct (P new) eqn:EP.
    + cbn [coalesce] in Hnew. rewrite plus_one_int in Hnew by lia.
      unfold part. rewrite EP, Hnew. cbn [counted numeric].
      split; [|lia].
      apply counts_from_zero_replace; [exact Hc|].
      intros _. exists 1. split; [exact Hnew | lia].
    + unfold part. rewrite EP. split; [|lia].
      apply counts_from_zero_replace; [exact Hc | congruence].
Qed.

End Sums.

Arguments sum_where_bump {R K key hit} hit_spec P cnt P_of_key new t _ _ _ _.

Lemma ua_of_key (g : Z) (r r' : UserActivity.row) :
  UserActivity.key r = UserActivity.key r' -> ua_of g r = ua_of g r'.
Proof.
  unfold UserActivity.key, ua_of. intro H. injection H as _ ->. reflexivity.
Qed.

Lemma gs_of_key (g : Z) (r r' : GroupStats.row) :
  GroupStats.key r = GroupStats.key r' -> gs_of g r = gs_of g r'.
Proof.
  unfold GroupStats.key, gs_of. intro H. injection H as -> _. reflexivity.
Qed.

(** One call of [track_activity] adds one to both totals of the group of
    the message, and nothing to the totals of another group. *)
Lemma group_consistent_after_one (x : Delivery) (group : Z)
    (tabs : GroupStats.table * UserActivity.table) (total : Z) :
  group_consistent group tabs total ->
  total + (if in_group group x then 1 else 0) <= max_int64 ->
  group_consistent group (rows_after_one x tabs)
    (total + (if in_group group x then 1 else 0)).
Proof.
  intros (Hug & Huu & Hcg & Hcu & Hg & Hu) Hr.
  unfold rows_after_one, in_group, has_sender in *. destruct tabs as [gs ua].
  cbn [fst snd] in *.
  destruct (sender x) as [s|].
  2:{ rewrite andb_false_r. cbn [andb]. rewrite Z.add_0_r.
      unfold group_consistent. cbn [fst snd]. tauto. }
  destruct (tracked x); cbn [andb] in *.
  2:{ rewrite Z.add_0_r. unfold group_consistent. cbn [fst snd]. tauto. }
  unfold total_of_days, total_of_users in *.
  destruct (sum_where_bump group_stats_hit_spec (gs_of group)
              GroupStats.messages_count (gs_of_key group)
              {| GroupStats.group_id := chat_of x;
                 GroupStats.date := day_of x;
                 GroupStats.member_count :=
                   GroupStats.select_coalesce_member_count
                     (chat_of x) (day_of x) gs;
                 GroupStats.messages_count :=
                   plus_one (coalesce (GroupStats.select_messages_count
                                         (chat_of x) (day_of x) gs)
                                      (SqlInt 0)) |}
              gs Hug Hcg eq_refl) as [Hcg' Hg'].
  { rewrite Hg. exact Hr. }
  destruct (sum_where_bump user_activity_hit_spec (ua_of group)
              UserActivity.message_count (ua_of_key group)
              {| UserActivity.user_id := User.id s;
                 UserActivity.group_id := chat_of x;
                 UserActivity.username := User.username s;
                 UserActivity.first_name := User.first_name s;
                 UserActivity.last_message := day_of x;
                 UserActivity.message_count :=
                   plus_one (coalesce (UserActivity.select_message_count
                                         (User.id s) (chat_of x) ua)
                                      (SqlInt 0)) |}
              ua Huu Hcu eq_refl) as [Hcu' Hu'].
  { rewrite Hu. exact Hr. }
  unfold group_consistent. cbn [fst snd].
  split; [apply gs_upsert_unique, Hug|].
  split; [apply ua_upsert_unique, Huu|].
  split; [exact Hcg'|]. split; [exact Hcu'|].
  split; [rewrite <- Hg; exact Hg' | rewrite <- Hu; exact Hu'].
Qed.

Lemma group_consistent_after (xs : list Delivery) (group : Z) :
  forall (tabs : GroupStats.table * UserActivity.table) (total : Z),
    group_consistent group tabs total ->
    total + how_many (in_group group) xs <= max_int64 ->
    group_consistent group (rows_after xs tabs)
      (total + how_many (in_group group) xs).
Proof.
  induction xs as [|x xs IH]; intros tabs total Hc Hr.
  - unfold how_many. simpl. rewrite Z.add_0_r. exact Hc.
  - rewrite how_many_cons in *.
    pose proof (how_many_nonneg (in_group group) xs) as Hn.
    unfold rows_after. cbn [fold_left]. fold (rows_after xs (rows_after_one x tabs)).
    rewrite Z.add_assoc. apply IH; [|lia].
    apply group_consistent_after_one; [exact Hc | lia].
Qed.

Lemma group_consistent_empty (group : Z) :
  group_consistent group ([], []) 0.
Proof.
  unfold group_consistent, unique. cbn [fst snd map].
  repeat split; try constructor; intros r [].
Qed.

(** X20. In every group the per-user counters and the per-day counters add
    up to the same number: starting from tables that agree on a group with
    total [total], after [track_activity] has handled the updates [xs] both
    the sum of [user_activity.message_count] and the sum of
    [group_stats.messages_count] over the rows of the group are [total] plus
    the number of messages of [xs] in that (non-private) chat, as long as
    that number fits a 64-bit integer. *)
Theorem group_totals_agree (pf : Platform) (w : World) (xs : list Delivery)
    (group total : Z) (gs : GroupStats.table) (ua : UserActivity.table) :
  group_stats (db w) = Some gs ->
  user_activity (db w) = Some ua ->
  group_consistent group (gs, ua) total ->
  total + how_many (in_group group) xs <= max_int64 ->
  exists gs' ua',
    tracks_to xs pf w
      {| log := log w;
         db := {| group_stats := Some gs'; user_activity := Some ua' |} |}
    /\ total_of_users group ua' = total + how_many (in_group group) xs
    /\ total_of_days group gs' = total + how_many (in_group group) xs.
Proof.
  intros Hg Hu Hc Hr.
  exists (fst (rows_after xs (gs, ua))), (snd (rows_after xs (gs, ua))).
  split; [apply tracks_to_rows; assumption|].
  destruct (group_consistent_after xs group (gs, ua) total Hc Hr)
    as (_ & _ & _ & _ & Hd' & Hu').
  split; assumption.
Qed.

(* ===================================================================== *)
(** * Further concrete runs *)
(* ===================================================================== *)

(** Every update of a list written out has a sender. *)
Ltac all_have_sender :=
  let x := fresh "x" in
  let Hx := fresh "Hx" in
  intros x Hx _; repeat (destruct Hx as [<-|Hx]; [reflexivity|]); destruct Hx.

Lemma user_counter_counts_own_messages_witness :
  exists gs' ua',
    track_each Example.five_messages Example.all_members Example.fresh
    = (Returned tt,
       {| log := log Example.fresh;
          db := {| group_stats := Some gs'; user_activity := Some ua' |} |})
    /\ coalesce (UserActivity.select_message_count 7 (-1001) ua') (SqlInt 0)
       = SqlInt 2.
Proof.
  destruct (user_counter_counts_own_messages Example.all_members
              Example.fresh [] [] 7 (-1001) 0 Example.five_messages
              eq_refl eq_refl eq_refl ltac:(vm_compute; discriminate))
    as (gs' & ua' & [_ Hrun] & Hcount).
  exists gs', ua'. split; [apply Hrun; all_have_sender | exact Hcount].
Defined.

Lemma group_counter_counts_messages_of_the_day_witness :
  exists gs' ua',
    track_all Example.all_members Example.fresh Example.six_updates
    = {| log := log Example.fresh;
         db := {| group_stats := Some gs'; user_activity := Some ua' |} |}
    /\ coalesce (GroupStats.select_messages_count (-1001) "2023-11-14" gs')
                (SqlInt 0)
       = SqlInt 3
    /\ fst (track_each Example.six_updates Example.all_members Example.fresh)
       = Raises (none_has_no "id").
Proof.
  destruct (group_counter_counts_messages_of_the_day Example.all_members
              Example.fresh [] [] (-1001) "2023-11-14" 0 Example.six_updates
              eq_refl eq_refl eq_refl ltac:(vm_compute; discriminate))
    as (gs' & ua' & [Hall _] & Hcount).
  exists gs', ua'. split; [exact Hall|]. split; [exact Hcount | reflexivity].
Defined.

Lemma track_activity_leaves_other_rows_witness :
  (exists gs' ua',
      track_activity Example.clock
        (Example.plain Example.bob Example.group_chat)
        Example.no_args Example.all_members Example.after_two
      = (Returned tt,
         {| log := log Example.after_two;
            db := {| group_stats := Some gs'; user_activity := Some ua' |} |})
      /\ UserActivity.select_message_count 7 (-1001) ua' = SqlInt 2)
  /\ track_activity Example.clock (d_update Example.channel_post)
       Example.no_args Example.all_members Example.after_two
     = (Raises (none_has_no "id"), Example.after_two).
Proof.
  split.
  - destruct (track_activity_leaves_other_rows Example.all_members
                Example.after_two
                (Example.message_of Example.bob Example.group_chat)
                _ _ eq_refl eq_refl)
      as (gs' & ua' & Hrun & _ & Hfind & _ & _ & Hret & _).
    exists gs', ua'. split.
    + cbv zeta in Hrun, Hret. apply injective_projections.
      * apply Hret. right. reflexivity.
      * exact Hrun.
    + unfold UserActivity.select_message_count.
      rewrite (Hfind 7 (-1001)) by (left; discriminate). reflexivity.
  - destruct (track_activity_leaves_other_rows Example.all_members
                Example.after_two Example.channel_post
                _ _ eq_refl eq_refl)
      as (gs' & ua' & Hrun & _ & _ & _ & _ & _ & Hraise).
    destruct (Hraise eq_refl eq_refl) as (Hfst & -> & ->).
    apply injective_projections; [exact Hfst | exact Hrun].
Defined.

Lemma track_activity_then_lookup_witness :
  exists gs' ua',
    track_activity Example.clock (Example.plain Example.bob Example.group_chat)
      Example.no_args Example.all_members Example.after_two
    = (Returned tt,
       {| log := log Example.after_two;
          db := {| group_stats := Some gs'; user_activity := Some ua' |} |})
    /\ find (UserActivity.matches 8 (-1001)) ua'
       = Some {| UserActivity.user_id := 8;
                 UserActivity.group_id := -1001;
                 UserActivity.username := None;
                 UserActivity.first_name := "Bob";
                 UserActivity.last_message := "2023-11-14";
                 UserActivity.message_count := SqlInt 1 |}.
Proof.
  destruct (track_activity_then_lookup Example.all_members Example.after_two
              (Example.message_of Example.bob Example.group_chat) Example.bob
              _ _ eq_refl eq_refl eq_refl eq_refl)
    as (gs' & ua' & Hrun & Hfind & _).
  exists gs', ua'. split; [exact Hrun | exact Hfind].
Defined.

Lemma track_activity_member_count_after_first_witness :
  exists gs' ua' r',
    track_activity Example.clock (Example.plain Example.ann Example.group_chat)
      Example.no_args Example.all_members
      (deliver Example.all_members Example.fresh Example.a_message)
    = (Returned tt,
       {| log := [];
          db := {| group_stats := Some gs'; user_activity := Some ua' |} |})
    /\ find (GroupStats.matches (-1001) "2023-11-14") gs' = Some r'
    /\ GroupStats.member_count r' = SqlInt 0.
Proof.
  destruct (track_activity_member_count_after_first Example.all_members
              (deliver Example.all_members Example.fresh Example.a_message)
              (Example.message_of Example.ann Example.group_chat) Example.ann
              _ _ _ eq_refl eq_refl eq_refl eq_refl eq_refl)
    as (gs' & ua' & r' & Hrun & Hfind & _ & Hnull & _).
  exists gs', ua', r'. split; [exact Hrun|].
  split; [exact Hfind | apply Hnull; reflexivity].
Defined.

Lemma active_users_are_distinct_senders_witness :
  exists gs' ua',
    track_all Example.all_members Example.fresh Example.six_updates
    = {| log := log Example.fresh;
         db := {| group_stats := Some gs'; user_activity := Some ua' |} |}
    /\ UserActivity.count_active (-1001) "2023-11-14" ua' = 2%nat.
Proof.
  destruct (active_users_are_distinct_senders Example.all_members
              Example.fresh [] [] (-1001) "2023-11-14" Example.six_updates
              eq_refl eq_refl
              ltac:(constructor)
              ltac:(intros r [])
              ltac:(intros x Hx _;
                    repeat (destruct Hx as [<-|Hx]; [reflexivity|]);
                    destruct Hx))
    as (gs' & ua' & [Hall _] & Hcount).
  exists gs', ua'. split; [exact Hall | exact Hcount].
Defined.

Lemma registered_commands_are_not_counted_witness :
  deliver Example.ann_creator_bot_admin Example.after_two Example.stats_by_ann
  = snd (stats_command Example.clock
           (Example.plain Example.ann Example.group_chat) Example.no_args
           Example.ann_creator_bot_admin Example.after_two)
  /\ db (deliver Example.ann_creator_bot_admin Example.after_two
           Example.stats_by_ann)
     = db Example.after_two.
Proof.
  exact (proj2 (registered_commands_are_not_counted
                  Example.ann_creator_bot_admin Example.after_two
                  Example.stats_by_ann "stats" stats_command eq_refl
                  ltac:(right; left; reflexivity))).
Defined.

Lemma other_updates_are_tracked_witness :
  deliver Example.all_members Example.after_two Example.unknown_by_ann
  = snd (track_activity Example.clock
           (Example.plain Example.ann Example.group_chat) Example.no_args
           Example.all_members Example.after_two).
Proof.
  exact (proj1 (other_updates_are_tracked Example.all_members
                  Example.after_two Example.unknown_by_ann _ _
                  ltac:(intros name H; injection H as <-; simpl;
                        intuition discriminate)
                  eq_refl eq_refl eq_refl)).
Defined.

Lemma success_text_only_after_the_calls_witness :
  exists evs,
    log (snd (gated_handler Mute Example.clock Example.in_reply_to_bob
                Example.no_args Example.ann_creator_bot_admin Example.fresh))
    = log Example.fresh ++ evs
    /\ nth_error evs 2
       = Some (RestrictChatMember (-1001) 8 mute_permissions
                 (Some 1700003600), Done).
Proof.
  destruct (success_text_only_after_the_calls Mute
              Example.ann_creator_bot_admin Example.fresh Example.clock
              Example.in_reply_to_bob Example.no_args _ _ eq_refl)
    as (evs & Hlog & Hpos).
  exists evs. split; [exact Hlog|].
  destruct (Hpos Done) as (caller & s1 & post & _ & _ & Hevs & _).
  - vm_compute in Hlog. subst evs. do 3 right. left. reflexivity.
  - rewrite Hevs. reflexivity.
Defined.

Lemma failure_text_after_a_failed_success_reply_witness :
  exists evs,
    log (snd (gated_handler Lock Example.clock Example.in_reply_to_bob
                Example.no_args Example.replies_fail Example.fresh))
    = log Example.fresh ++ evs
    /\ nth_error evs 2
       = Some (SetChatPermissions (-1001) lock_permissions, Done)
    /\ exists a,
         nth_error evs 4
         = Some (ReplyText (-1001)
                   ("❌ Failed to lock group: " +++
                    "Forbidden: bot was kicked from the supergroup chat")
                   None, a).
Proof.
  destruct (failure_text_after_a_failed_success_reply Lock
              Example.replies_fail Example.fresh Example.clock
              Example.in_reply_to_bob Example.no_args _ _ eq_refl)
    as (evs & Hlog & Hpos).
  exists evs. split; [exact Hlog|].
  destruct (Hpos "Forbidden: bot was kicked from the supergroup chat"%string)
    as (caller & s1 & a' & _ & Hevs).
  - vm_compute in Hlog. subst evs. do 3 right. left. reflexivity.
  - rewrite Hevs. split; [reflexivity|]. exists a'. reflexivity.
Defined.

Lemma no_replied_user_no_action_witness :
  (exists evs,
      log (snd (gated_handler Mute Example.clock
                  (Example.plain Example.ann Example.group_chat)
                  Example.mention_bob Example.ann_creator_bot_admin
                  Example.fresh))
      = log Example.fresh ++ evs
      /\ (forall e, In e evs -> privileged (fst e) = false)
      /\ exists pre text a, evs = pre ++ [(ReplyText (-1001) text None, a)])
  /\ (exists evs,
        log (snd (gated_handler Mute Example.clock Example.edited_by_ann
                    Example.mention_bob Example.ann_creator_bot_admin
                    Example.fresh))
        = log Example.fresh ++ evs
        /\ (forall e, In e evs -> privileged (fst e) = false)
        /\ forall chat text pm a, ~ In (ReplyText chat text pm, a) evs).
Proof.
  split.
  - destruct (no_replied_user_no_action Mute Example.ann_creator_bot_admin
                Example.fresh Example.clock
                (Example.plain Example.ann Example.group_chat)
                Example.mention_bob eq_refl)
      as (evs & Hlog & Hpriv & Hreply & _).
    exists evs. split; [exact Hlog|]. split; [exact Hpriv|].
    exact (Hreply Example.ann _ eq_refl eq_refl eq_refl).
  - destruct (no_replied_user_no_action Mute Example.ann_creator_bot_admin
                Example.fresh Example.clock Example.edited_by_ann
                Example.mention_bob eq_refl)
      as (evs & Hlog & Hpriv & _ & Hedited).
    exists evs. split; [exact Hlog|]. split; [exact Hpriv|].
    exact (proj2 (Hedited eq_refl)).
Defined.

Lemma replied_message_without_sender_is_silent_witness :
  gated_handler Ban Example.clock Example.in_reply_to_nobody Example.no_args
    Example.ann_creator_bot_admin Example.fresh
  = (Returned tt,
     logged Example.fresh
       [(GetChatMember (-1001) 7, Status "creator");
        (GetChatMember (-1001) 99, Status "administrator")]).
Proof.
  destruct (replied_message_without_sender_is_silent Ban
              Example.ann_creator_bot_admin Example.fresh Example.clock
              Example.in_reply_to_nobody Example.no_args Example.ann _ _
              ltac:(split; discriminate) eq_refl eq_refl eq_refl eq_refl
              eq_refl eq_refl)
    as (s1 & Hrun).
  rewrite Hrun. vm_compute in Hrun. injection Hrun as <-. reflexivity.
Defined.

Lemma kick_leaves_banned_when_unban_fails_witness :
  is_banned
    (log (snd (kick_user Example.in_reply_to_bob Example.no_args
                 Example.unban_fails Example.fresh))) (-1001) 8
  = true.
Proof.
  exact (proj2 (kick_leaves_banned_when_unban_fails Example.unban_fails
                  Example.fresh Example.in_reply_to_bob Example.no_args
                  Example.bob "Bad Request: not enough rights" _
                  eq_refl eq_refl
                  ltac:(do 3 right; left; reflexivity))).
Defined.

Lemma stats_shows_the_messages_tracked_today_witness :
  exists gs' ua' evs,
    tracks_to Example.five_messages Example.ann_creator_bot_admin
      Example.fresh
      {| log := [];
         db := {| group_stats := Some gs'; user_activity := Some ua' |} |}
    /\ log (snd (stats_command Example.clock
                   (Example.plain Example.ann Example.group_chat)
                   Example.no_args Example.ann_creator_bot_admin
                   {| log := [];
                      db := {| group_stats := Some gs';
                               user_activity := Some ua' |} |}))
       = evs
    /\ forall text a,
         In (ReplyText (-1001) text (Some "Markdown"%string), a) evs ->
         exists members admins,
           text = stats_text (Some "Rocq users"%string) members admins
                    (UserActivity.count_active (-1001) "2023-11-14" ua')
                    (SqlInt 3) "2023-11-14 22:13:20".
Proof.
  exact (stats_shows_the_messages_tracked_today Example.ann_creator_bot_admin
           Example.fresh [] [] Example.five_messages Example.clock
           (Example.plain Example.ann Example.group_chat) Example.no_args 0
           eq_refl eq_refl eq_refl eq_refl ltac:(vm_compute; discriminate)).
Defined.

Lemma group_totals_agree_witness :
  exists gs' ua',
    track_all Example.all_members Example.fresh Example.six_updates
    = {| log := log Example.fresh;
         db := {| group_stats := Some gs'; user_activity := Some ua' |} |}
    /\ total_of_users (-1001) ua' = 3
    /\ total_of_days (-1001) gs' = 3.
Proof.
  destruct (group_totals_agree Example.all_members Example.fresh
              Example.six_updates (-1001) 0 [] [] eq_refl eq_refl
              (group_consistent_empty (-1001))
              ltac:(vm_compute; discriminate))
    as (gs' & ua' & [Hall _] & Hu & Hd).
  exists gs', ua'. split; [exact Hall|]. split; [exact Hu | exact Hd].
Defined.
